(** * aws-finops-cost-optimizer: a shallow embedding of the handlers and scripts

    The repository is six independent Python units that list cloud
    resources, filter them and act on the matches.  Each unit is embedded
    below in a module of its own, as a function in a small state and error
    monad whose state is the run's observable trace: the remote calls that
    were issued and the lines that were printed, in program order. *)

From Stdlib Require Import ZArith Floats Ascii.
From stdpp Require Import gmap strings list pretty.

Open Scope Z_scope.

(** ** The Python runtime the units share *)

Module Py.

(** An exception object: its class name and [str(e)]. *)
Record Exn := { exn_type : string; exn_msg : string }.

(** A tag as the compute API carries it: [{"Key": k, "Value": v}]. *)
Record Tag := { Key : string; Value : string }.

(** A server-side listing filter: [{"Name": n, "Values": vs}]. *)
Record Filter := { Name : string; Values : list string }.

#[global] Instance Tag_eq_dec : EqDecision Tag.
Proof. solve_decision. Defined.
#[global] Instance Filter_eq_dec : EqDecision Filter.
Proof. solve_decision. Defined.

(** The remote calls the units issue.  The first four change remote state;
    the listing calls stand for the paginator walking every page. *)
Inductive Call :=
| create_tags (Resources : list string) (Tags : list Tag)
| stop_instances (InstanceIds : list string)
| start_instances (InstanceIds : list string)
| delete_snapshot (SnapshotId : string)
| describe_instances (Filters : list Filter)
| describe_volumes (Filters : list Filter)
| describe_snapshots (OwnerIds : list string)
| describe_addresses
| describe_regions
| get_caller_identity
| get_metric_statistics (Namespace MetricName InstanceId : string)
                        (StartTime EndTime Period : Z)
                        (Statistics : list string)
| get_cost_and_usage (PeriodStart PeriodEnd Granularity : string)
                     (Metrics : list string)
                     (GroupBy : list (string * string)).

Definition mutating (c : Call) : bool :=
  match c with
  | create_tags _ _ | stop_instances _ | start_instances _
  | delete_snapshot _ => true
  | _ => false
  end.

(** What a run lets the outside see: remote calls, printed lines, and the
    text written to a file. *)
Inductive Event :=
| Api (c : Call)
| Stdout (line : string)
| Stderr (line : string)
| Write (path text : string).

Definition api_calls (tr : list Event) : list Call :=
  omap (fun e => match e with Api c => Some c | _ => None end) tr.

(** The mutating remote calls of a trace, in the order they were issued. *)
Definition mutations (tr : list Event) : list Call :=
  filter (fun c => mutating c = true) (api_calls tr).

Definition stdout (tr : list Event) : list string :=
  omap (fun e => match e with Stdout l => Some l | _ => None end) tr.

Definition stderr (tr : list Event) : list string :=
  omap (fun e => match e with Stderr l => Some l | _ => None end) tr.

(** The state of a run: the trace so far, and how often the wall clock was
    read ([datetime.now] gives a later answer each time). *)
Record St := { trace : list Event; ticks : nat }.

Definition st0 : St := {| trace := []; ticks := 0 |}.

(** How a Python call ends: with a value, with a raised exception, or with
    [sys.exit(code)] ([SystemExit] is not an [Exception], so [except
    Exception] does not catch it). *)
Inductive Res (A : Type) :=
| Ok (a : A)
| Raise (e : Exn)
| Exit (code : Z).
Arguments Ok {A} a.
Arguments Raise {A} e.
Arguments Exit {A} code.

Definition M (A : Type) : Type := St -> Res A * St.

Definition ret {A} (a : A) : M A := fun s => (Ok a, s).

Definition bind {A B} (m : M A) (k : A -> M B) : M B :=
  fun s =>
    match m s with
    | (Ok a, s') => k a s'
    | (Raise e, s') => (Raise e, s')
    | (Exit c, s') => (Exit c, s')
    end.

Definition raise {A} (e : Exn) : M A := fun s => (Raise e, s).

(** [sys.exit(code)] *)
Definition sys_exit {A} (code : Z) : M A := fun s => (Exit code, s).

(** [try: m  except Exception as e: h e] *)
Definition try_except {A} (m : M A) (h : Exn -> M A) : M A :=
  fun s =>
    match m s with
    | (Raise e, s') => h e s'
    | r => r
    end.

Definition emit (e : Event) : M unit :=
  fun s => (Ok tt, {| trace := trace s ++ [e]; ticks := ticks s |}).

(** [print(line)] and [print(line, file=sys.stderr)] *)
Definition print (line : string) : M unit := emit (Stdout line).
Definition eprint (line : string) : M unit := emit (Stderr line).

Declare Scope py_scope.
Delimit Scope py_scope with py.
Notation "x <- m ;; k" := (bind m (fun x => k))
  (at level 100, m at next level, right associativity) : py_scope.
Notation "m ;; k" := (bind m (fun _ => k))
  (at level 100, right associativity) : py_scope.
Open Scope py_scope.

(** [for x in xs: acc = body(acc, x)]: the loop over a list, threading the
    local variables the body updates. *)
Fixpoint for_each {A B} (xs : list A) (body : B -> A -> M B) (acc : B) : M B :=
  match xs with
  | [] => ret acc
  | x :: xs' => acc' <- body acc x ;; for_each xs' body acc'
  end.

(** *** Remote resources, as the listing calls describe them

    Keys the code reads with [d["k"]] are fields; keys it reads with
    [d.get("k", ...)] or tests with [in] are optional fields. *)

Module Instance.
Record t := { InstanceId : string; InstanceType : string;
              Tags : option (list Tag) }.
End Instance.

Module Volume.
Record t := { VolumeId : string; Size : Z; Tags : option (list Tag) }.
End Volume.

Module Snapshot.
Record t := { SnapshotId : string; StartTime : Z;
              VolumeId : option string; Tags : option (list Tag) }.
End Snapshot.

Module Address.
Record t := { PublicIp : string; AllocationId : string;
              InstanceId : option string;
              NetworkInterfaceId : option string }.
End Address.

Record Reservation := { Instances : list Instance.t }.
Record InstancesPage := { Reservations : list Reservation }.
Record VolumesPage := { Volumes : list Volume.t }.
Record SnapshotsPage := { Snapshots : list Snapshot.t }.

(** A metrics datapoint; the monitoring service fills in the statistic that
    was asked for. *)
Record Datapoint := { Average : float; Maximum : float }.

(** The cost query's answer, as far as the report reads it:
    [group["Keys"]], [group["Metrics"]["UnblendedCost"]["Amount"]] and
    [["Unit"]]; [result["TimePeriod"]["Start"]] and [["End"]],
    [result.get("Groups", [])]; [response.get("ResultsByTime", [])]. *)
Record Group := { Keys : list string; Amount : string; Unit : string }.
Record ResultByTime := { TimePeriodStart : string; TimePeriodEnd : string;
                         Groups : option (list Group) }.
Record CostResponse := { ResultsByTime : option (list ResultByTime) }.

(** The world a run talks to.  A listing answers with the pages its
    paginator yields; a mutating call may be refused, depending on what was
    issued before it; the clock is read by index; a cost query or opening a
    file for writing may fail.  A listing or a metrics query that fails is
    left out.  Instants are integers, microseconds since the epoch; the
    range of [datetime] is checked where the code does arithmetic on them.
    [str_datetime], [str_list], [str_dict],
    [isoformat] and [strftime_ymd] are the interpreter's own renderings of
    a [datetime], a list of strings and a dict of strings (its items in
    insertion order) inside an f-string, of [datetime.isoformat()] and of
    [date.strftime("%Y-%m-%d")] (a date is a day count). *)
Record World := {
  now : nat -> Z;
  refuses : list Call -> Call -> option Exn;
  str_datetime : Z -> string;
  str_list : list string -> string;
  str_dict : list (string * string) -> string;
  isoformat : Z -> string;
  strftime_ymd : Z -> string;
  instances_pages : list Filter -> list InstancesPage;
  volumes_pages : list Filter -> list VolumesPage;
  snapshots_pages : list string -> list SnapshotsPage;
  addresses : list Address.t;
  regions : list string;
  account : string;
  datapoints : string -> Z -> Z -> Z -> list string -> list Datapoint;
  cost_and_usage : string -> string -> string -> list string ->
                   list (string * string) -> Exn + CostResponse;
  open_fails : string -> option Exn
}.

(** Issue a remote mutating call: it is on the wire before its outcome is
    known, and a refusal surfaces as the exception the SDK raises. *)
Definition issue (w : World) (c : Call) : M unit :=
  fun s =>
    let s' := {| trace := trace s ++ [Api c]; ticks := ticks s |} in
    match refuses w (api_calls (trace s)) c with
    | None => (Ok tt, s')
    | Some e => (Raise e, s')
    end.

(** [ec2.get_paginator("describe_instances").paginate(Filters=fs)] *)
Definition paginate_instances (w : World) (fs : list Filter)
  : M (list InstancesPage) :=
  emit (Api (describe_instances fs)) ;; ret (instances_pages w fs).

(** [ec2.get_paginator("describe_volumes").paginate(Filters=fs)] *)
Definition paginate_volumes (w : World) (fs : list Filter)
  : M (list VolumesPage) :=
  emit (Api (describe_volumes fs)) ;; ret (volumes_pages w fs).

(** [ec2.get_paginator("describe_snapshots").paginate(OwnerIds=owners)] *)
Definition paginate_snapshots (w : World) (owners : list string)
  : M (list SnapshotsPage) :=
  emit (Api (describe_snapshots owners)) ;; ret (snapshots_pages w owners).

(** [boto3.client("sts").get_caller_identity().get("Account")] *)
Definition caller_account (w : World) : M string :=
  emit (Api get_caller_identity) ;; ret (account w).

(** [cloudwatch.get_metric_statistics(Namespace="AWS/EC2",
    MetricName="CPUUtilization", Dimensions=[{"Name": "InstanceId",
    "Value": id}], ...)["Datapoints"]] *)
Definition metric_datapoints (w : World) (id : string) (start stop period : Z)
    (statistics : list string) : M (list Datapoint) :=
  emit (Api (get_metric_statistics "AWS/EC2" "CPUUtilization" id
               start stop period statistics)) ;;
  ret (datapoints w id start stop period statistics).

(** [with open(path, "w") as f: f.write(text)] *)
Definition write_file (w : World) (path text : string) : M unit :=
  match open_fails w path with
  | Some e => raise e
  | None => emit (Write path text)
  end.

(** [datetime.now(timezone.utc)], in microseconds since the epoch. *)
Definition datetime_now (w : World) : M Z :=
  fun s => (Ok (now w (ticks s)), {| trace := trace s; ticks := S (ticks s) |}).

(** The length of [d] days, in microseconds. *)
Definition timedelta_days (d : Z) : Z := d * 86400000000.

Definition OverflowError (msg : string) : Exn :=
  {| exn_type := "OverflowError"; exn_msg := msg |}.

(** [timedelta(days=d)], as its number of days: the constructor takes no
    more than 999999999 days either way, and reads its argument into a C
    [int] first. *)
Definition timedelta (d : Z) : M Z :=
  if bool_decide (-999999999 <= d <= 999999999) then ret d
  else if bool_decide (-2147483648 <= d <= 2147483647) then
    raise (OverflowError ("days=" +:+ pretty d
                          +:+ "; must have magnitude <= 999999999"))
  else raise (OverflowError "Python int too large to convert to C int").

(** The first and the last instant a [datetime] holds,
    0001-01-01T00:00:00 and 9999-12-31T23:59:59.999999, and the first and
    the last day a [date] holds. *)
Definition datetime_min : Z := -719162 * 86400000000.
Definition datetime_max : Z := 2932897 * 86400000000 - 1.
Definition date_min : Z := -719162.
Definition date_max : Z := 2932896.

(** [t - delta] for a [datetime] [t] and a [timedelta] of [d] days. *)
Definition datetime_sub (t d : Z) : M Z :=
  if bool_decide (datetime_min <= t - timedelta_days d <= datetime_max)
  then ret (t - timedelta_days d)
  else raise (OverflowError "date value out of range").

(** [day - delta] for a [date] and a [timedelta] of [d] days. *)
Definition date_sub (day d : Z) : M Z :=
  if bool_decide (date_min <= day - d <= date_max) then ret (day - d)
  else raise (OverflowError "date value out of range").

End Py.

Import Py.

(** ** src/lambda/auto_tagger/main.py *)

Module AutoTagger.

(** [{t["Key"] for t in tags}] *)
Definition tag_keys (tags : list Tag) : gset string :=
  list_to_set (Key <$> tags).

(** A [dict] of strings is the list of its items in insertion order;
    the keys of a dict are distinct.

    [{k: v for k, v in default_tags.items() if k not in existing_tags}] *)
Definition tags_to_add (default_tags : list (string * string))
    (existing_tags : gset string) : list (string * string) :=
  filter (fun kv => kv.1 ∉ existing_tags) default_tags.

(** [[{"Key": k, "Value": v} for k, v in tags_to_add.items()]] *)
Definition tag_list (d : list (string * string)) : list Tag :=
  (fun kv => {| Key := kv.1; Value := kv.2 |}) <$> d.

Definition tag_untagged_instances (ec2 : World)
    (default_tags : list (string * string)) : M (list string) :=
  pages <- paginate_instances ec2
             [{| Name := "instance-state-name";
                 Values := ["running"; "stopped"] |}] ;;
  for_each pages (fun ids page =>
    for_each (Reservations page) (fun ids reservation =>
      for_each (Instances reservation) (fun ids instance =>
        let instance_id := Instance.InstanceId instance in
        let existing_tags := tag_keys (default [] (Instance.Tags instance)) in
        let delta := tags_to_add default_tags existing_tags in
        if decide (delta ≠ []) then
          print ("Tagging instance " +:+ instance_id +:+ " with: "
                 +:+ str_dict ec2 delta) ;;
          issue ec2 (create_tags [instance_id] (tag_list delta)) ;;
          ret (ids ++ [instance_id])
        else ret ids) ids) ids) [].

Definition tag_untagged_volumes (ec2 : World)
    (default_tags : list (string * string)) : M (list string) :=
  pages <- paginate_volumes ec2 [] ;;
  for_each pages (fun ids page =>
    for_each (Volumes page) (fun ids volume =>
      let volume_id := Volume.VolumeId volume in
      let existing_tags := tag_keys (default [] (Volume.Tags volume)) in
      let delta := tags_to_add default_tags existing_tags in
      if decide (delta ≠ []) then
        print ("Tagging volume " +:+ volume_id +:+ " with: "
               +:+ str_dict ec2 delta) ;;
        issue ec2 (create_tags [volume_id] (tag_list delta)) ;;
        ret (ids ++ [volume_id])
      else ret ids) ids) [].

(** *** What the bulk-tag call does to the remote tag state

    The remote service adds each key of the call to the resource, giving a
    key that is already there its new value and leaving every other tag as
    it was. *)

Fixpoint put_tag (t : Tag) (tags : list Tag) : list Tag :=
  match tags with
  | [] => [t]
  | t' :: rest =>
      if decide (Key t' = Key t) then t :: rest else t' :: put_tag t rest
  end.

Definition put_tags (new tags : list Tag) : list Tag :=
  foldl (fun acc t => put_tag t acc) tags new.

Definition tagged (c : Call) (id : string) (tags : option (list Tag))
  : option (list Tag) :=
  match c with
  | create_tags ids new =>
      if decide (id ∈ ids) then Some (put_tags new (default [] tags)) else tags
  | _ => tags
  end.

Definition tagged_instance (c : Call) (i : Instance.t) : Instance.t :=
  {| Instance.InstanceId := Instance.InstanceId i;
     Instance.InstanceType := Instance.InstanceType i;
     Instance.Tags := tagged c (Instance.InstanceId i) (Instance.Tags i) |}.

Definition tagged_volume (c : Call) (v : Volume.t) : Volume.t :=
  {| Volume.VolumeId := Volume.VolumeId v;
     Volume.Size := Volume.Size v;
     Volume.Tags := tagged c (Volume.VolumeId v) (Volume.Tags v) |}.

Definition map_instances (f : Instance.t -> Instance.t)
    (pages : list InstancesPage) : list InstancesPage :=
  (fun p => {| Reservations :=
     (fun r => {| Instances := f <$> Instances r |}) <$> Reservations p |})
  <$> pages.

Definition map_volumes (f : Volume.t -> Volume.t)
    (pages : list VolumesPage) : list VolumesPage :=
  (fun p => {| Volumes := f <$> Volumes p |}) <$> pages.

(** The world after the accepted calls [cs] have taken effect, oldest
    first. *)
Definition after (cs : list Call) (w : World) : World :=
  {| now := now w;
     refuses := refuses w;
     str_datetime := str_datetime w;
     str_list := str_list w;
     str_dict := str_dict w;
     isoformat := isoformat w;
     strftime_ymd := strftime_ymd w;
     instances_pages := fun fs =>
       map_instances (fun i => foldl (fun i c => tagged_instance c i) i cs)
                     (instances_pages w fs);
     volumes_pages := fun fs =>
       map_volumes (fun v => foldl (fun v c => tagged_volume c v) v cs)
                   (volumes_pages w fs);
     snapshots_pages := snapshots_pages w;
     addresses := addresses w;
     regions := regions w;
     account := account w;
     datapoints := datapoints w;
     cost_and_usage := cost_and_usage w;
     open_fails := open_fails w |}.

End AutoTagger.

(** ** src/lambda/scheduler/main.py *)

Module Scheduler.

(** The invocation event, as far as the handler reads it:
    [event.get("action", ...)]. *)
Record Event := { action : option string }.

Record Response := { statusCode : Z; body : string }.

(** The names the module binds at top level: its three imports
    ([boto3], [os], and [Dict], [List], [Any] from [typing]) and its four
    functions. *)
Definition module_globals : list string :=
  ["boto3"; "os"; "Dict"; "List"; "Any"; "lambda_handler"; "stop_instances";
   "start_instances"; "get_instances_by_tag"].

(** Evaluating a global name that the module never bound. *)
Definition load_global (name : string) : M unit :=
  if decide (name ∈ module_globals) then ret tt
  else raise {| exn_type := "NameError";
                exn_msg := "name '" +:+ name +:+ "' is not defined" |}.

Definition get_instances_by_tag (ec2 : World) (tag_key tag_value : string)
  : M (list string) :=
  pages <- paginate_instances ec2
             [{| Name := "tag:" +:+ tag_key; Values := [tag_value] |};
              {| Name := "instance-state-name";
                 Values := if decide (tag_value = "stop") then ["running"]
                           else ["stopped"] |}] ;;
  for_each pages (fun ids page =>
    for_each (Reservations page) (fun ids reservation =>
      for_each (Instances reservation) (fun ids instance =>
        ret (ids ++ [Instance.InstanceId instance])) ids) ids) [].

Definition stop_instances (ec2 : World) (tag_key : string) : M (list string) :=
  instances_to_stop <- get_instances_by_tag ec2 tag_key "stop" ;;
  match instances_to_stop with
  | [] => ret instances_to_stop
  | _ :: _ =>
      print ("Stopping instances: " +:+ str_list ec2 instances_to_stop) ;;
      issue ec2 (Py.stop_instances instances_to_stop) ;;
      ret instances_to_stop
  end.

Definition start_instances (ec2 : World) (tag_key : string) : M (list string) :=
  instances_to_start <- get_instances_by_tag ec2 tag_key "start" ;;
  match instances_to_start with
  | [] => ret instances_to_start
  | _ :: _ =>
      print ("Starting instances: " +:+ str_list ec2 instances_to_start) ;;
      issue ec2 (Py.start_instances instances_to_start) ;;
      ret instances_to_start
  end.

(** [lambda_handler(event, context)]; [environ] is [os.environ], [clients]
    is [boto3.client("ec2", region_name=...)], and [dumps] is what
    [json.dumps] would be had the module imported it. *)
Definition lambda_handler (environ : gmap string string)
    (clients : string -> World) (dumps : string -> list string -> string)
    (event : Event) : M Response :=
  let region := default "us-east-1" (environ !! "AWS_REGION") in
  let action := default "stop" (action event) in
  let tag_key := default "AutoScheduler" (environ !! "TAG_KEY") in
  let ec2 := clients region in
  if decide (action = "stop") then
    stopped_instances <- stop_instances ec2 tag_key ;;
    load_global "json" ;;
    ret {| statusCode := 200;
           body := dumps "StoppedInstances" stopped_instances |}
  else if decide (action = "start") then
    started_instances <- start_instances ec2 tag_key ;;
    load_global "json" ;;
    ret {| statusCode := 200;
           body := dumps "StartedInstances" started_instances |}
  else ret {| statusCode := 400; body := "Invalid action specified" |}.

End Scheduler.

(** ** src/lambda/snapshot_cleanup/main.py *)

Module SnapshotCleanup.

(** [any(tag.get("Key") == "Retain" for tag in tags)] *)
Definition has_retain (tags : list Tag) : bool :=
  existsb (fun tag => bool_decide (Key tag = "Retain")) tags.

Definition cleanup_snapshots (ec2 : World) (retention_days : Z)
    (dry_run : bool) : M (list string) :=
  owner_id <- caller_account ec2 ;;
  pages <- paginate_snapshots ec2 [owner_id] ;;
  for_each pages (fun ids page =>
    for_each (Snapshots page) (fun ids snapshot =>
      let snapshot_id := Snapshot.SnapshotId snapshot in
      let start_time := Snapshot.StartTime snapshot in
      if has_retain (default [] (Snapshot.Tags snapshot)) then
        print ("Skipping snapshot " +:+ snapshot_id
               +:+ " due to 'Retain' tag.") ;;
        ret ids
      else
        current <- datetime_now ec2 ;;
        delta <- timedelta retention_days ;;
        cutoff <- datetime_sub current delta ;;
        if decide (start_time < cutoff) then
          print ("Found old snapshot: " +:+ snapshot_id +:+ " (created "
                 +:+ str_datetime ec2 start_time +:+ ")") ;;
          if negb dry_run then
            try_except
              (issue ec2 (delete_snapshot snapshot_id) ;;
               print ("Deleted snapshot: " +:+ snapshot_id) ;;
               ret (ids ++ [snapshot_id]))
              (fun e =>
               print ("Error deleting snapshot " +:+ snapshot_id +:+ ": "
                      +:+ exn_msg e) ;;
               ret ids)
          else
            print ("(Dry Run) Would have deleted snapshot: "
                   +:+ snapshot_id) ;;
            ret (ids ++ [snapshot_id])
        else ret ids) ids) [].

End SnapshotCleanup.

(** ** Python's binary64 floats

    Arithmetic and comparison are the kernel's IEEE 754 double operations.
    Conversions to and from decimal go through the exact value of the
    double, as the interpreter's correctly rounded conversions do.  A [str]
    is read as a sequence of code points below 256. *)

Module PyFloat.

(** [round_half_even (m * 2^e * 100)], the exact value of a positive double
    scaled to hundredths and rounded to an integer, ties to even. *)
Definition hundredths (m : positive) (e : Z) : Z :=
  match e with
  | Zneg k =>
      let d := 2 ^ Zpos k in
      let '(q, r) := Z.div_eucl (Zpos m * 100) d in
      match 2 * r ?= d with
      | Lt => q
      | Gt => q + 1
      | Eq => if Z.even q then q else q + 1
      end
  | _ => Zpos m * 100 * 2 ^ e
  end.

(** [round(x, 2)]: the double nearest to the two-place decimal nearest to
    [x]; zeros, infinities and nan are returned as they are. *)
Definition round2 (x : float) : float :=
  match Prim2SF x with
  | S754_finite s m e =>
      match hundredths m e with
      | Zpos n =>
          SF2Prim (SFdiv prec emax (S754_finite s n 0) (S754_finite false 100 0))
      | _ => SF2Prim (S754_zero s)
      end
  | _ => x
  end.

(** Group the digits of an integer part in threes, as the [,] option of the
    format mini-language does. *)
Definition group3 (digits : string) : string :=
  let n := String.length digits in
  (fix go (cs : list ascii) (left : nat) : string :=
     match cs with
     | [] => EmptyString
     | c :: cs' =>
         String c (if decide (left ≠ 1%nat ∧ (left - 1) mod 3 = 0)%nat
                   then "," +:+ go cs' (left - 1)%nat
                   else go cs' (left - 1)%nat)
     end) (String.list_ascii_of_string digits) n.

Definition fixed2 (grouping : bool) (n : Z) : string :=
  let whole := pretty (n / 100) in
  (if grouping then group3 whole else whole)
  +:+ "." +:+ pretty (n mod 100 / 10) +:+ pretty (n mod 10).

(** [format(x, ".2f")] and, with [grouping], [format(x, ",.2f")]. *)
Definition format_2f (grouping : bool) (x : float) : string :=
  match Prim2SF x with
  | S754_nan => "nan"
  | S754_infinity s => if s then "-inf" else "inf"
  | S754_zero s => (if s then "-" else EmptyString) +:+ "0.00"
  | S754_finite s m e =>
      (if s then "-" else EmptyString) +:+ fixed2 grouping (hundredths m e)
  end.

(** [format(s, ">w")] and [format(s, "<w")] on a string. *)
Definition rjust (w : nat) (s : string) : string :=
  String.concat EmptyString (replicate (w - String.length s) " ") +:+ s.
Definition ljust (w : nat) (s : string) : string :=
  s +:+ String.concat EmptyString (replicate (w - String.length s) " ").

(** [max(x, *xs)]: the first of the largest, found with [>]. *)
Definition max (x : float) (xs : list float) : float :=
  foldl (fun best v => if PrimFloat.ltb best v then v else best) x xs.

(** [sum(xs)] once the running total is a float.  CPython 3.12 and later
    carry a compensation term (Neumaier); earlier versions add from left to
    right. *)
Definition sum_from (compensated : bool) (total0 : float) (xs : list float)
  : float :=
  if compensated then
    let '(total, c) :=
      foldl (fun '(total, c) x =>
               let t := (total + x)%float in
               if PrimFloat.leb (abs x) (abs total)
               then (t, (c + ((total - t) + x))%float)
               else (t, (c + ((x - t) + total))%float))
            (total0, 0%float) xs in
    if negb (PrimFloat.eqb c 0) && PrimFloat.ltb (abs c) infinity
    then (total + c)%float else total
  else foldl (fun total x => (total + x)%float) total0 xs.

(** *** [float(str)] *)

Definition code (c : ascii) : Z := Z.of_N (N_of_ascii c).

Definition is_space (c : ascii) : bool :=
  bool_decide (code c ∈ [9; 10; 11; 12; 13; 32; 133; 160]).

Definition is_digit (c : ascii) : bool := bool_decide (48 <= code c <= 57).

Definition lower (c : ascii) : ascii :=
  if bool_decide (65 <= code c <= 90) then ascii_of_N (N_of_ascii c + 32)
  else c.

Fixpoint lstrip (cs : list ascii) : list ascii :=
  match cs with
  | c :: cs' => if is_space c then lstrip cs' else cs
  | [] => []
  end.

Definition strip (cs : list ascii) : list ascii :=
  reverse (lstrip (reverse (lstrip cs))).

(** An underscore may stand between two digits and nowhere else. *)
Fixpoint drop_underscores (prev : option ascii) (cs : list ascii)
  : option (list ascii) :=
  match cs with
  | [] => Some []
  | c :: rest =>
      if bool_decide (code c = 95) then
        match prev, rest with
        | Some p, n :: _ =>
            if is_digit p && is_digit n then drop_underscores (Some c) rest
            else None
        | _, _ => None
        end
      else cons c <$> drop_underscores (Some c) rest
  end.

Fixpoint span_digits (cs : list ascii) : list ascii * list ascii :=
  match cs with
  | c :: cs' =>
      if is_digit c then let '(ds, rest) := span_digits cs' in (c :: ds, rest)
      else ([], cs)
  | [] => ([], [])
  end.

Definition digits_value (ds : list ascii) : Z :=
  foldl (fun n d => 10 * n + (code d - 48)) 0 ds.

Definition take_sign (cs : list ascii) : bool * list ascii :=
  match cs with
  | c :: rest =>
      if bool_decide (code c = 45) then (true, rest)
      else if bool_decide (code c = 43) then (false, rest)
      else (false, cs)
  | [] => (false, [])
  end.

(** The double nearest to [(-1)^s * n * 10^e]. *)
Definition of_decimal (s : bool) (n e : Z) : float :=
  match n with
  | Zpos p =>
      if bool_decide (0 <= e) then
        SF2Prim (binary_normalize prec emax
                   ((if s then -1 else 1) * n * 10 ^ e) 0 false)
      else
        SF2Prim (SFdiv prec emax (S754_finite s p 0)
                   (S754_finite false (Z.to_pos (10 ^ (- e))) 0))
  | _ => SF2Prim (S754_zero s)
  end.

(** [float(text)]; [None] is [ValueError]. *)
Definition parse (text : string) : option float :=
  cs ← drop_underscores None (strip (String.list_ascii_of_string text)) ;
  let '(s, body) := take_sign cs in
  let word := String.string_of_list_ascii (lower <$> body) in
  if bool_decide (word = "inf" ∨ word = "infinity") then
    Some (if s then neg_infinity else infinity)
  else if bool_decide (word = "nan") then Some nan
  else
    let '(ip, r1) := span_digits body in
    let '(fp, r2) := match r1 with
                     | c :: r => if bool_decide (code c = 46) then span_digits r
                                 else ([], r1)
                     | [] => ([], [])
                     end in
    if bool_decide (ip = [] ∧ fp = []) then None
    else
      ex ← match r2 with
           | [] => Some 0
           | c :: r3 =>
               if bool_decide (code (lower c) = 101) then
                 let '(es, r4) := take_sign r3 in
                 let '(ed, r5) := span_digits r4 in
                 if bool_decide (ed = [] ∨ r5 ≠ []) then None
                 else Some ((if es then -1 else 1) * digits_value ed)
               else None
           end ;
      Some (of_decimal s (digits_value (ip ++ fp)) (ex - Z.of_nat (length fp))).

End PyFloat.

(** ** src/scripts/unused_resources.py *)

Module UnusedResources.

(** The object [UnusedResourceFinder(region)] builds: its clients and the
    region it remembers. *)
Record UnusedResourceFinder := { client : World; region : string }.

Record IdleInstance := {
  InstanceId : string; InstanceType : string; Region : string;
  Finding : string; Metric : string; Value : string;
  Recommendation : string }.

Record UnattachedVolume := {
  uv_VolumeId : string; uv_Size : Z; uv_Region : string;
  uv_Finding : string; uv_Recommendation : string }.

Record UnusedIp := {
  ip_PublicIp : string; ip_AllocationId : string; ip_Region : string;
  ip_Finding : string; ip_Recommendation : string }.

Record OldSnapshot := {
  os_SnapshotId : string; os_VolumeId : string; os_StartTime : string;
  os_Region : string; os_Finding : string; os_Recommendation : string }.

Record Results := {
  IdleEC2Instances : list IdleInstance;
  UnattachedEBSVolumes : list UnattachedVolume;
  UnusedElasticIPs : list UnusedIp;
  OldEBSSnapshots : list OldSnapshot }.

Definition find_idle_ec2_instances (self : UnusedResourceFinder)
    (cpu_threshold : float) (days : Z) : M (list IdleInstance) :=
  pages <- paginate_instances (client self)
             [{| Name := "instance-state-name"; Values := ["running"] |}] ;;
  for_each pages (fun idle page =>
    for_each (Reservations page) (fun idle reservation =>
      for_each (Instances reservation) (fun idle instance =>
        let instance_id := Instance.InstanceId instance in
        t0 <- datetime_now (client self) ;;
        delta <- timedelta days ;;
        start_time <- datetime_sub t0 delta ;;
        t1 <- datetime_now (client self) ;;
        datapoints <- metric_datapoints (client self) instance_id
                        start_time t1 86400 ["Average"] ;;
        match datapoints with
        | [] => ret idle
        | dp :: dps =>
            let avg_cpu := PyFloat.max (Average dp) (Average <$> dps) in
            if PrimFloat.ltb avg_cpu cpu_threshold then
              ret (idle ++ [{|
                InstanceId := instance_id;
                InstanceType := Instance.InstanceType instance;
                Region := region self;
                Finding := "Idle EC2 Instance";
                Metric := "Max CPU Utilization (" +:+ pretty days +:+ "d)";
                Value := PyFloat.format_2f false avg_cpu +:+ "%";
                Recommendation := "Stop or terminate instance" |}])
            else ret idle
        end) idle) idle) [].

Definition find_unattached_ebs_volumes (self : UnusedResourceFinder)
  : M (list UnattachedVolume) :=
  pages <- paginate_volumes (client self)
             [{| Name := "status"; Values := ["available"] |}] ;;
  for_each pages (fun found page =>
    for_each (Volumes page) (fun found volume =>
      ret (found ++ [{|
        uv_VolumeId := Volume.VolumeId volume;
        uv_Size := Volume.Size volume;
        uv_Region := region self;
        uv_Finding := "Unattached EBS Volume";
        uv_Recommendation := "Delete volume or attach to an instance" |}]))
      found) [].

Definition find_unused_elastic_ips (self : UnusedResourceFinder)
  : M (list UnusedIp) :=
  emit (Api describe_addresses) ;;
  for_each (addresses (client self)) (fun found address =>
    match Address.InstanceId address, Address.NetworkInterfaceId address with
    | None, None =>
        ret (found ++ [{|
          ip_PublicIp := Address.PublicIp address;
          ip_AllocationId := Address.AllocationId address;
          ip_Region := region self;
          ip_Finding := "Unused Elastic IP";
          ip_Recommendation := "Release Elastic IP" |}])
    | _, _ => ret found
    end) [].

Definition find_old_ebs_snapshots (self : UnusedResourceFinder)
    (retention_days : Z) : M (list OldSnapshot) :=
  owner_id <- caller_account (client self) ;;
  pages <- paginate_snapshots (client self) [owner_id] ;;
  for_each pages (fun old page =>
    for_each (Snapshots page) (fun old snapshot =>
      let start_time := Snapshot.StartTime snapshot in
      current <- datetime_now (client self) ;;
      delta <- timedelta retention_days ;;
      cutoff <- datetime_sub current delta ;;
      if decide (start_time < cutoff) then
        ret (old ++ [{|
          os_SnapshotId := Snapshot.SnapshotId snapshot;
          os_VolumeId := default "N/A" (Snapshot.VolumeId snapshot);
          os_StartTime := isoformat (client self) start_time;
          os_Region := region self;
          os_Finding := "Old EBS Snapshot";
          os_Recommendation := "Delete snapshot (older than "
                               +:+ pretty retention_days +:+ " days)" |}])
      else ret old) old) [].

Definition scan_all (self : UnusedResourceFinder) (cpu_threshold : float)
    (ec2_days snapshot_days : Z) : M Results :=
  print ("Scanning for unused resources in " +:+ region self +:+ "...") ;;
  idle <- find_idle_ec2_instances self cpu_threshold ec2_days ;;
  volumes <- find_unattached_ebs_volumes self ;;
  ips <- find_unused_elastic_ips self ;;
  snapshots <- find_old_ebs_snapshots self snapshot_days ;;
  print "Scan complete." ;;
  ret {| IdleEC2Instances := idle; UnattachedEBSVolumes := volumes;
         UnusedElasticIPs := ips; OldEBSSnapshots := snapshots |}.

(** The parsed command line. *)
Record Args := {
  arg_region : option string; arg_all_regions : bool; arg_output : string;
  arg_cpu_threshold : float; arg_ec2_days : Z; arg_snapshot_days : Z }.

(** Truth value of an optional string: [None] and the empty string are
    false. *)
Definition truthy (s : option string) : bool :=
  match s with
  | Some s => negb (bool_decide (s = EmptyString))
  | None => false
  end.

(** [main()], from the parsed arguments on; [clients] is [boto3.client]
    by region, [host] is the machine the script runs on and [json_dump] is
    the text [json.dump(..., indent=2)] writes. *)
Definition main (clients : string -> World) (host : World)
    (json_dump : Results -> string) (args : Args) : M unit :=
  (if negb (truthy (arg_region args)) && negb (arg_all_regions args) then
     eprint "Error: You must specify either --region or --all-regions" ;;
     sys_exit 1
   else ret tt) ;;
  regions <- (if truthy (arg_region args)
              then ret [default EmptyString (arg_region args)]
              else if arg_all_regions args
              then emit (Api describe_regions) ;;
                   ret (regions (clients "us-east-1"))
              else ret []) ;;
  all_results <-
    for_each regions (fun all_results region =>
      try_except
        (let finder := {| client := clients region; region := region |} in
         results <- scan_all finder (arg_cpu_threshold args)
                      (arg_ec2_days args) (arg_snapshot_days args) ;;
         ret {| IdleEC2Instances :=
                  IdleEC2Instances all_results ++ IdleEC2Instances results;
                UnattachedEBSVolumes :=
                  UnattachedEBSVolumes all_results
                  ++ UnattachedEBSVolumes results;
                UnusedElasticIPs :=
                  UnusedElasticIPs all_results ++ UnusedElasticIPs results;
                OldEBSSnapshots :=
                  OldEBSSnapshots all_results ++ OldEBSSnapshots results |})
        (fun e =>
         eprint ("Error scanning region " +:+ region +:+ ": "
                 +:+ exn_msg e) ;;
         ret all_results))
      {| IdleEC2Instances := []; UnattachedEBSVolumes := [];
         UnusedElasticIPs := []; OldEBSSnapshots := [] |} ;;
  try_except
    (write_file host (arg_output args) (json_dump all_results) ;;
     print ("Results saved to " +:+ arg_output args))
    (fun e =>
     eprint ("Error writing to output file: " +:+ exn_msg e) ;;
     sys_exit 1).

End UnusedResources.

(** ** src/scripts/rightsizing_recommendations.py *)

Module Rightsizing.

Record RightSizingRecommender := { client : World; region : string }.

Record Recommendation := {
  InstanceId : string; InstanceType : string; Region : string;
  Finding : string; MaxCPU : string; MaxMemory : string;
  Advice : string }.

Definition get_right_sizing_recommendations (self : RightSizingRecommender)
    (days : Z) (cpu_threshold mem_threshold : float)
  : M (list Recommendation) :=
  pages <- paginate_instances (client self)
             [{| Name := "instance-state-name"; Values := ["running"] |}] ;;
  for_each pages (fun recs page =>
    for_each (Reservations page) (fun recs reservation =>
      for_each (Instances reservation) (fun recs instance =>
        let instance_id := Instance.InstanceId instance in
        let instance_type := Instance.InstanceType instance in
        t0 <- datetime_now (client self) ;;
        delta <- timedelta days ;;
        start_time <- datetime_sub t0 delta ;;
        t1 <- datetime_now (client self) ;;
        cpu_metrics <- metric_datapoints (client self) instance_id
                         start_time t1 3600 ["Maximum"] ;;
        match cpu_metrics with
        | [] => ret recs
        | dp :: dps =>
            let max_cpu := PyFloat.max (Maximum dp) (Maximum <$> dps) in
            let max_mem := 30%float in
            if PrimFloat.ltb max_cpu cpu_threshold
               && PrimFloat.ltb max_mem mem_threshold then
              ret (recs ++ [{|
                InstanceId := instance_id;
                InstanceType := instance_type;
                Region := region self;
                Finding := "Over-provisioned EC2 Instance";
                MaxCPU := PyFloat.format_2f false max_cpu +:+ "%";
                MaxMemory := PyFloat.format_2f false max_mem
                             +:+ "% (Simulated)";
                Advice := "Consider smaller instance type (e.g., from "
                          +:+ instance_type
                          +:+ " to a smaller size in the same family)" |}])
            else ret recs
        end) recs) recs) [].

(** The default of the [mem_threshold] parameter, the value every call in
    the script runs with. *)
Definition default_mem_threshold : float := 40%float.

End Rightsizing.

(** ** src/scripts/cost_analysis.py *)

Module CostAnalysis.

Record CostAnalyzer := { client : World }.

(** A cost record; [Percentage] is the key [calculate_percentage] adds. *)
Record CostRecord := {
  PeriodStart : string; PeriodEnd : string; Dimension : string;
  Value : string; Cost : float; Currency : string;
  Percentage : option float }.

Definition newline : string := String (ascii_of_nat 10) EmptyString.

(** [s.endswith(suffix)] *)
Definition endswith (s suffix : string) : bool :=
  let n := String.length s in
  let k := String.length suffix in
  bool_decide (k <= n)%nat
  && bool_decide (String.substring (n - k) k s = suffix).

Definition get_cost_and_usage (self : CostAnalyzer)
    (start_date end_date granularity : string)
    (group_by : list (string * string)) (metrics : option (list string))
  : M CostResponse :=
  let metrics := default ["UnblendedCost"] metrics in
  try_except
    (emit (Api (Py.get_cost_and_usage start_date end_date granularity
                  metrics group_by)) ;;
     match cost_and_usage (client self) start_date end_date granularity
             metrics group_by with
     | inl e => raise e
     | inr response => ret response
     end)
    (fun e =>
     eprint ("Error querying Cost Explorer: " +:+ exn_msg e) ;;
     sys_exit 1).

(** [records.sort(key=lambda x: x["Cost"], reverse=True)]: a stable sort,
    largest cost first, records of equal cost in their original order
    (for costs that [<] orders; nan does not take part in an order). *)
Fixpoint insert_desc (r : CostRecord) (sorted : list CostRecord)
  : list CostRecord :=
  match sorted with
  | [] => [r]
  | r' :: rest =>
      if PrimFloat.ltb (Cost r) (Cost r') then r' :: insert_desc r rest
      else r :: sorted
  end.

Definition sort_desc (records : list CostRecord) : list CostRecord :=
  foldr insert_desc [] records.

Definition analyze_costs (self : CostAnalyzer) (days : Z)
    (group_by_dimension : string) : M (list CostRecord) :=
  current <- datetime_now (client self) ;;
  let end_date := current `div` 86400000000 in
  delta <- timedelta days ;;
  start_date <- date_sub end_date delta ;;
  let start_str := strftime_ymd (client self) start_date in
  let end_str := strftime_ymd (client self) end_date in
  let group_by := [("DIMENSION", group_by_dimension)] in
  response <- get_cost_and_usage self start_str end_str "MONTHLY" group_by
                None ;;
  cost_records <-
    for_each (default [] (ResultsByTime response)) (fun records result =>
      let period_start := TimePeriodStart result in
      let period_end := TimePeriodEnd result in
      for_each (default [] (Groups result)) (fun records group =>
        match Keys group with
        | [] => raise {| exn_type := "IndexError";
                         exn_msg := "list index out of range" |}
        | dimension_value :: _ =>
            match PyFloat.parse (Amount group) with
            | None => raise {| exn_type := "ValueError";
                               exn_msg := "could not convert string to float: '"
                                          +:+ Amount group +:+ "'" |}
            | Some cost =>
                ret (records ++ [{|
                  PeriodStart := period_start;
                  PeriodEnd := period_end;
                  Dimension := group_by_dimension;
                  Value := dimension_value;
                  Cost := PyFloat.round2 cost;
                  Currency := Unit group;
                  Percentage := None |}])
            end
        end) records) [] ;;
  ret (sort_desc cost_records).

(** [sum(record["Cost"] for record in cost_records)]; the integer [0] it
    starts from behaves as the float [0.0] in every use made of it.
    [py312] says whether the interpreter sums floats with compensation. *)
Definition calculate_total_cost (py312 : bool) (cost_records : list CostRecord)
  : float :=
  match Cost <$> cost_records with
  | [] => 0%float
  | c :: cs => PyFloat.sum_from py312 (0 + c)%float cs
  end.

Definition calculate_percentage (py312 : bool)
    (cost_records : list CostRecord) : list CostRecord :=
  let total_cost := calculate_total_cost py312 cost_records in
  if PrimFloat.eqb total_cost 0 then cost_records
  else
    (fun record => {|
       PeriodStart := PeriodStart record;
       PeriodEnd := PeriodEnd record;
       Dimension := Dimension record;
       Value := Value record;
       Cost := Cost record;
       Currency := Currency record;
       Percentage :=
         Some (PyFloat.round2 ((Cost record / total_cost) * 100)%float) |})
    <$> cost_records.

(** [cost_records[:top_n]] *)
Definition slice_to (top_n : Z) (records : list CostRecord)
  : list CostRecord :=
  if bool_decide (0 <= top_n) then take (Z.to_nat top_n) records
  else take (length records - Z.to_nat (- top_n)) records.

Definition rule (c : string) : string :=
  String.concat EmptyString (replicate 80 c).

Definition print_summary (py312 : bool) (cost_records : list CostRecord)
    (top_n : Z) : M unit :=
  match cost_records with
  | [] => print "No cost data available"
  | first :: _ =>
      let total_cost := calculate_total_cost py312 cost_records in
      print (newline +:+ rule "=") ;;
      print "AWS Cost Analysis Summary" ;;
      print (rule "=") ;;
      print ("Total Cost: $" +:+ PyFloat.format_2f true total_cost +:+ " "
             +:+ Currency first) ;;
      print ("Period: " +:+ PeriodStart first +:+ " to " +:+ PeriodEnd first) ;;
      print ("Group By: " +:+ Dimension first) ;;
      print (newline +:+ "Top " +:+ pretty top_n +:+ " Cost Items:") ;;
      print (rule "-") ;;
      print (PyFloat.ljust 6 "Rank" +:+ " " +:+ PyFloat.ljust 40 "Item"
             +:+ " " +:+ PyFloat.ljust 15 "Cost" +:+ " "
             +:+ PyFloat.ljust 10 "Percentage") ;;
      print (rule "-") ;;
      for_each (slice_to top_n cost_records) (fun idx record =>
        print (PyFloat.ljust 6 (pretty idx) +:+ " "
               +:+ PyFloat.ljust 40 (Value record) +:+ " $"
               +:+ PyFloat.rjust 12 (PyFloat.format_2f true (Cost record))
               +:+ " "
               +:+ PyFloat.rjust 8
                     (PyFloat.format_2f false
                        (default 0%float (Percentage record)))
               +:+ "%") ;;
        ret (idx + 1)) 1 ;;
      print (rule "=" +:+ newline)
  end.

Definition export_to_csv (host : World) (csv_text : list CostRecord -> string)
    (cost_records : list CostRecord) (filename : string) : M unit :=
  match cost_records with
  | [] => eprint "No cost data to export"
  | _ :: _ =>
      try_except
        (write_file host filename (csv_text cost_records) ;;
         print ("Cost report exported to " +:+ filename))
        (fun e =>
         eprint ("Error writing CSV file: " +:+ exn_msg e) ;;
         sys_exit 1)
  end.

Definition export_to_json (host : World)
    (json_text : list CostRecord -> string)
    (cost_records : list CostRecord) (filename : string) : M unit :=
  try_except
    (write_file host filename (json_text cost_records) ;;
     print ("Cost report exported to " +:+ filename))
    (fun e =>
     eprint ("Error writing JSON file: " +:+ exn_msg e) ;;
     sys_exit 1).

(** The parsed command line. *)
Record Args := {
  arg_days : Z; arg_group_by : string; arg_output : option string;
  arg_region : string; arg_top : Z }.

(** [main()], from the parsed arguments on; [clients] is [boto3.client]
    by region, [host] is the machine the script runs on, [csv_text] and
    [json_text] are the texts the [csv] and [json] writers produce. *)
Definition main (py312 : bool) (clients : string -> World) (host : World)
    (csv_text json_text : list CostRecord -> string) (args : Args) : M unit :=
  let analyzer := {| client := clients (arg_region args) |} in
  print ("Analyzing AWS costs for the last " +:+ pretty (arg_days args)
         +:+ " days...") ;;
  cost_records <- analyze_costs analyzer (arg_days args)
                    (arg_group_by args) ;;
  let cost_records := calculate_percentage py312 cost_records in
  print_summary py312 cost_records (arg_top args) ;;
  match arg_output args with
  | None => ret tt
  | Some output =>
      if bool_decide (output = EmptyString) then ret tt
      else if endswith output ".csv" then
        export_to_csv host csv_text cost_records output
      else if endswith output ".json" then
        export_to_json host json_text cost_records output
      else
        eprint "Error: Output file must have .csv or .json extension" ;;
        sys_exit 1
  end.

End CostAnalysis.

(** ** The vocabulary of the properties

    Pure functions that say what a run is expected to do, to compare the
    embedded code with. *)

Module Spec.

(** Every instance of a paginated listing, in listing order. *)
Definition all_instances (pages : list InstancesPage) : list Instance.t :=
  pages ≫= (fun p => Reservations p ≫= Instances).

Definition all_volumes (pages : list VolumesPage) : list Volume.t :=
  pages ≫= Volumes.

Definition all_snapshots (pages : list SnapshotsPage) : list Snapshot.t :=
  pages ≫= Snapshots.

(** The listings the tagger asks for, as (identifier, tags) pairs. *)
Definition tagger_instances (ec2 : World)
  : list (string * option (list Tag)) :=
  (fun i => (Instance.InstanceId i, Instance.Tags i))
  <$> all_instances (instances_pages ec2
        [{| Name := "instance-state-name";
            Values := ["running"; "stopped"] |}]).

Definition tagger_volumes (ec2 : World)
  : list (string * option (list Tag)) :=
  (fun v => (Volume.VolumeId v, Volume.Tags v))
  <$> all_volumes (volumes_pages ec2 []).

(** The desired tags a resource does not have yet, as the dict the code
    builds. *)
Definition delta (D : list (string * string)) (tags : option (list Tag))
  : list (string * string) :=
  AutoTagger.tags_to_add D (AutoTagger.tag_keys (default [] tags)).

(** What the claim expects the tagger to apply to a resource: for each
    item of [D] whose key is not among the resource's tag keys, in the
    order of [D], the tag of that key and that value. *)
Definition missing (D : list (string * string)) (tags : option (list Tag))
  : list Tag :=
  omap (fun kv => if decide (kv.1 ∈ Key <$> default [] tags) then None
                  else Some {| Key := kv.1; Value := kv.2 |}) D.

(** What the tagger does with one listed resource, called [what] in its
    log line: the body both of its loops share. *)
Definition tag_step (ec2 : World) (D : list (string * string))
    (what : string) (ids : list string) (r : string * option (list Tag))
  : M (list string) :=
  if decide (delta D r.2 ≠ []) then
    print ("Tagging " +:+ what +:+ " " +:+ r.1 +:+ " with: "
           +:+ str_dict ec2 (delta D r.2)) ;;
    issue ec2 (create_tags [r.1] (AutoTagger.tag_list (delta D r.2))) ;;
    ret (ids ++ [r.1])
  else ret ids.

(** The resources with something to add, each with the tags to add. *)
Definition targets (D : list (string * string))
    (rs : list (string * option (list Tag)))
  : list (string * list Tag) :=
  omap (fun r => if decide (missing D r.2 ≠ []) then Some (r.1, missing D r.2)
                 else None) rs.

(** One tagging call per target, naming that target alone and carrying
    its missing tags. *)
Definition delta_calls (D : list (string * string))
    (rs : list (string * option (list Tag))) : list Call :=
  (fun t => create_tags [t.1] t.2) <$> targets D rs.

(** A listed resource as the next listing shows it, once the calls [cs]
    have taken effect. *)
Definition retagged (cs : list Call) (r : string * option (list Tag))
  : string * option (list Tag) :=
  (r.1, foldl (fun t c => AutoTagger.tagged c r.1 t) r.2 cs).

(** The instances the scheduler's listing matches. *)
Definition scheduled (ec2 : World) (tag_key tag_value : string)
  : list string :=
  Instance.InstanceId
  <$> all_instances (instances_pages ec2
        [{| Name := "tag:" +:+ tag_key; Values := [tag_value] |};
         {| Name := "instance-state-name";
            Values := if decide (tag_value = "stop") then ["running"]
                      else ["stopped"] |}]).

(** The mutating calls a run added to the trace. *)
Definition issued (before after : St) (cs : list Call) : Prop :=
  mutations (trace after) = mutations (trace before) ++ cs.

(** The claim "one bulk mutating call for a non-empty match list, none for
    an empty one", for a run that returns its match list. *)
Definition one_bulk_call_or_none (run : M (list string)) : Prop :=
  forall s matched s',
    run s = (Ok matched, s') ->
    exists cs, issued s s' cs
      /\ (matched <> [] -> length cs = 1%nat)
      /\ (matched = [] -> cs = []).

(** *** Windows of days

    [t - timedelta(days=d)] can be computed for the instant [t]: the
    number of days fits a [timedelta] and the result is a [datetime]. *)
Definition representable (t d : Z) : Prop :=
  -999999999 <= d <= 999999999
  /\ datetime_min <= t - timedelta_days d <= datetime_max.

#[global] Instance representable_dec t d : Decision (representable t d).
Proof. unfold representable. apply _. Defined.

(** The window of [d] days can be computed at each of the [n] clock
    readings from the [t]-th on. *)
Fixpoint window_ok (w : World) (d : Z) (t n : nat) : Prop :=
  match n with
  | O => True
  | S n' => representable (now w t) d /\ window_ok w d (S t) n'
  end.

(** The same for a utilization scan of [n] instances, which reads the
    clock twice for each and computes the window at the first of the two
    readings. *)
Fixpoint scan_window_ok (w : World) (d : Z) (t n : nat) : Prop :=
  match n with
  | O => True
  | S n' => representable (now w t) d /\ scan_window_ok w d (S (S t)) n'
  end.

(** [today - timedelta(days=d)] can be computed for the calendar day of
    the instant [t]: the number of days fits a [timedelta] and the result
    is a [date]. *)
Definition date_representable (t d : Z) : Prop :=
  -999999999 <= d <= 999999999
  /\ date_min <= t `div` 86400000000 - d <= date_max.

#[global] Instance date_representable_dec t d :
  Decision (date_representable t d).
Proof. unfold date_representable. apply _. Defined.

(** *** Snapshot cleanup *)

(** Whether the cleanup predicate selects a snapshot when the clock shows
    [current]: the override tag is looked at first and decides alone. *)
Definition expired (retention_days current : Z) (sn : Snapshot.t) : bool :=
  if SnapshotCleanup.has_retain (default [] (Snapshot.Tags sn)) then false
  else bool_decide (Snapshot.StartTime sn
                    < current - timedelta_days retention_days).

(** The snapshots cleanup selects, the clock having been read [t] times
    when the scan starts: a snapshot with the override tag costs no clock
    read. *)
Fixpoint matched (ec2 : World) (retention_days : Z) (t : nat)
    (snaps : list Snapshot.t) : list string :=
  match snaps with
  | [] => []
  | sn :: rest =>
      if SnapshotCleanup.has_retain (default [] (Snapshot.Tags sn))
      then matched ec2 retention_days t rest
      else (if expired retention_days (now ec2 t) sn
            then [Snapshot.SnapshotId sn] else [])
           ++ matched ec2 retention_days (S t) rest
  end.

(** The fate of each delete call for the identifiers [ids], the remote
    calls so far being [history]: [None] when the service accepts it. *)
Fixpoint outcomes (ec2 : World) (history : list Call) (ids : list string)
  : list (string * option Exn) :=
  match ids with
  | [] => []
  | id :: rest =>
      (id, refuses ec2 history (delete_snapshot id))
      :: outcomes ec2 (history ++ [delete_snapshot id]) rest
  end.

Definition accepted (os : list (string * option Exn)) : list string :=
  omap (fun o => match o.2 with None => Some o.1 | Some _ => None end) os.

Definition error_lines (os : list (string * option Exn)) : list string :=
  omap (fun o => match o.2 with
                 | Some e => Some ("Error deleting snapshot " +:+ o.1 +:+ ": "
                                   +:+ exn_msg e)
                 | None => None
                 end) os.

(** What cleanup does with one listed snapshot: the body of its loop. *)
Definition cleanup_step (ec2 : World) (retention_days : Z) (dry_run : bool)
    (ids : list string) (snapshot : Snapshot.t) : M (list string) :=
  let snapshot_id := Snapshot.SnapshotId snapshot in
  let start_time := Snapshot.StartTime snapshot in
  if SnapshotCleanup.has_retain (default [] (Snapshot.Tags snapshot)) then
    print ("Skipping snapshot " +:+ snapshot_id
           +:+ " due to 'Retain' tag.") ;;
    ret ids
  else
    current <- datetime_now ec2 ;;
    delta <- timedelta retention_days ;;
    cutoff <- datetime_sub current delta ;;
    if decide (start_time < cutoff) then
      print ("Found old snapshot: " +:+ snapshot_id +:+ " (created "
             +:+ str_datetime ec2 start_time +:+ ")") ;;
      if negb dry_run then
        try_except
          (issue ec2 (delete_snapshot snapshot_id) ;;
           print ("Deleted snapshot: " +:+ snapshot_id) ;;
           ret (ids ++ [snapshot_id]))
          (fun e =>
           print ("Error deleting snapshot " +:+ snapshot_id +:+ ": "
                  +:+ exn_msg e) ;;
           ret ids)
      else
        print ("(Dry Run) Would have deleted snapshot: " +:+ snapshot_id) ;;
        ret (ids ++ [snapshot_id])
    else ret ids.

(** How often a scan of [snaps] reads the clock. *)
Definition clock_reads (snaps : list Snapshot.t) : nat :=
  length (filter (fun sn => SnapshotCleanup.has_retain
                              (default [] (Snapshot.Tags sn)) = false) snaps).

(** The claim "dry-run mode issues no mutating call and returns what
    non-dry-run mode returns", for one world and retention window. *)
Definition dry_run_agrees (ec2 : World) (retention_days : Z) : Prop :=
  forall s, exists ids s_dry s_wet,
    SnapshotCleanup.cleanup_snapshots ec2 retention_days true s
    = (Ok ids, s_dry)
    /\ issued s s_dry []
    /\ SnapshotCleanup.cleanup_snapshots ec2 retention_days false s
       = (Ok ids, s_wet).

(** The snapshots of the account, as cleanup lists them. *)
Definition cleanup_listing (ec2 : World) : list Snapshot.t :=
  all_snapshots (snapshots_pages ec2 [account ec2]).

(** *** The utilization scanners *)

(** The running instances both scanners list. *)
Definition running_instances (w : World) : list Instance.t :=
  all_instances (instances_pages w
    [{| Name := "instance-state-name"; Values := ["running"] |}]).

(** The metric value the idle scan computes for an instance it reaches
    when the clock has been read [t] times: the largest daily average of
    the window, or nothing when the window has no datapoint. *)
Definition idle_metric (w : World) (days : Z) (t : nat) (i : Instance.t)
  : option float :=
  match datapoints w (Instance.InstanceId i)
          (now w t - timedelta_days days) (now w (S t)) 86400 ["Average"] with
  | [] => None
  | dp :: dps => Some (PyFloat.max (Average dp) (Average <$> dps))
  end.

Definition idle_finding (region : string) (days : Z) (i : Instance.t)
    (v : float) : UnusedResources.IdleInstance :=
  {| UnusedResources.InstanceId := Instance.InstanceId i;
     UnusedResources.InstanceType := Instance.InstanceType i;
     UnusedResources.Region := region;
     UnusedResources.Finding := "Idle EC2 Instance";
     UnusedResources.Metric := "Max CPU Utilization (" +:+ pretty days
                               +:+ "d)";
     UnusedResources.Value := PyFloat.format_2f false v +:+ "%";
     UnusedResources.Recommendation := "Stop or terminate instance" |}.

(** What the idle scan reports for one instance. *)
Definition idle_verdict (self : UnusedResources.UnusedResourceFinder)
    (cpu_threshold : float) (days : Z) (t : nat) (i : Instance.t)
  : list UnusedResources.IdleInstance :=
  match idle_metric (UnusedResources.client self) days t i with
  | Some v =>
      if PrimFloat.ltb v cpu_threshold
      then [idle_finding (UnusedResources.region self) days i v] else []
  | None => []
  end.

(** The body of the idle scan's loop. *)
Definition idle_step (self : UnusedResources.UnusedResourceFinder)
    (cpu_threshold : float) (days : Z)
    (idle : list UnusedResources.IdleInstance) (instance : Instance.t)
  : M (list UnusedResources.IdleInstance) :=
  let instance_id := Instance.InstanceId instance in
  t0 <- datetime_now (UnusedResources.client self) ;;
  delta <- timedelta days ;;
  start_time <- datetime_sub t0 delta ;;
  t1 <- datetime_now (UnusedResources.client self) ;;
  datapoints <- metric_datapoints (UnusedResources.client self) instance_id
                  start_time t1 86400 ["Average"] ;;
  match datapoints with
  | [] => ret idle
  | dp :: dps =>
      let avg_cpu := PyFloat.max (Average dp) (Average <$> dps) in
      if PrimFloat.ltb avg_cpu cpu_threshold then
        ret (idle ++ [{|
          UnusedResources.InstanceId := instance_id;
          UnusedResources.InstanceType := Instance.InstanceType instance;
          UnusedResources.Region := UnusedResources.region self;
          UnusedResources.Finding := "Idle EC2 Instance";
          UnusedResources.Metric := "Max CPU Utilization (" +:+ pretty days
                                    +:+ "d)";
          UnusedResources.Value := PyFloat.format_2f false avg_cpu +:+ "%";
          UnusedResources.Recommendation := "Stop or terminate instance" |}])
      else ret idle
  end.

(** The same for the right-sizing scan: the largest hourly maximum. *)
Definition cpu_metric (w : World) (days : Z) (t : nat) (i : Instance.t)
  : option float :=
  match datapoints w (Instance.InstanceId i)
          (now w t - timedelta_days days) (now w (S t)) 3600 ["Maximum"] with
  | [] => None
  | dp :: dps => Some (PyFloat.max (Maximum dp) (Maximum <$> dps))
  end.

Definition recommendation (region : string) (i : Instance.t) (v : float)
  : Rightsizing.Recommendation :=
  {| Rightsizing.InstanceId := Instance.InstanceId i;
     Rightsizing.InstanceType := Instance.InstanceType i;
     Rightsizing.Region := region;
     Rightsizing.Finding := "Over-provisioned EC2 Instance";
     Rightsizing.MaxCPU := PyFloat.format_2f false v +:+ "%";
     Rightsizing.MaxMemory := PyFloat.format_2f false 30 +:+ "% (Simulated)";
     Rightsizing.Advice := "Consider smaller instance type (e.g., from "
                           +:+ Instance.InstanceType i
                           +:+ " to a smaller size in the same family)" |}.

Definition rightsizing_verdict (self : Rightsizing.RightSizingRecommender)
    (days : Z) (cpu_threshold mem_threshold : float) (t : nat)
    (i : Instance.t) : list Rightsizing.Recommendation :=
  match cpu_metric (Rightsizing.client self) days t i with
  | Some v =>
      if PrimFloat.ltb v cpu_threshold && PrimFloat.ltb 30 mem_threshold
      then [recommendation (Rightsizing.region self) i v] else []
  | None => []
  end.

Definition rightsizing_step (self : Rightsizing.RightSizingRecommender)
    (days : Z) (cpu_threshold mem_threshold : float)
    (recs : list Rightsizing.Recommendation) (instance : Instance.t)
  : M (list Rightsizing.Recommendation) :=
  let instance_id := Instance.InstanceId instance in
  let instance_type := Instance.InstanceType instance in
  t0 <- datetime_now (Rightsizing.client self) ;;
  delta <- timedelta days ;;
  start_time <- datetime_sub t0 delta ;;
  t1 <- datetime_now (Rightsizing.client self) ;;
  cpu_metrics <- metric_datapoints (Rightsizing.client self) instance_id
                   start_time t1 3600 ["Maximum"] ;;
  match cpu_metrics with
  | [] => ret recs
  | dp :: dps =>
      let max_cpu := PyFloat.max (Maximum dp) (Maximum <$> dps) in
      let max_mem := 30%float in
      if PrimFloat.ltb max_cpu cpu_threshold
         && PrimFloat.ltb max_mem mem_threshold then
        ret (recs ++ [{|
          Rightsizing.InstanceId := instance_id;
          Rightsizing.InstanceType := instance_type;
          Rightsizing.Region := Rightsizing.region self;
          Rightsizing.Finding := "Over-provisioned EC2 Instance";
          Rightsizing.MaxCPU := PyFloat.format_2f false max_cpu +:+ "%";
          Rightsizing.MaxMemory := PyFloat.format_2f false max_mem
                                   +:+ "% (Simulated)";
          Rightsizing.Advice := "Consider smaller instance type (e.g., from "
                                +:+ instance_type
                                +:+ " to a smaller size in the same family)"
        |}])
      else ret recs
  end.

(** The findings of a scan that starts when the clock has been read [t]
    times: each instance costs two clock reads. *)
Definition scan {A} (verdict : nat -> Instance.t -> list A) (t : nat)
    (insts : list Instance.t) : list A :=
  concat (imap (fun k i => verdict (t + 2 * k)%nat i) insts).

(** *** The cost report *)

(** A cost group of the query's answer: its first key is the dimension
    value the report shows. *)
Definition cost_group (key : string) (more_keys : list string)
    (amount unit : string) : Group :=
  {| Keys := key :: more_keys; Amount := amount; Unit := unit |}.

(** An answer of one period with the given groups. *)
Definition one_period (start stop : string) (groups : list Group)
  : CostResponse :=
  {| ResultsByTime :=
       Some [{| TimePeriodStart := start; TimePeriodEnd := stop;
                Groups := Some groups |}] |}.

Definition cost_record (start stop dimension value : string) (cost : float)
    (unit : string) (percentage : option float) : CostAnalysis.CostRecord :=
  {| CostAnalysis.PeriodStart := start; CostAnalysis.PeriodEnd := stop;
     CostAnalysis.Dimension := dimension; CostAnalysis.Value := value;
     CostAnalysis.Cost := cost; CostAnalysis.Currency := unit;
     CostAnalysis.Percentage := percentage |}.

(** The claim "the failure is reported and the process exits with a
    non-zero status before any remote call is made", for a script run. *)
Definition fails_before_any_call (run : M unit) : Prop :=
  forall s, exists code s',
    run s = (Exit code, s') /\ code <> 0
    /\ api_calls (trace s') = api_calls (trace s).

(** The arithmetic mean of a list of samples. *)
Definition mean (xs : list float) : float :=
  (PyFloat.sum_from false 0 xs
   / PrimFloat.of_uint63 (Uint63.of_Z (Z.of_nat (length xs))))%float.

End Spec.

(** ** Small worlds to run the code in *)

Module Examples.

(** An account with nothing in it, whose service accepts every call; the
    clock stands at day 20000 and advances a microsecond a reading. *)
Definition empty_world : World := {|
  now := fun n => 20000 * 86400000000 + Z.of_nat n;
  refuses := fun _ _ => None;
  str_datetime := pretty;
  str_list := String.concat ", ";
  str_dict := fun d => String.concat ", " d.*1;
  isoformat := pretty;
  strftime_ymd := pretty;
  instances_pages := fun _ => [];
  volumes_pages := fun _ => [];
  snapshots_pages := fun _ => [];
  addresses := [];
  regions := [];
  account := "111122223333";
  datapoints := fun _ _ _ _ _ => [];
  cost_and_usage := fun _ _ _ _ _ => inr {| ResultsByTime := None |};
  open_fails := fun _ => None |}.

Definition with_instances (insts : list Instance.t) (w : World) : World := {|
  now := now w; refuses := refuses w; str_datetime := str_datetime w;
  str_list := str_list w; str_dict := str_dict w; isoformat := isoformat w;
  strftime_ymd := strftime_ymd w;
  instances_pages := fun _ => [{| Reservations := [{| Instances := insts |}] |}];
  volumes_pages := volumes_pages w; snapshots_pages := snapshots_pages w;
  addresses := addresses w; regions := regions w; account := account w;
  datapoints := datapoints w; cost_and_usage := cost_and_usage w;
  open_fails := open_fails w |}.

Definition with_volumes (vs : list Volume.t) (w : World) : World := {|
  now := now w; refuses := refuses w; str_datetime := str_datetime w;
  str_list := str_list w; str_dict := str_dict w; isoformat := isoformat w;
  strftime_ymd := strftime_ymd w;
  instances_pages := instances_pages w;
  volumes_pages := fun _ => [{| Volumes := vs |}];
  snapshots_pages := snapshots_pages w;
  addresses := addresses w; regions := regions w; account := account w;
  datapoints := datapoints w; cost_and_usage := cost_and_usage w;
  open_fails := open_fails w |}.

Definition with_snapshots (ss : list Snapshot.t) (w : World) : World := {|
  now := now w; refuses := refuses w; str_datetime := str_datetime w;
  str_list := str_list w; str_dict := str_dict w; isoformat := isoformat w;
  strftime_ymd := strftime_ymd w;
  instances_pages := instances_pages w; volumes_pages := volumes_pages w;
  snapshots_pages := fun _ => [{| Snapshots := ss |}];
  addresses := addresses w; regions := regions w; account := account w;
  datapoints := datapoints w; cost_and_usage := cost_and_usage w;
  open_fails := open_fails w |}.

Definition with_refusals (r : list Call -> Call -> option Exn) (w : World)
  : World := {|
  now := now w; refuses := r; str_datetime := str_datetime w;
  str_list := str_list w; str_dict := str_dict w; isoformat := isoformat w;
  strftime_ymd := strftime_ymd w;
  instances_pages := instances_pages w; volumes_pages := volumes_pages w;
  snapshots_pages := snapshots_pages w;
  addresses := addresses w; regions := regions w; account := account w;
  datapoints := datapoints w; cost_and_usage := cost_and_usage w;
  open_fails := open_fails w |}.

Definition with_datapoints (d : string -> list Datapoint) (w : World)
  : World := {|
  now := now w; refuses := refuses w; str_datetime := str_datetime w;
  str_list := str_list w; str_dict := str_dict w; isoformat := isoformat w;
  strftime_ymd := strftime_ymd w;
  instances_pages := instances_pages w; volumes_pages := volumes_pages w;
  snapshots_pages := snapshots_pages w;
  addresses := addresses w; regions := regions w; account := account w;
  datapoints := fun id _ _ _ _ => d id;
  cost_and_usage := cost_and_usage w; open_fails := open_fails w |}.

Definition with_costs (gs : list Group) (w : World) : World := {|
  now := now w; refuses := refuses w; str_datetime := str_datetime w;
  str_list := str_list w; str_dict := str_dict w; isoformat := isoformat w;
  strftime_ymd := strftime_ymd w;
  instances_pages := instances_pages w; volumes_pages := volumes_pages w;
  snapshots_pages := snapshots_pages w;
  addresses := addresses w; regions := regions w; account := account w;
  datapoints := datapoints w;
  cost_and_usage := fun _ _ _ _ _ =>
    inr {| ResultsByTime :=
             Some [{| TimePeriodStart := "2024-05-01";
                      TimePeriodEnd := "2024-06-01"; Groups := Some gs |}] |};
  open_fails := open_fails w |}.

Definition tag (k v : string) : Tag := {| Key := k; Value := v |}.

Definition instance (id : string) (tags : option (list Tag)) : Instance.t :=
  {| Instance.InstanceId := id; Instance.InstanceType := "t3.micro";
     Instance.Tags := tags |}.

Definition volume (id : string) (tags : option (list Tag)) : Volume.t :=
  {| Volume.VolumeId := id; Volume.Size := 8; Volume.Tags := tags |}.

(** A snapshot started [age] days before day 20000. *)
Definition snapshot (id : string) (age : Z) (tags : option (list Tag))
  : Snapshot.t :=
  {| Snapshot.SnapshotId := id;
     Snapshot.StartTime := (20000 - age) * 86400000000;
     Snapshot.VolumeId := None; Snapshot.Tags := tags |}.

(** The default of the tagger's [DEFAULT_TAGS] setting. *)
Definition default_tags : list (string * string) :=
  [("Environment", "Untagged"); ("Owner", "Unknown")].

(** Two instances that lack default tags, one that has them all, and an
    untagged volume. *)
Definition untagged_fleet : World :=
  with_volumes [volume "vol-1" None]
    (with_instances
       [instance "i-1" (Some [tag "Name" "x"]);
        instance "i-2" (Some [tag "Environment" "prod"; tag "Owner" "ops"]);
        instance "i-3" None]
       empty_world).

(** An instance that has one of the default tags, with a value of its
    own, an instance without tags, and a volume without tags. *)
Definition half_tagged_fleet : World :=
  with_volumes [volume "vol-1" None]
    (with_instances
       [instance "i-1" (Some [tag "Environment" "prod"]);
        instance "i-2" None]
       empty_world).

(** One running instance that the scheduler's stop listing matches. *)
Definition night_shift : World :=
  with_instances [instance "i-1" (Some [tag "AutoScheduler" "stop"])]
    empty_world.

(** Snapshots 45 and 10 days old, and one 45 days old that carries the
    override tag. *)
Definition snapshot_shelf : World :=
  with_snapshots
    [snapshot "snap-old" 45 None;
     snapshot "snap-new" 10 None;
     snapshot "snap-kept" 45 (Some [tag "Retain" "true"])]
    empty_world.

(** The same shelf, on a service that refuses every delete. *)
Definition locked_shelf : World :=
  with_refusals
    (fun _ c => match c with
                | delete_snapshot _ =>
                    Some {| exn_type := "ClientError";
                            exn_msg := "InvalidSnapshot.InUse" |}
                | _ => None
                end)
    snapshot_shelf.

(** Two old snapshots on a service that refuses to delete the first. *)
Definition half_locked_shelf : World :=
  with_refusals
    (fun _ c => match c with
                | delete_snapshot id =>
                    if decide (id = "snap-a")
                    then Some {| exn_type := "ClientError";
                                 exn_msg := "InvalidSnapshot.InUse" |}
                    else None
                | _ => None
                end)
    (with_snapshots [snapshot "snap-a" 45 None; snapshot "snap-b" 60 None]
       empty_world).

(** One running instance with the given daily CPU averages. *)
Definition one_instance (averages : list float) : World :=
  with_datapoints
    (fun _ => (fun a => {| Average := a; Maximum := a |}) <$> averages)
    (with_instances [instance "i-1" None] empty_world).

(** A cost answer of two groups, 50.00 listed before 100.00. *)
Definition two_costs : World :=
  with_costs [{| Keys := ["Amazon Simple Storage Service"];
                 Amount := "50.00"; Unit := "USD" |};
              {| Keys := ["Amazon Elastic Compute Cloud"];
                 Amount := "100.00"; Unit := "USD" |}]
    empty_world.

(** [cost_analysis.py --output report.txt] *)
Definition report_txt : CostAnalysis.Args :=
  {| CostAnalysis.arg_days := 30; CostAnalysis.arg_group_by := "SERVICE";
     CostAnalysis.arg_output := Some "report.txt";
     CostAnalysis.arg_region := "us-east-1"; CostAnalysis.arg_top := 10 |}.

(** [unused_resources.py --output unused.json], with neither [--region]
    nor [--all-regions]. *)
Definition no_region : UnusedResources.Args :=
  {| UnusedResources.arg_region := None;
     UnusedResources.arg_all_regions := false;
     UnusedResources.arg_output := "unused.json";
     UnusedResources.arg_cpu_threshold := 5;
     UnusedResources.arg_ec2_days := 14;
     UnusedResources.arg_snapshot_days := 30 |}.

End Examples.

(** ** The units' entry points that call the code above *)

(** *** [str.lower] and [int(str)] *)

Module PyStr.

(** [c.lower()] for a code point below 256: the capitals of ASCII and of
    Latin-1 (U+00C0 to U+00DE, but not the multiplication sign U+00D7)
    move up by 32. *)
Definition lower_char (c : ascii) : ascii :=
  if bool_decide (65 <= PyFloat.code c <= 90
                  ∨ (192 <= PyFloat.code c <= 222 ∧ PyFloat.code c ≠ 215))
  then ascii_of_N (N_of_ascii c + 32)
  else c.

(** [s.lower()] *)
Fixpoint lower (s : string) : string :=
  match s with
  | EmptyString => EmptyString
  | String c rest => String (lower_char c) (lower rest)
  end.

(** The digits of a base-10 literal once the sign is taken off: digits
    with single underscores between them, and at least one digit. *)
Fixpoint literal_digits (prev : option ascii) (cs : list ascii)
  : option (list ascii) :=
  match cs with
  | [] =>
      match prev with
      | Some p => if PyFloat.is_digit p then Some [] else None
      | None => None
      end
  | c :: rest =>
      if PyFloat.is_digit c then cons c <$> literal_digits (Some c) rest
      else if bool_decide (PyFloat.code c = 95) then
        match prev with
        | Some p => if PyFloat.is_digit p then literal_digits (Some c) rest
                    else None
        | None => None
        end
      else None
  end.

(** [int(text)]; [None] is [ValueError].  [max_digits] is
    [sys.get_int_max_str_digits()], [None] where the interpreter sets no
    limit. *)
Definition int (max_digits : option nat) (text : string) : option Z :=
  let '(s, body) :=
    PyFloat.take_sign (PyFloat.strip (String.list_ascii_of_string text)) in
  ds ← literal_digits None body ;
  if match max_digits with
     | Some limit => bool_decide (limit < length ds)%nat
     | None => false
     end
  then None
  else Some ((if s then -1 else 1) * PyFloat.digits_value ds).

End PyStr.

(** *** src/lambda/snapshot_cleanup/main.py, the handler *)

Module SnapshotCleanupHandler.

Record Response := { statusCode : Z; body : string }.

(** The interpreter and the libraries the handler runs on: the limit of
    [int(str)], the message of the [ValueError] it raises, and the text
    [json.dumps({"DeletedSnapshots": ids, "DryRun": flag})] returns. *)
Record Runtime := {
  int_max_str_digits : option nat;
  int_error : string -> string;
  dumps : list string -> bool -> string }.

(** [lambda_handler(event, context)], which reads neither argument;
    [environ] is [os.environ] and [clients] is
    [boto3.client("ec2", region_name=...)]. *)
Definition lambda_handler (rt : Runtime) (environ : gmap string string)
    (clients : string -> World) : M Response :=
  let region := default "us-east-1" (environ !! "AWS_REGION") in
  retention_days <-
    match environ !! "RETENTION_DAYS" with
    | None => ret 30
    | Some text =>
        match PyStr.int (int_max_str_digits rt) text with
        | Some n => ret n
        | None => raise {| exn_type := "ValueError";
                           exn_msg := int_error rt text |}
        end
    end ;;
  let dry_run :=
    bool_decide (PyStr.lower (default "true" (environ !! "DRY_RUN"))
                 = "true") in
  let ec2 := clients region in
  deleted_snapshots <-
    SnapshotCleanup.cleanup_snapshots ec2 retention_days dry_run ;;
  ret {| statusCode := 200; body := dumps rt deleted_snapshots dry_run |}.

End SnapshotCleanupHandler.

(** *** src/scripts/rightsizing_recommendations.py, the script *)

Module RightsizingMain.

(** The parsed command line. *)
Record Args := {
  arg_region : string; arg_output : string; arg_days : Z;
  arg_cpu_threshold : float }.

(** [main()], from the parsed arguments on; [clients] is [boto3.client]
    by region, [host] is the machine the script runs on and [json_dump] is
    the text [json.dump(..., indent=2)] writes. *)
Definition main (clients : string -> World) (host : World)
    (json_dump : list Rightsizing.Recommendation -> string) (args : Args)
  : M unit :=
  let recommender :=
    {| Rightsizing.client := clients (arg_region args);
       Rightsizing.region := arg_region args |} in
  recommendations <-
    Rightsizing.get_right_sizing_recommendations recommender (arg_days args)
      (arg_cpu_threshold args) Rightsizing.default_mem_threshold ;;
  try_except
    (write_file host (arg_output args) (json_dump recommendations) ;;
     print ("Recommendations saved to " +:+ arg_output args))
    (fun e =>
     eprint ("Error writing to output file: " +:+ exn_msg e) ;;
     sys_exit 1).

End RightsizingMain.

(** ** More vocabulary for the properties *)

Module Props.

(** The spellings of [true] in either letter case. *)
Definition true_spellings : list string :=
  ["true"; "truE"; "trUe"; "trUE"; "tRue"; "tRuE"; "tRUe"; "tRUE";
   "True"; "TruE"; "TrUe"; "TrUE"; "TRue"; "TRuE"; "TRUe"; "TRUE"].

(** Whether the cleanup handler runs dry under [environ]: [DRY_RUN] is
    unset, or spells [true]. *)
Definition runs_dry (environ : gmap string string) : bool :=
  match environ !! "DRY_RUN" with
  | None => true
  | Some v => bool_decide (v ∈ true_spellings)
  end.

(** A character that can stand in a base-10 integer literal or around
    it: a digit, a sign, an underscore or white space. *)
Definition literal_char (c : ascii) : bool :=
  PyFloat.is_digit c || PyFloat.is_space c
  || bool_decide (PyFloat.code c ∈ [43; 45; 95]).

(** [x == x], which only nan fails. *)
Definition not_nan (x : float) : Prop := PrimFloat.eqb x x = true.

(** The place of a float in the order of [<]: its class (the infinities
    outermost, zero of either sign in the middle), then its exponent and
    its mantissa, counted downwards for a negative float. *)
Definition rank (x : spec_float) : Z * Z * Z :=
  match x with
  | S754_infinity s => (if s then -2 else 2, 0, 0)
  | S754_finite s m e => if s then (-1, - e, - Zpos m) else (1, e, Zpos m)
  | S754_zero _ | S754_nan => (0, 0, 0)
  end.

Definition before (a b : Z * Z * Z) : Prop :=
  a.1.1 < b.1.1
  \/ (a.1.1 = b.1.1 /\ (a.1.2 < b.1.2 \/ (a.1.2 = b.1.2 /\ a.2 < b.2))).

(** The service accepts each of the calls [cs] in turn, [history] being
    the calls it has seen before the first of them. *)
Fixpoint all_accepted (w : World) (history cs : list Call) : Prop :=
  match cs with
  | [] => True
  | c :: rest =>
      refuses w history c = None /\ all_accepted w (history ++ [c]) rest
  end.

(** The files a run wrote, oldest first. *)
Definition writes (tr : list Event) : list (string * string) :=
  omap (fun e => match e with Write p t => Some (p, t) | _ => None end) tr.

(** An event of a run that only looks: a remote call that changes
    nothing, or a line on standard output. *)
Definition looks (e : Event) : Prop :=
  match e with
  | Api c => mutating c = false
  | Stdout _ => True
  | Stderr _ | Write _ _ => False
  end.

(** A computation that, whether it returns or raises, has only looked,
    and that never exits. *)
Definition only_looks {A} (m : M A) : Prop :=
  forall s, exists r s' ev,
    m s = (r, s') /\ trace s' = trace s ++ ev /\ Forall looks ev
    /\ forall c, r <> Exit c.

(** An event of the unused-resources script before its export: one of a
    run that only looks, or the report on standard error of a region
    whose scan raised. *)
Definition scans (e : Event) : Prop :=
  match e with
  | Api c => mutating c = false
  | Stdout _ => True
  | Stderr line =>
      exists region msg,
        line = "Error scanning region " +:+ region +:+ ": " +:+ msg
  | Write _ _ => False
  end.

(** What the unused-resources script has found before any region is
    scanned. *)
Definition no_results : UnusedResources.Results :=
  {| UnusedResources.IdleEC2Instances := [];
     UnusedResources.UnattachedEBSVolumes := [];
     UnusedResources.UnusedElasticIPs := [];
     UnusedResources.OldEBSSnapshots := [] |}.

(** A computation that always returns, having only printed. *)
Definition only_prints {A} (m : M A) : Prop :=
  forall s, exists a out,
    m s = (Ok a, {| trace := trace s ++ (Stdout <$> out); ticks := ticks s |}).

(** *** What the unused-resources scans report *)

(** An address that is associated with nothing: it has neither of the two
    keys. *)
Definition unassociated (address : Address.t) : Prop :=
  Address.InstanceId address = None
  /\ Address.NetworkInterfaceId address = None.

#[global] Instance unassociated_dec address : Decision (unassociated address).
Proof. unfold unassociated. apply _. Defined.

Definition unused_ip (region : string) (address : Address.t)
  : UnusedResources.UnusedIp :=
  {| UnusedResources.ip_PublicIp := Address.PublicIp address;
     UnusedResources.ip_AllocationId := Address.AllocationId address;
     UnusedResources.ip_Region := region;
     UnusedResources.ip_Finding := "Unused Elastic IP";
     UnusedResources.ip_Recommendation := "Release Elastic IP" |}.

Definition old_snapshot (self : UnusedResources.UnusedResourceFinder)
    (retention_days : Z) (snapshot : Snapshot.t)
  : UnusedResources.OldSnapshot :=
  {| UnusedResources.os_SnapshotId := Snapshot.SnapshotId snapshot;
     UnusedResources.os_VolumeId :=
       default "N/A" (Snapshot.VolumeId snapshot);
     UnusedResources.os_StartTime :=
       isoformat (UnusedResources.client self) (Snapshot.StartTime snapshot);
     UnusedResources.os_Region := UnusedResources.region self;
     UnusedResources.os_Finding := "Old EBS Snapshot";
     UnusedResources.os_Recommendation :=
       "Delete snapshot (older than " +:+ pretty retention_days
       +:+ " days)" |}.

(** The old-snapshot findings of a scan of [snaps] that starts when the
    clock has been read [t] times: every snapshot costs one clock read. *)
Fixpoint old_snapshots (self : UnusedResources.UnusedResourceFinder)
    (retention_days : Z) (t : nat) (snaps : list Snapshot.t)
  : list UnusedResources.OldSnapshot :=
  match snaps with
  | [] => []
  | sn :: rest =>
      (if bool_decide (Snapshot.StartTime sn
                       < now (UnusedResources.client self) t
                         - timedelta_days retention_days)
       then [old_snapshot self retention_days sn] else [])
      ++ old_snapshots self retention_days (S t) rest
  end.

(** *** The cost report *)

(** The groups of a cost answer in the order the analysis visits them,
    each with the period it belongs to. *)
Definition answer_groups (response : CostResponse)
  : list (ResultByTime * Group) :=
  default [] (ResultsByTime response)
  ≫= (fun result => (fun group => (result, group))
                    <$> default [] (Groups result)).

(** What the analysis makes of one group: a record, or the exception that
    ends it. *)
Definition cost_row (dimension : string) (rg : ResultByTime * Group)
  : Exn + CostAnalysis.CostRecord :=
  match Keys rg.2 with
  | [] => inl {| exn_type := "IndexError";
                 exn_msg := "list index out of range" |}
  | dimension_value :: _ =>
      match PyFloat.parse (Amount rg.2) with
      | None => inl {| exn_type := "ValueError";
                       exn_msg := "could not convert string to float: '"
                                  +:+ Amount rg.2 +:+ "'" |}
      | Some cost =>
          inr {| CostAnalysis.PeriodStart := TimePeriodStart rg.1;
                 CostAnalysis.PeriodEnd := TimePeriodEnd rg.1;
                 CostAnalysis.Dimension := dimension;
                 CostAnalysis.Value := dimension_value;
                 CostAnalysis.Cost := PyFloat.round2 cost;
                 CostAnalysis.Currency := Unit rg.2;
                 CostAnalysis.Percentage := None |}
      end
  end.

(** The records of the groups, in order, up to the first exception. *)
Fixpoint cost_rows (dimension : string) (rgs : list (ResultByTime * Group))
  : Exn + list CostAnalysis.CostRecord :=
  match rgs with
  | [] => inr []
  | rg :: rest =>
      match cost_row dimension rg with
      | inl e => inl e
      | inr row =>
          match cost_rows dimension rest with
          | inl e => inl e
          | inr rows => inr (row :: rows)
          end
      end
  end.

(** The one query a cost analysis makes when it starts in state [s]. *)
Definition cost_query (w : World) (days : Z) (dimension : string) (s : St)
  : Call :=
  let today := now w (ticks s) `div` 86400000000 in
  get_cost_and_usage (strftime_ymd w (today - days)) (strftime_ymd w today)
    "MONTHLY" ["UnblendedCost"] [("DIMENSION", dimension)].

(** The answer to that query. *)
Definition cost_answer (w : World) (days : Z) (dimension : string) (s : St)
  : Exn + CostResponse :=
  let today := now w (ticks s) `div` 86400000000 in
  cost_and_usage w (strftime_ymd w (today - days)) (strftime_ymd w today)
    "MONTHLY" ["UnblendedCost"] [("DIMENSION", dimension)].

(** [a] may stand before [b] in a report sorted by descending cost. *)
Definition not_cheaper (a b : CostAnalysis.CostRecord) : Prop :=
  PrimFloat.leb (CostAnalysis.Cost b) (CostAnalysis.Cost a) = true.

(** A report in which every record costs at least as much as each one
    after it. *)
Fixpoint descending (records : list CostAnalysis.CostRecord) : Prop :=
  match records with
  | [] => True
  | r :: rest => Forall (not_cheaper r) rest /\ descending rest
  end.

End Props.

(** ** More small worlds *)

Module Cases.

(** A machine on which no file can be opened for writing. *)
Definition read_only_host : World := {|
  now := now Examples.empty_world;
  refuses := refuses Examples.empty_world;
  str_datetime := str_datetime Examples.empty_world;
  str_list := str_list Examples.empty_world;
  str_dict := str_dict Examples.empty_world;
  isoformat := isoformat Examples.empty_world;
  strftime_ymd := strftime_ymd Examples.empty_world;
  instances_pages := instances_pages Examples.empty_world;
  volumes_pages := volumes_pages Examples.empty_world;
  snapshots_pages := snapshots_pages Examples.empty_world;
  addresses := addresses Examples.empty_world;
  regions := regions Examples.empty_world;
  account := account Examples.empty_world;
  datapoints := datapoints Examples.empty_world;
  cost_and_usage := cost_and_usage Examples.empty_world;
  open_fails := fun _ => Some {| exn_type := "PermissionError";
                                 exn_msg := "[Errno 13] Permission denied" |}
|}.

(** An interpreter without a limit on [int(str)], and renderings that
    keep what they are given apart. *)
Definition runtime : SnapshotCleanupHandler.Runtime := {|
  SnapshotCleanupHandler.int_max_str_digits := None;
  SnapshotCleanupHandler.int_error := fun text =>
    "invalid literal for int() with base 10: '" +:+ text +:+ "'";
  SnapshotCleanupHandler.dumps := fun ids flag =>
    String.concat "," ids +:+ (if flag then ";dry" else ";wet") |}.

(** An account whose cost queries are denied. *)
Definition no_cost_explorer : World := {|
  now := now Examples.empty_world;
  refuses := refuses Examples.empty_world;
  str_datetime := str_datetime Examples.empty_world;
  str_list := str_list Examples.empty_world;
  str_dict := str_dict Examples.empty_world;
  isoformat := isoformat Examples.empty_world;
  strftime_ymd := strftime_ymd Examples.empty_world;
  instances_pages := instances_pages Examples.empty_world;
  volumes_pages := volumes_pages Examples.empty_world;
  snapshots_pages := snapshots_pages Examples.empty_world;
  addresses := addresses Examples.empty_world;
  regions := regions Examples.empty_world;
  account := account Examples.empty_world;
  datapoints := datapoints Examples.empty_world;
  cost_and_usage := fun _ _ _ _ _ =>
    inl {| exn_type := "ClientError"; exn_msg := "AccessDeniedException" |};
  open_fails := open_fails Examples.empty_world |}.

(** Three addresses: one free, one on an instance, one on a network
    interface only. *)
Definition three_addresses : World := {|
  now := now Examples.empty_world;
  refuses := refuses Examples.empty_world;
  str_datetime := str_datetime Examples.empty_world;
  str_list := str_list Examples.empty_world;
  str_dict := str_dict Examples.empty_world;
  isoformat := isoformat Examples.empty_world;
  strftime_ymd := strftime_ymd Examples.empty_world;
  instances_pages := instances_pages Examples.empty_world;
  volumes_pages := volumes_pages Examples.empty_world;
  snapshots_pages := snapshots_pages Examples.empty_world;
  addresses :=
    [{| Address.PublicIp := "198.51.100.1"; Address.AllocationId := "eipalloc-1";
        Address.InstanceId := None; Address.NetworkInterfaceId := None |};
     {| Address.PublicIp := "198.51.100.2"; Address.AllocationId := "eipalloc-2";
        Address.InstanceId := Some "i-1";
        Address.NetworkInterfaceId := Some "eni-1" |};
     {| Address.PublicIp := "198.51.100.3"; Address.AllocationId := "eipalloc-3";
        Address.InstanceId := None;
        Address.NetworkInterfaceId := Some "eni-2" |}];
  regions := regions Examples.empty_world;
  account := account Examples.empty_world;
  datapoints := datapoints Examples.empty_world;
  cost_and_usage := cost_and_usage Examples.empty_world;
  open_fails := open_fails Examples.empty_world |}.

(** An account whose cost answer has a group without a usable amount. *)
Definition garbled_costs : World :=
  Examples.with_costs
    [{| Keys := ["Amazon Elastic Compute Cloud"]; Amount := "100.00";
        Unit := "USD" |};
     {| Keys := ["Tax"]; Amount := "n/a"; Unit := "USD" |}]
    Examples.empty_world.

(** [unused_resources.py --region eu-west-1 --all-regions --output
    unused.json] *)
Definition one_region : UnusedResources.Args :=
  {| UnusedResources.arg_region := Some "eu-west-1";
     UnusedResources.arg_all_regions := true;
     UnusedResources.arg_output := "unused.json";
     UnusedResources.arg_cpu_threshold := 5;
     UnusedResources.arg_ec2_days := 14;
     UnusedResources.arg_snapshot_days := 30 |}.

(** [unused_resources.py --region eu-west-1 --output unused.json
    --snapshot-days 1000000] *)
Definition far_back : UnusedResources.Args :=
  {| UnusedResources.arg_region := Some "eu-west-1";
     UnusedResources.arg_all_regions := false;
     UnusedResources.arg_output := "unused.json";
     UnusedResources.arg_cpu_threshold := 5;
     UnusedResources.arg_ec2_days := 14;
     UnusedResources.arg_snapshot_days := 1000000 |}.

(** [cost_analysis.py], with the defaults of its options and the given
    [--output]. *)
Definition report (output : option string) : CostAnalysis.Args :=
  {| CostAnalysis.arg_days := 30; CostAnalysis.arg_group_by := "SERVICE";
     CostAnalysis.arg_output := output;
     CostAnalysis.arg_region := "us-east-1"; CostAnalysis.arg_top := 10 |}.

End Cases.

(** * Properties *)

#[local] Set Warnings "-clear-no-such-hyp".

(** ** Loops and traces *)

Lemma for_each_app {A B} (xs ys : list A) (body : B -> A -> M B) acc s :
    for_each (xs ++ ys) body acc s
    = bind (for_each xs body acc) (for_each ys body) s.
  Proof.
    revert acc s. induction xs as [|x xs IH]; intros acc s; [reflexivity|].
    simpl. unfold bind. destruct (body acc x s) as [[a|e|c] s1]; [|done..].
    rewrite IH. reflexivity.
  Qed.

Lemma for_each_ext {A B} (xs : list A) (body1 body2 : B -> A -> M B) acc s :
    (forall acc x s, body1 acc x s = body2 acc x s) ->
    for_each xs body1 acc s = for_each xs body2 acc s.
  Proof.
    intros Hb. revert acc s. induction xs as [|x xs IH]; intros acc s; [reflexivity|].
    simpl. unfold bind. rewrite Hb.
    destruct (body2 acc x s) as [[a|e|c] s1]; [apply IH|done..].
  Qed.

Lemma for_each_flat {A B C} (f : A -> list C) (xs : list A)
      (body : B -> C -> M B) acc s :
    for_each xs (fun acc x => for_each (f x) body acc) acc s
    = for_each (xs ≫= f) body acc s.
  Proof.
    revert acc s. induction xs as [|x xs IH]; intros acc s; [reflexivity|].
    rewrite bind_cons, for_each_app. simpl. unfold bind.
    destruct (for_each (f x) body acc s) as [[a|e|c] s1]; [apply IH|done..].
  Qed.

Lemma for_each_fmap {A B C} (f : A -> C) (xs : list A)
      (body : B -> C -> M B) acc s :
    for_each (f <$> xs) body acc s
    = for_each xs (fun acc x => body acc (f x)) acc s.
  Proof.
    revert acc s. induction xs as [|x xs IH]; intros acc s; [reflexivity|].
    simpl. unfold bind.
    destruct (body acc (f x) s) as [[a|e|c] s1]; [apply IH|done..].
  Qed.

Lemma api_calls_app tr1 tr2 :
  api_calls (tr1 ++ tr2) = api_calls tr1 ++ api_calls tr2.
Proof. apply omap_app. Qed.

Lemma mutations_app tr1 tr2 :
  mutations (tr1 ++ tr2) = mutations tr1 ++ mutations tr2.
Proof. unfold mutations. by rewrite api_calls_app, filter_app. Qed.

Lemma stdout_app tr1 tr2 : stdout (tr1 ++ tr2) = stdout tr1 ++ stdout tr2.
Proof. apply omap_app. Qed.

Lemma issued_refl s : Spec.issued s s [].
Proof. unfold Spec.issued. by rewrite app_nil_r. Qed.

Lemma issued_trans s1 s2 s3 cs1 cs2 :
  Spec.issued s1 s2 cs1 -> Spec.issued s2 s3 cs2 ->
  Spec.issued s1 s3 (cs1 ++ cs2).
Proof. unfold Spec.issued. intros H1 H2. by rewrite H2, H1, app_assoc. Qed.

Lemma mutations_snoc_api tr c :
  mutations (tr ++ [Api c]) = mutations tr ++ (if mutating c then [c] else []).
Proof.
  rewrite mutations_app. f_equal. unfold mutations. simpl.
  destruct (mutating c) eqn:Hc.
  - by rewrite filter_cons_True.
  - rewrite filter_cons_False; [done|]. by rewrite Hc.
Qed.

Lemma mutations_snoc_read tr c :
  mutating c = false -> mutations (tr ++ [Api c]) = mutations tr.
Proof. intros Hc. by rewrite mutations_snoc_api, Hc, app_nil_r. Qed.

Lemma mutations_snoc_stdout tr line :
  mutations (tr ++ [Stdout line]) = mutations tr.
Proof. rewrite mutations_app. unfold mutations at 2. simpl. apply app_nil_r. Qed.

Lemma mutations_snoc_stderr tr line :
  mutations (tr ++ [Stderr line]) = mutations tr.
Proof. rewrite mutations_app. unfold mutations at 2. simpl. apply app_nil_r. Qed.

Lemma bind_ext {A B} (m : M A) (k1 k2 : A -> M B) s :
  (forall a s, k1 a s = k2 a s) -> bind m k1 s = bind m k2 s.
Proof. intros Hk. unfold bind. destruct (m s) as [[a|e|c] s1]; auto. Qed.

Lemma api_calls_snoc_api tr c : api_calls (tr ++ [Api c]) = api_calls tr ++ [c].
Proof. by rewrite api_calls_app. Qed.

Lemma api_calls_snoc_stdout tr l : api_calls (tr ++ [Stdout l]) = api_calls tr.
Proof. rewrite api_calls_app. apply app_nil_r. Qed.

Lemma api_calls_snoc_stderr tr l : api_calls (tr ++ [Stderr l]) = api_calls tr.
Proof. rewrite api_calls_app. apply app_nil_r. Qed.

Lemma stdout_snoc_api tr c : stdout (tr ++ [Api c]) = stdout tr.
Proof. rewrite stdout_app. apply app_nil_r. Qed.

Lemma stdout_snoc_stdout tr l : stdout (tr ++ [Stdout l]) = stdout tr ++ [l].
Proof. by rewrite stdout_app. Qed.

Create Rewrite HintDb trace.
#[export] Hint Rewrite api_calls_snoc_api api_calls_snoc_stdout
  api_calls_snoc_stderr stdout_snoc_api stdout_snoc_stdout
  mutations_snoc_stdout mutations_snoc_stderr : trace.

Lemma issued_of_api s s' cs :
  api_calls (trace s') = api_calls (trace s) ++ cs ->
  Spec.issued s s' (filter (fun c => mutating c = true) cs).
Proof. intros H. unfold Spec.issued, mutations. by rewrite H, filter_app. Qed.

Lemma filter_mutating_deletes (ids : list string) :
  filter (fun c => mutating c = true) (delete_snapshot <$> ids)
  = delete_snapshot <$> ids.
Proof.
  induction ids as [|id ids IH]; [done|].
  rewrite fmap_cons, filter_cons_True by done. by rewrite IH.
Qed.

(** *** Windows of days *)

(** Where the window is representable, computing its start is plain
    subtraction. *)
Lemma window_start {A} (t d : Z) (k : Z -> M A) s :
  Spec.representable t d ->
  bind (timedelta d) (fun delta => bind (datetime_sub t delta) k) s
  = k (t - timedelta_days d) s.
Proof.
  intros [Hd Hr]. unfold timedelta.
  rewrite bool_decide_eq_true_2 by done. unfold bind at 1, ret at 1.
  unfold datetime_sub. by rewrite bool_decide_eq_true_2 by done.
Qed.

(** Where it is not, computing it raises [OverflowError] and nothing else
    happens. *)
Lemma window_overflow {A} (t d : Z) (k : Z -> M A) s :
  ~ Spec.representable t d ->
  exists e,
    exn_type e = "OverflowError"
    /\ bind (timedelta d) (fun delta => bind (datetime_sub t delta) k) s
       = (Raise e, s).
Proof.
  intros Hn. unfold timedelta, Spec.representable in *.
  destruct (bool_decide (-999999999 <= d <= 999999999)) eqn:Hd.
  - apply bool_decide_eq_true in Hd. unfold bind at 1, ret at 1.
    unfold datetime_sub. rewrite bool_decide_eq_false_2 by tauto.
    by exists (OverflowError "date value out of range").
  - destruct (bool_decide (-2147483648 <= d <= 2147483647)).
    + by exists (OverflowError ("days=" +:+ pretty d
                               +:+ "; must have magnitude <= 999999999")).
    + by exists (OverflowError "Python int too large to convert to C int").
Qed.

Lemma window_ok_lookup w d t n k :
  Spec.window_ok w d t n -> (k < n)%nat ->
  Spec.representable (now w (t + k)) d.
Proof.
  revert t k. induction n as [|n IH]; intros t k; simpl; [lia|].
  intros [H0 Hn] Hk. destruct k as [|k].
  - by rewrite Nat.add_0_r.
  - replace (t + S k)%nat with (S t + k)%nat by lia. apply IH; [done|lia].
Qed.

Lemma window_ok_le w d t n m :
  Spec.window_ok w d t n -> (m <= n)%nat -> Spec.window_ok w d t m.
Proof.
  revert t m. induction n as [|n IH]; intros t m; simpl.
  - intros _ Hm. by replace m with 0%nat by lia.
  - intros [H0 Hn] Hm. destruct m as [|m]; [done|]. simpl.
    split; [done|]. apply IH; [done|lia].
Qed.

Lemma window_ok_add w d t n m :
  Spec.window_ok w d t (n + m)
  <-> Spec.window_ok w d t n /\ Spec.window_ok w d (t + n) m.
Proof.
  revert t. induction n as [|n IH]; intros t; simpl.
  - rewrite Nat.add_0_r. tauto.
  - rewrite IH. replace (S t + n)%nat with (t + S n)%nat by lia. tauto.
Qed.

(** The same for calendar days. *)
Lemma date_start {A} (t d : Z) (k : Z -> M A) s :
  Spec.date_representable t d ->
  bind (timedelta d)
       (fun delta => bind (date_sub (t `div` 86400000000) delta) k) s
  = k (t `div` 86400000000 - d) s.
Proof.
  intros [Hd Hr]. unfold timedelta.
  rewrite bool_decide_eq_true_2 by done. unfold bind at 1, ret at 1.
  unfold date_sub. by rewrite bool_decide_eq_true_2 by done.
Qed.

Lemma date_overflow {A} (t d : Z) (k : Z -> M A) s :
  ~ Spec.date_representable t d ->
  exists e,
    exn_type e = "OverflowError"
    /\ bind (timedelta d)
            (fun delta => bind (date_sub (t `div` 86400000000) delta) k) s
       = (Raise e, s).
Proof.
  intros Hn. unfold timedelta, Spec.date_representable in *.
  destruct (bool_decide (-999999999 <= d <= 999999999)) eqn:Hd.
  - apply bool_decide_eq_true in Hd. unfold bind at 1, ret at 1.
    unfold date_sub. rewrite bool_decide_eq_false_2 by tauto.
    by exists (OverflowError "date value out of range").
  - destruct (bool_decide (-2147483648 <= d <= 2147483647)).
    + by exists (OverflowError ("days=" +:+ pretty d
                               +:+ "; must have magnitude <= 999999999")).
    + by exists (OverflowError "Python int too large to convert to C int").
Qed.

(** ** The tagger *)

Lemma tag_untagged_instances_flat ec2 D s :
  AutoTagger.tag_untagged_instances ec2 D s
  = bind (paginate_instances ec2
            [{| Name := "instance-state-name";
                Values := ["running"; "stopped"] |}])
         (fun _ => for_each (Spec.tagger_instances ec2)
                     (Spec.tag_step ec2 D "instance") []) s.
Proof.
  unfold AutoTagger.tag_untagged_instances, Spec.tagger_instances,
    Spec.all_instances, paginate_instances, bind, emit, ret.
  rewrite for_each_fmap, <- for_each_flat.
  apply for_each_ext. intros ids page s0.
  rewrite <- for_each_flat. reflexivity.
Qed.

Lemma tag_untagged_volumes_flat ec2 D s :
  AutoTagger.tag_untagged_volumes ec2 D s
  = bind (paginate_volumes ec2 [])
         (fun _ => for_each (Spec.tagger_volumes ec2)
                     (Spec.tag_step ec2 D "volume") []) s.
Proof.
  unfold AutoTagger.tag_untagged_volumes, Spec.tagger_volumes,
    Spec.all_volumes, paginate_volumes, bind, emit, ret.
  rewrite for_each_fmap, <- for_each_flat. reflexivity.
Qed.

(** The tags the code sends are the missing ones: the pairs of [D] whose
    key the resource lacks, in the order of [D], each with its value. *)
Lemma tag_list_delta D tags :
  AutoTagger.tag_list (Spec.delta D tags) = Spec.missing D tags.
Proof.
  unfold AutoTagger.tag_list, Spec.delta, AutoTagger.tags_to_add,
    Spec.missing, AutoTagger.tag_keys.
  induction D as [|kv D IH]; [done|]. simpl.
  destruct (decide (kv.1 ∈ Key <$> default [] tags)) as [Hin|Hn].
  - rewrite filter_cons_False; [done|]. intros Hnot. apply Hnot.
    by apply elem_of_list_to_set.
  - rewrite filter_cons_True; [by rewrite fmap_cons, IH|].
    by rewrite elem_of_list_to_set.
Qed.

Lemma delta_nil D tags : Spec.delta D tags = [] <-> Spec.missing D tags = [].
Proof.
  rewrite <- tag_list_delta. unfold AutoTagger.tag_list.
  split; [by intros ->|apply fmap_nil_inv].
Qed.

Lemma targets_cons D r rs :
  Spec.targets D (r :: rs)
  = (if decide (Spec.missing D r.2 ≠ []) then [(r.1, Spec.missing D r.2)]
     else [])
    ++ Spec.targets D rs.
Proof. unfold Spec.targets. simpl. by destruct (decide _). Qed.

(** The expected calls, spelled out: one for each listed resource that
    lacks a desired tag, in listing order, naming that resource alone and
    carrying its missing tags; the targets are those resources. *)
Lemma delta_calls_filter D (rs : list (string * option (list Tag))) :
  Spec.delta_calls D rs
  = (fun r => create_tags [r.1] (Spec.missing D r.2))
    <$> filter (fun r => Spec.missing D r.2 ≠ []) rs
  /\ (Spec.targets D rs).*1
     = fst <$> filter (fun r => Spec.missing D r.2 ≠ []) rs.
Proof.
  unfold Spec.delta_calls. induction rs as [|r rs [IH1 IH2]]; [done|].
  rewrite targets_cons. destruct (decide (Spec.missing D r.2 ≠ [])).
  - rewrite filter_cons_True by done. simpl. split; by f_equal.
  - by rewrite filter_cons_False.
Qed.

Lemma issued_one s c :
  mutating c = true ->
  forall out, Spec.issued s {| trace := (trace s ++ out) ++ [Api c];
                               ticks := ticks s |} (mutations out ++ [c]).
Proof.
  intros Hc out. unfold Spec.issued. simpl. rewrite !mutations_app.
  unfold mutations at 3. simpl. rewrite filter_cons_True by done.
  by rewrite app_assoc.
Qed.

(** One turn of the tagger's loop: nothing for a resource that misses no
    tag; otherwise the log line and the call with the missing tags, whose
    refusal ends the turn with the service's exception. *)
Lemma tag_step_run ec2 D what ids r s :
  Spec.tag_step ec2 D what ids r s
  = if decide (Spec.missing D r.2 ≠ []) then
      let c := create_tags [r.1] (Spec.missing D r.2) in
      let s' := {| trace := (trace s
                             ++ [Stdout ("Tagging " +:+ what +:+ " " +:+ r.1
                                         +:+ " with: "
                                         +:+ str_dict ec2 (Spec.delta D r.2))])
                            ++ [Api c];
                   ticks := ticks s |} in
      match refuses ec2 (api_calls (trace s)) c with
      | None => (Ok (ids ++ [r.1]), s')
      | Some e => (Raise e, s')
      end
    else (Ok ids, s).
Proof.
  unfold Spec.tag_step.
  destruct (decide (Spec.delta D r.2 ≠ [])) as [Hne|He].
  - rewrite decide_True by (by rewrite <- delta_nil).
    unfold print, emit, issue, bind, ret. simpl.
    rewrite api_calls_snoc_stdout, tag_list_delta.
    by destruct (refuses _ _ _).
  - rewrite decide_False; [done|]. intros Hne. apply He. intros Hd.
    by apply delta_nil in Hd.
Qed.

Lemma tag_loop_ok ec2 D what rs ids0 s ids s' :
  for_each rs (Spec.tag_step ec2 D what) ids0 s = (Ok ids, s') ->
  Spec.issued s s' (Spec.delta_calls D rs)
  /\ ids = ids0 ++ (Spec.targets D rs).*1.
Proof.
  revert ids0 s ids. induction rs as [|r rs IH]; intros ids0 s ids Hrun.
  - injection Hrun as <- <-. split; [apply issued_refl|by rewrite app_nil_r].
  - cbn [for_each] in Hrun. unfold bind at 1 in Hrun.
    rewrite tag_step_run in Hrun.
    unfold Spec.delta_calls. rewrite targets_cons.
    destruct (decide (Spec.missing D r.2 ≠ [])) as [Hne|He].
    + cbv zeta in Hrun.
      destruct (refuses ec2 _ _) as [e|]; [discriminate|].
      apply IH in Hrun as [Hiss ->]. split.
      * eapply (issued_trans _ _ _ [_]); [|exact Hiss].
        by apply (issued_one s (create_tags _ _) eq_refl [Stdout _]).
      * simpl. by rewrite <- app_assoc.
    + by apply IH in Hrun.
Qed.

Lemma tag_loop_quiet ec2 D what rs ids0 s :
  Forall (fun r => Spec.missing D r.2 = []) rs ->
  for_each rs (Spec.tag_step ec2 D what) ids0 s = (Ok ids0, s).
Proof.
  induction 1 as [|r rs Hr _ IH]; [done|].
  cbn [for_each]. unfold bind at 1. rewrite tag_step_run.
  destruct (decide _) as [Hne|_]; [done|]. apply IH.
Qed.

(** *** The delta and the remote tag state *)

Lemma elem_of_tag_keys k tags :
  k ∈ AutoTagger.tag_keys tags <-> k ∈ Key <$> tags.
Proof. unfold AutoTagger.tag_keys. by rewrite elem_of_list_to_set. Qed.

Lemma elem_of_missing D tags k v :
  {| Key := k; Value := v |} ∈ Spec.missing D tags
  <-> (k, v) ∈ D /\ k ∉ Key <$> default [] tags.
Proof.
  unfold Spec.missing. rewrite list_elem_of_omap. split.
  - intros ([k' v'] & Hin & Hsome). simpl in Hsome.
    destruct (decide _) as [|Hn]; [done|]. by injection Hsome as -> ->.
  - intros [Hin Hn]. exists (k, v). split; [done|]. simpl.
    by rewrite decide_False.
Qed.

Lemma missing_keys D tags :
  Key <$> Spec.missing D tags
  = filter (fun k => k ∉ Key <$> default [] tags) D.*1.
Proof.
  unfold Spec.missing. induction D as [|kv D IH]; [done|]. simpl.
  destruct (decide (kv.1 ∈ Key <$> default [] tags)) as [Hin|Hn].
  - rewrite filter_cons_False; [done|]. by intros Hnot.
  - rewrite filter_cons_True by done. simpl. f_equal. exact IH.
Qed.

Lemma missing_empty D tags :
  Spec.missing D tags = []
  <-> forall k, k ∈ D.*1 -> k ∈ AutoTagger.tag_keys (default [] tags).
Proof.
  split.
  - intros He k Hk.
    destruct (decide (k ∈ Key <$> default [] tags)) as [|Hn];
      [by apply elem_of_tag_keys|].
    assert (k ∈ Key <$> Spec.missing D tags) as Hin.
    { rewrite missing_keys. by apply list_elem_of_filter. }
    rewrite He in Hin. by apply elem_of_nil in Hin.
  - intros Hall. apply (fmap_nil_inv Key). rewrite missing_keys.
    apply elem_of_nil_inv. intros k [Hn Hk]%list_elem_of_filter.
    by apply Hn, elem_of_tag_keys, Hall.
Qed.

Lemma missing_sublist D tags :
  Spec.missing D tags
  `sublist_of` (fun kv => {| Key := kv.1; Value := kv.2 |}) <$> D.
Proof.
  unfold Spec.missing. induction D as [|kv D IH]; [done|]. simpl.
  destruct (decide _); [by apply sublist_cons|by apply sublist_skip].
Qed.

Lemma missing_NoDup D tags :
  NoDup D.*1 -> NoDup (Key <$> Spec.missing D tags).
Proof. intros Hnd. rewrite missing_keys. by apply NoDup_filter. Qed.

Lemma tag_keys_missing D tags k :
  k ∈ AutoTagger.tag_keys (Spec.missing D tags)
  <-> k ∈ D.*1 /\ k ∉ Key <$> default [] tags.
Proof. by rewrite elem_of_tag_keys, missing_keys, list_elem_of_filter, (comm and). Qed.

Lemma elem_of_put_tag_keys k t tags :
  k ∈ Key <$> AutoTagger.put_tag t tags <-> k = Key t \/ k ∈ Key <$> tags.
Proof.
  induction tags as [|t' tags IH]; simpl.
  - rewrite list_elem_of_singleton, elem_of_nil. tauto.
  - case_decide as Hk; simpl; rewrite !elem_of_cons.
    + rewrite Hk. tauto.
    + rewrite IH. tauto.
Qed.

Lemma put_tag_keys t tags :
  AutoTagger.tag_keys (AutoTagger.put_tag t tags)
  = {[ Key t ]} ∪ AutoTagger.tag_keys tags.
Proof.
  apply set_eq. intros k.
  rewrite elem_of_union, !elem_of_tag_keys, elem_of_put_tag_keys.
  by rewrite elem_of_singleton.
Qed.

Lemma put_tags_keys new tags :
  AutoTagger.tag_keys (AutoTagger.put_tags new tags)
  = AutoTagger.tag_keys new ∪ AutoTagger.tag_keys tags.
Proof.
  unfold AutoTagger.put_tags. revert tags.
  induction new as [|t new IH]; intros tags; simpl.
  - apply set_eq. intros k. rewrite elem_of_union, !elem_of_tag_keys.
    simpl. rewrite elem_of_nil. tauto.
  - rewrite IH, put_tag_keys. apply set_eq. intros k.
    rewrite !elem_of_union, !elem_of_tag_keys, fmap_cons, elem_of_cons.
    rewrite elem_of_singleton. tauto.
Qed.

Lemma put_tag_fresh t tags :
  Key t ∉ Key <$> tags -> AutoTagger.put_tag t tags = tags ++ [t].
Proof.
  induction tags as [|t' tags IH]; simpl; [done|].
  intros Hn. apply not_elem_of_cons in Hn as [Hne Hn].
  case_decide; [congruence|]. by rewrite IH.
Qed.

Lemma put_tags_fresh new tags :
  NoDup (Key <$> new) ->
  (forall k, k ∈ Key <$> new -> k ∉ Key <$> tags) ->
  AutoTagger.put_tags new tags = tags ++ new.
Proof.
  unfold AutoTagger.put_tags. revert tags.
  induction new as [|t new IH]; intros tags Hnd Hfresh; simpl.
  - by rewrite app_nil_r.
  - apply NoDup_cons in Hnd as [Hnt Hnd].
    rewrite put_tag_fresh by (apply Hfresh; simpl; left).
    rewrite IH; [by rewrite <- app_assoc|done|].
    intros k Hk. rewrite fmap_app. simpl. intros Hin.
    apply elem_of_app in Hin as [Hin|Hin].
    + by apply (Hfresh k); [simpl; right|].
    + apply list_elem_of_singleton in Hin. by subst k.
Qed.

(** The call the tagger makes for a resource appends the missing tags
    and leaves what was there as it was. *)
Lemma tagged_own_call D id tags :
  NoDup D.*1 ->
  default [] (AutoTagger.tagged (create_tags [id] (Spec.missing D tags))
                id tags)
  = default [] tags ++ Spec.missing D tags.
Proof.
  intros Hnd. unfold AutoTagger.tagged. rewrite decide_True by set_solver.
  simpl. apply put_tags_fresh.
  - by apply missing_NoDup.
  - intros k Hk. rewrite missing_keys in Hk.
    by apply list_elem_of_filter in Hk as [? _].
Qed.

Lemma tagged_grows c id tags :
  AutoTagger.tag_keys (default [] tags)
  ⊆ AutoTagger.tag_keys (default [] (AutoTagger.tagged c id tags)).
Proof.
  destruct c; simpl; try done. case_decide; [|done]. simpl.
  rewrite put_tags_keys. set_solver.
Qed.

Lemma tagged_all_grows cs id tags :
  AutoTagger.tag_keys (default [] tags)
  ⊆ AutoTagger.tag_keys
      (default [] (foldl (fun t c => AutoTagger.tagged c id t) tags cs)).
Proof.
  revert tags. induction cs as [|c cs IH]; intros tags; simpl; [done|].
  etrans; [apply (tagged_grows c id)|apply IH].
Qed.

Lemma tagged_all_covers cs id ids new tags :
  create_tags ids new ∈ cs -> id ∈ ids ->
  AutoTagger.tag_keys new
  ⊆ AutoTagger.tag_keys
      (default [] (foldl (fun t c => AutoTagger.tagged c id t) tags cs)).
Proof.
  revert tags. induction cs as [|c cs IH]; intros tags Hin Hid; simpl.
  - by apply elem_of_nil in Hin.
  - apply elem_of_cons in Hin as [<-|Hin]; [|by apply IH].
    etrans; [|apply tagged_all_grows]. simpl. rewrite decide_True by done.
    simpl. rewrite put_tags_keys. set_solver.
Qed.

(** Once the tagger's call for a resource is among the calls that took
    effect, the resource has nothing left to add. *)
Lemma missing_after D cs id tags :
  (Spec.missing D tags ≠ [] ->
   create_tags [id] (Spec.missing D tags) ∈ cs) ->
  Spec.missing D (foldl (fun t c => AutoTagger.tagged c id t) tags cs) = [].
Proof.
  intros Hcall. apply missing_empty. intros k Hk.
  destruct (decide (Spec.missing D tags = [])) as [He|Hne].
  - apply tagged_all_grows. by apply (missing_empty D tags).
  - destruct (decide (k ∈ Key <$> default [] tags)) as [Hin|Hn].
    + by apply tagged_all_grows, elem_of_tag_keys.
    + eapply tagged_all_covers; [by apply Hcall|set_solver|].
      by apply tag_keys_missing.
Qed.

Lemma all_instances_map f pages :
  Spec.all_instances (AutoTagger.map_instances f pages)
  = f <$> Spec.all_instances pages.
Proof.
  unfold Spec.all_instances, AutoTagger.map_instances.
  induction pages as [|p pages IH]; [done|].
  rewrite fmap_cons, !bind_cons, fmap_app, IH. f_equal. simpl.
  induction (Reservations p) as [|r rs IHr]; [done|].
  by rewrite fmap_cons, !bind_cons, fmap_app, IHr.
Qed.

Lemma all_volumes_map f pages :
  Spec.all_volumes (AutoTagger.map_volumes f pages)
  = f <$> Spec.all_volumes pages.
Proof.
  unfold Spec.all_volumes, AutoTagger.map_volumes.
  induction pages as [|p pages IH]; [done|].
  by rewrite fmap_cons, !bind_cons, fmap_app, IH.
Qed.

Lemma tagged_instance_all cs i :
  let i' := foldl (fun i c => AutoTagger.tagged_instance c i) i cs in
  Instance.InstanceId i' = Instance.InstanceId i
  /\ Instance.Tags i'
     = foldl (fun t c => AutoTagger.tagged c (Instance.InstanceId i) t)
             (Instance.Tags i) cs.
Proof.
  revert i. induction cs as [|c cs IH]; intros i; simpl; [done|].
  destruct (IH (AutoTagger.tagged_instance c i)) as [-> ->]. done.
Qed.

Lemma tagged_volume_all cs v :
  let v' := foldl (fun v c => AutoTagger.tagged_volume c v) v cs in
  Volume.VolumeId v' = Volume.VolumeId v
  /\ Volume.Tags v'
     = foldl (fun t c => AutoTagger.tagged c (Volume.VolumeId v) t)
             (Volume.Tags v) cs.
Proof.
  revert v. induction cs as [|c cs IH]; intros v; simpl; [done|].
  destruct (IH (AutoTagger.tagged_volume c v)) as [-> ->]. done.
Qed.

Lemma tagger_instances_after cs ec2 :
  Spec.tagger_instances (AutoTagger.after cs ec2)
  = Spec.retagged cs <$> Spec.tagger_instances ec2.
Proof.
  unfold Spec.tagger_instances. simpl. rewrite all_instances_map.
  rewrite <- !list_fmap_compose. apply list_fmap_ext. intros _ i _. simpl.
  unfold Spec.retagged. simpl. by destruct (tagged_instance_all cs i) as [-> ->].
Qed.

Lemma tagger_volumes_after cs ec2 :
  Spec.tagger_volumes (AutoTagger.after cs ec2)
  = Spec.retagged cs <$> Spec.tagger_volumes ec2.
Proof.
  unfold Spec.tagger_volumes. simpl. rewrite all_volumes_map.
  rewrite <- !list_fmap_compose. apply list_fmap_ext. intros _ v _. simpl.
  unfold Spec.retagged. simpl. by destruct (tagged_volume_all cs v) as [-> ->].
Qed.

Lemma elem_of_delta_calls D r rs :
  r ∈ rs -> Spec.missing D r.2 ≠ [] ->
  create_tags [r.1] (Spec.missing D r.2) ∈ Spec.delta_calls D rs.
Proof.
  intros Hin Hne. unfold Spec.delta_calls, Spec.targets.
  apply list_elem_of_fmap. exists (r.1, Spec.missing D r.2). split; [done|].
  apply list_elem_of_omap. exists r. split; [done|]. by rewrite decide_True.
Qed.

Lemma nothing_left D cs rs :
  (forall c, c ∈ Spec.delta_calls D rs -> c ∈ cs) ->
  Forall (fun r => Spec.missing D r.2 = []) (Spec.retagged cs <$> rs).
Proof.
  intros Hcs. apply Forall_fmap, Forall_forall. intros r Hin. simpl.
  apply missing_after. intros Hne. by apply Hcs, elem_of_delta_calls.
Qed.

Lemma tagger_instances_run ec2 D s ids s' :
  AutoTagger.tag_untagged_instances ec2 D s = (Ok ids, s') ->
  Spec.issued s s' (Spec.delta_calls D (Spec.tagger_instances ec2))
  /\ ids = (Spec.targets D (Spec.tagger_instances ec2)).*1.
Proof.
  rewrite tag_untagged_instances_flat.
  unfold bind, paginate_instances, emit, ret. simpl. intros Hrun.
  apply tag_loop_ok in Hrun as [Hiss ->]. split; [|done].
  unfold Spec.issued in *. simpl in Hiss.
  by rewrite mutations_snoc_read in Hiss.
Qed.

Lemma tagger_volumes_run ec2 D s ids s' :
  AutoTagger.tag_untagged_volumes ec2 D s = (Ok ids, s') ->
  Spec.issued s s' (Spec.delta_calls D (Spec.tagger_volumes ec2))
  /\ ids = (Spec.targets D (Spec.tagger_volumes ec2)).*1.
Proof.
  rewrite tag_untagged_volumes_flat.
  unfold bind, paginate_volumes, emit, ret. simpl. intros Hrun.
  apply tag_loop_ok in Hrun as [Hiss ->]. split; [|done].
  unfold Spec.issued in *. simpl in Hiss.
  by rewrite mutations_snoc_read in Hiss.
Qed.

Lemma tagger_instances_rerun ec2 D cs s :
  (forall c, c ∈ Spec.delta_calls D (Spec.tagger_instances ec2) -> c ∈ cs) ->
  exists s', AutoTagger.tag_untagged_instances (AutoTagger.after cs ec2) D s
             = (Ok [], s')
             /\ Spec.issued s s' [].
Proof.
  intros Hcs. rewrite tag_untagged_instances_flat.
  unfold bind, paginate_instances, emit, ret. simpl.
  rewrite tagger_instances_after, tag_loop_quiet by by apply nothing_left.
  eexists. split; [done|]. unfold Spec.issued. simpl.
  by rewrite mutations_snoc_read, app_nil_r.
Qed.

Lemma tagger_volumes_rerun ec2 D cs s :
  (forall c, c ∈ Spec.delta_calls D (Spec.tagger_volumes ec2) -> c ∈ cs) ->
  exists s', AutoTagger.tag_untagged_volumes (AutoTagger.after cs ec2) D s
             = (Ok [], s')
             /\ Spec.issued s s' [].
Proof.
  intros Hcs. rewrite tag_untagged_volumes_flat.
  unfold bind, paginate_volumes, emit, ret. simpl.
  rewrite tagger_volumes_after, tag_loop_quiet by by apply nothing_left.
  eexists. split; [done|]. unfold Spec.issued. simpl.
  by rewrite mutations_snoc_read, app_nil_r.
Qed.

(** C1: the tagger gives each listed instance and volume exactly the
    desired tags whose keys it lacks, each with the value [D] gives it
    and in the order of [D], appended to the tags the resource has, and a
    second pass over the tags that result adds nothing.  Its mutating
    calls are one per listed resource that lacks a desired tag, in
    listing order, each naming that resource alone and carrying those
    tags, and the identifiers it returns are those resources'.  [D] is a
    dict: its keys are distinct. *)
Theorem tagger_adds_exactly_the_missing_tags
    ec2 D s ids1 s1 ids2 s2 :
  NoDup D.*1 ->
  AutoTagger.tag_untagged_instances ec2 D s = (Ok ids1, s1) ->
  AutoTagger.tag_untagged_volumes ec2 D s1 = (Ok ids2, s2) ->
  (forall tags k v,
     {| Key := k; Value := v |} ∈ Spec.missing D tags
     <-> (k, v) ∈ D /\ k ∉ Key <$> default [] tags)
  /\ (forall tags,
        Spec.missing D tags
        `sublist_of` (fun kv => {| Key := kv.1; Value := kv.2 |}) <$> D)
  /\ (forall rs : list (string * option (list Tag)),
        Spec.delta_calls D rs
        = (fun r => create_tags [r.1] (Spec.missing D r.2))
          <$> filter (fun r => Spec.missing D r.2 ≠ []) rs
        /\ (Spec.targets D rs).*1
           = fst <$> filter (fun r => Spec.missing D r.2 ≠ []) rs)
  /\ Spec.issued s s1 (Spec.delta_calls D (Spec.tagger_instances ec2))
  /\ ids1 = (Spec.targets D (Spec.tagger_instances ec2)).*1
  /\ Spec.issued s1 s2 (Spec.delta_calls D (Spec.tagger_volumes ec2))
  /\ ids2 = (Spec.targets D (Spec.tagger_volumes ec2)).*1
  /\ (forall id tags,
        default [] (AutoTagger.tagged
                      (create_tags [id] (Spec.missing D tags)) id tags)
        = default [] tags ++ Spec.missing D tags)
  /\ (forall s3, exists s4 s5,
        let ec2' := AutoTagger.after (mutations (trace s2)) ec2 in
        AutoTagger.tag_untagged_instances ec2' D s3 = (Ok [], s4)
        /\ Spec.issued s3 s4 []
        /\ AutoTagger.tag_untagged_volumes ec2' D s4 = (Ok [], s5)
        /\ Spec.issued s4 s5 []).
Proof.
  intros Hnd [Hi1 ->]%tagger_instances_run [Hi2 ->]%tagger_volumes_run.
  split; [intros; apply elem_of_missing|].
  split; [intros; apply missing_sublist|].
  split; [intros; apply delta_calls_filter|].
  do 4 (split; [done|]). split; [intros; by apply tagged_own_call|].
  intros s3.
  assert (mutations (trace s2)
          = mutations (trace s)
            ++ Spec.delta_calls D (Spec.tagger_instances ec2)
            ++ Spec.delta_calls D (Spec.tagger_volumes ec2)) as Hcs.
  { unfold Spec.issued in *. by rewrite Hi2, Hi1, app_assoc. }
  destruct (tagger_instances_rerun ec2 D (mutations (trace s2)) s3)
    as (s4 & Hr1 & Hq1).
  { intros c Hc. rewrite Hcs, !elem_of_app. auto. }
  destruct (tagger_volumes_rerun ec2 D (mutations (trace s2)) s4)
    as (s5 & Hr2 & Hq2).
  { intros c Hc. rewrite Hcs, !elem_of_app. auto. }
  by exists s4, s5.
Qed.

Lemma tagger_adds_exactly_the_missing_tags_witness :
  exists ids1 s1 ids2 s2,
    AutoTagger.tag_untagged_instances Examples.half_tagged_fleet
      Examples.default_tags st0 = (Ok ids1, s1)
    /\ AutoTagger.tag_untagged_volumes Examples.half_tagged_fleet
         Examples.default_tags s1 = (Ok ids2, s2)
    /\ ids1 = ["i-1"; "i-2"] /\ ids2 = ["vol-1"]
    /\ Spec.issued st0 s1
         [create_tags ["i-1"] [Examples.tag "Owner" "Unknown"];
          create_tags ["i-2"] [Examples.tag "Environment" "Untagged";
                               Examples.tag "Owner" "Unknown"]]
    /\ Spec.issued s1 s2
         [create_tags ["vol-1"] [Examples.tag "Environment" "Untagged";
                                 Examples.tag "Owner" "Unknown"]].
Proof.
  eexists _, _, _, _.
  split; [vm_compute; reflexivity|]. split; [vm_compute; reflexivity|].
  split; [reflexivity|]. split; [reflexivity|].
  edestruct (tagger_adds_exactly_the_missing_tags Examples.half_tagged_fleet
               Examples.default_tags st0)
    as (_ & _ & _ & Hi & _ & Hv & _); [| | |split; [exact Hi|exact Hv]].
  - vm_compute. repeat constructor; set_solver.
  - vm_compute; reflexivity.
  - vm_compute; reflexivity.
Defined.

(** ** Snapshot cleanup *)

Lemma cleanup_snapshots_flat ec2 days dry s :
  SnapshotCleanup.cleanup_snapshots ec2 days dry s
  = bind (caller_account ec2) (fun owner_id =>
      bind (paginate_snapshots ec2 [owner_id]) (fun pages =>
        for_each (Spec.all_snapshots pages)
          (Spec.cleanup_step ec2 days dry) [])) s.
Proof.
  unfold SnapshotCleanup.cleanup_snapshots.
  apply bind_ext. intros owner_id s1. apply bind_ext. intros pages s2.
  exact (for_each_flat Snapshots pages (Spec.cleanup_step ec2 days dry) [] s2).
Qed.

Lemma outcomes_app ec2 h xs ys :
  Spec.outcomes ec2 h (xs ++ ys)
  = Spec.outcomes ec2 h xs
    ++ Spec.outcomes ec2 (h ++ (delete_snapshot <$> xs)) ys.
Proof.
  revert h. induction xs as [|x xs IH]; intros h; simpl.
  - by rewrite app_nil_r.
  - by rewrite IH, <- app_assoc.
Qed.

Lemma outcomes_ids ec2 h ids : (Spec.outcomes ec2 h ids).*1 = ids.
Proof. revert h. induction ids as [|id ids IH]; intros h; simpl; by f_equal. Qed.

Lemma accepted_sublist os : Spec.accepted os `sublist_of` os.*1.
Proof.
  induction os as [|[id [e|]] os IH]; simpl; [done|..].
  - by apply sublist_cons.
  - by apply sublist_skip.
Qed.

Lemma accepted_all ec2 h ids :
  (forall h c, refuses ec2 h c = None) ->
  Spec.accepted (Spec.outcomes ec2 h ids) = ids.
Proof.
  intros Hok. revert h. induction ids as [|id ids IH]; intros h; [done|].
  simpl. rewrite Hok. unfold Spec.accepted in *. simpl. by rewrite IH.
Qed.

Lemma accepted_length os : (length (Spec.accepted os) <= length os)%nat.
Proof.
  rewrite <- (length_fmap fst os). apply sublist_length, accepted_sublist.
Qed.

(** Every listed identifier comes back exactly when no delete was
    refused. *)
Lemma accepted_all_iff os :
  Spec.accepted os = os.*1 <-> Forall (fun o => o.2 = None) os.
Proof.
  induction os as [|[id [e|]] os IH]; simpl.
  - split; [constructor|done].
  - split.
    + intros Heq. pose proof (accepted_length os) as Hlen.
      change (Spec.accepted ((id, Some e) :: os)) with (Spec.accepted os)
        in Heq.
      rewrite Heq in Hlen. simpl in Hlen. rewrite length_fmap in Hlen. lia.
    + intros Hall. by apply Forall_cons in Hall as [? _].
  - change (Spec.accepted ((id, None) :: os)) with (id :: Spec.accepted os).
    split.
    + intros [= Heq]. constructor; [done|]. by apply IH.
    + intros Hall. apply Forall_cons in Hall as [_ Hall]. f_equal.
      by apply IH.
Qed.

(** The loop over the listed snapshots, in either mode: what it returns,
    which remote calls it adds, how often it reads the clock, and what it
    prints about refused deletes. *)
Local Ltac close_step Hrun Hapi Hout :=
  split_and!;
  [ rewrite Hrun; by rewrite <- ?app_assoc
  | rewrite Hapi; by rewrite <- ?app_assoc, ?app_nil_r
  | unfold Spec.clock_reads in *; simpl in *; lia
  | rewrite Hout; by rewrite <- ?app_assoc
  | ].

Lemma cleanup_loop ec2 days dry snaps ids0 s :
  Spec.window_ok ec2 days (ticks s) (Spec.clock_reads snaps) ->
  let m := Spec.matched ec2 days (ticks s) snaps in
  let os := Spec.outcomes ec2 (api_calls (trace s)) m in
  exists s' out,
    for_each snaps (Spec.cleanup_step ec2 days dry) ids0 s
    = (Ok (ids0 ++ (if dry then m else Spec.accepted os)), s')
    /\ api_calls (trace s')
       = api_calls (trace s) ++ (if dry then [] else delete_snapshot <$> m)
    /\ ticks s' = (ticks s + Spec.clock_reads snaps)%nat
    /\ stdout (trace s') = stdout (trace s) ++ out
    /\ (dry = false -> forall l, l ∈ Spec.error_lines os -> l ∈ out).
Proof.
  revert ids0 s. induction snaps as [|sn snaps IH]; intros ids0 s Hwin; simpl.
  { exists s, []. rewrite !app_nil_r. unfold Spec.clock_reads. simpl.
    rewrite Nat.add_0_r.
    destruct dry; split_and!; rewrite ?app_nil_r; try done;
      intros _ l Hl; by apply elem_of_nil in Hl. }
  unfold bind at 1, Spec.cleanup_step at 1, Spec.clock_reads.
  unfold Spec.clock_reads in Hwin.
  destruct (SnapshotCleanup.has_retain _) eqn:Hret.
  - (* the override tag: skipped before the clock is read *)
    rewrite filter_cons_False by (by rewrite Hret).
    rewrite filter_cons_False in Hwin by (by rewrite Hret).
    unfold print, emit, bind, ret. simpl.
    set (s1 := {| trace := _; ticks := _ |}).
    destruct (IH ids0 s1 Hwin)
      as (s' & out & Hrun & Hapi & Hticks & Hout & Herr).
    eexists s', (_ :: out). subst s1. simpl in *.
    autorewrite with trace in *.
    close_step Hrun Hapi Hout. intros Hd l Hl. right. by apply Herr.
  - rewrite filter_cons_True by done.
    rewrite filter_cons_True in Hwin by done. destruct Hwin as [Hrep Hwin].
    unfold datetime_now, bind at 1. cbv beta iota.
    rewrite window_start by done. cbn [trace ticks].
    unfold Spec.expired. rewrite Hret.
    destruct (decide (Snapshot.StartTime sn
                      < now ec2 (ticks s) - timedelta_days days)) as [Hold|Hnew].
    + rewrite bool_decide_eq_true_2 by done.
      unfold print, emit, bind at 1, ret. simpl. destruct dry; simpl.
      * (* dry run: recorded, not deleted *)
        unfold bind. simpl. set (s1 := {| trace := _; ticks := _ |}).
        destruct (IH (ids0 ++ [Snapshot.SnapshotId sn]) s1 Hwin)
          as (s' & out & Hrun & Hapi & Hticks & Hout & Herr).
        eexists s', (_ :: _ :: out). subst s1. simpl in *.
        autorewrite with trace in *.
        close_step Hrun Hapi Hout. done.
      * (* the delete is issued; a refusal is caught and logged *)
        unfold try_except, issue, bind. simpl. autorewrite with trace.
        destruct (refuses ec2 (api_calls (trace s)) _) as [e|] eqn:Href; simpl.
        -- set (s1 := {| trace := _; ticks := _ |}).
           destruct (IH ids0 s1 Hwin)
             as (s' & out & Hrun & Hapi & Hticks & Hout & Herr).
           eexists s', (_ :: _ :: out). subst s1. simpl in *.
           autorewrite with trace in *.
           unfold Spec.accepted, Spec.error_lines. simpl.
           close_step Hrun Hapi Hout.
           intros _ l Hl. apply elem_of_cons in Hl as [->|Hl].
           ++ right. left.
           ++ do 2 right. by apply Herr.
        -- set (s1 := {| trace := _; ticks := _ |}).
           destruct (IH (ids0 ++ [Snapshot.SnapshotId sn]) s1 Hwin)
             as (s' & out & Hrun & Hapi & Hticks & Hout & Herr).
           eexists s', (_ :: _ :: out). subst s1. simpl in *.
           autorewrite with trace in *.
           unfold Spec.accepted, Spec.error_lines. simpl.
           close_step Hrun Hapi Hout.
           intros _ l Hl. do 2 right. by apply Herr.
    + rewrite bool_decide_eq_false_2 by done. simpl.
      set (s1 := {| trace := _; ticks := _ |}).
      destruct (IH ids0 s1 Hwin)
        as (s' & out & Hrun & Hapi & Hticks & Hout & Herr).
      exists s', out. subst s1. simpl in *.
      close_step Hrun Hapi Hout. exact Herr.
Qed.

(** A whole cleanup run, in either mode. *)
Lemma cleanup_run ec2 days dry s :
  Spec.window_ok ec2 days (ticks s)
    (Spec.clock_reads (Spec.cleanup_listing ec2)) ->
  let m := Spec.matched ec2 days (ticks s) (Spec.cleanup_listing ec2) in
  let os := Spec.outcomes ec2
              (api_calls (trace s)
               ++ [get_caller_identity; describe_snapshots [account ec2]]) m in
  exists s',
    SnapshotCleanup.cleanup_snapshots ec2 days dry s
    = (Ok (if dry then m else Spec.accepted os), s')
    /\ Spec.issued s s' (if dry then [] else delete_snapshot <$> m)
    /\ (dry = false ->
        forall l, l ∈ Spec.error_lines os -> l ∈ stdout (trace s')).
Proof.
  intros Hwin m os. rewrite cleanup_snapshots_flat.
  unfold bind at 1, caller_account, bind at 1, emit, ret. simpl.
  unfold bind at 1, paginate_snapshots, bind at 1, emit, ret. simpl.
  set (s1 := {| trace := _; ticks := _ |}).
  destruct (cleanup_loop ec2 days dry
              (Spec.all_snapshots (snapshots_pages ec2 [account ec2])) [] s1
              Hwin)
    as (s' & out & Hrun & Hapi & _ & Hout & Herr).
  exists s'. subst s1. simpl in *. autorewrite with trace in *.
  replace ((api_calls (trace s) ++ [get_caller_identity])
           ++ [describe_snapshots [account ec2]])
    with (api_calls (trace s)
          ++ [get_caller_identity; describe_snapshots [account ec2]])
    in * by (by rewrite <- app_assoc).
  split_and!.
  - exact Hrun.
  - rewrite <- app_assoc in Hapi. apply issued_of_api in Hapi.
    simpl in Hapi. rewrite filter_cons_False, filter_cons_False in Hapi
      by (simpl; congruence).
    destruct dry; [done|]. by rewrite filter_mutating_deletes in Hapi.
  - intros Hd l Hl. rewrite Hout. apply elem_of_app. right. by apply Herr.
Qed.




(** C8: in a real run, where the retention window can be computed at
    every clock reading of the scan, every delete that is refused is
    caught and logged, its snapshot is left out of the returned list, and
    the run goes on: the delete is issued for every selected snapshot,
    and the run returns normally with those whose delete was accepted. *)
Theorem refused_delete_is_logged_and_skipped ec2 retention_days s :
  Spec.window_ok ec2 retention_days (ticks s)
    (Spec.clock_reads (Spec.cleanup_listing ec2)) ->
  let m := Spec.matched ec2 retention_days (ticks s)
             (Spec.cleanup_listing ec2) in
  let os := Spec.outcomes ec2
              (api_calls (trace s)
               ++ [get_caller_identity; describe_snapshots [account ec2]]) m in
  exists s',
    SnapshotCleanup.cleanup_snapshots ec2 retention_days false s
    = (Ok (Spec.accepted os), s')
    /\ os.*1 = m
    /\ Spec.issued s s' (delete_snapshot <$> m)
    /\ (forall id e, (id, Some e) ∈ os ->
          ("Error deleting snapshot " +:+ id +:+ ": " +:+ exn_msg e)
          ∈ stdout (trace s')).
Proof.
  intros Hwin m os.
  destruct (cleanup_run ec2 retention_days false s Hwin)
    as (s' & Hrun & Hiss & Hlog).
  exists s'. split_and!; [done|apply outcomes_ids|done|].
  intros id e Hin. apply Hlog; [done|].
  apply list_elem_of_omap. by exists (id, Some e).
Qed.

Lemma refused_delete_is_logged_and_skipped_witness :
  exists s',
    SnapshotCleanup.cleanup_snapshots Examples.half_locked_shelf 30 false st0
    = (Ok ["snap-b"], s')
    /\ Spec.issued st0 s'
         [delete_snapshot "snap-a"; delete_snapshot "snap-b"]
    /\ "Error deleting snapshot snap-a: InvalidSnapshot.InUse"
       ∈ stdout (trace s').
Proof.
  destruct (refused_delete_is_logged_and_skipped Examples.half_locked_shelf
              30 st0)
    as (s' & Hrun & _ & Hiss & Hlog).
  { repeat split; by vm_compute. }
  exists s'. split_and!; [exact Hrun|exact Hiss|].
  apply (Hlog "snap-a" {| exn_type := "ClientError";
                          exn_msg := "InvalidSnapshot.InUse" |}).
  vm_compute. left.
Defined.

(** On a service that refuses to delete the first of two old snapshots,
    the second is still deleted and is the only one returned. *)
Example half_locked_shelf_run :
  exists s',
    SnapshotCleanup.cleanup_snapshots Examples.half_locked_shelf 30 false st0
    = (Ok ["snap-b"], s')
    /\ mutations (trace s')
       = [delete_snapshot "snap-a"; delete_snapshot "snap-b"]
    /\ "Error deleting snapshot snap-a: InvalidSnapshot.InUse"
       ∈ stdout (trace s').
Proof.
  eexists. split; [vm_compute; reflexivity|]. split; [reflexivity|].
  vm_compute. do 1 right. left.
Qed.

(** ** The scheduler, and the number of calls per action *)

Lemma collect_ids {A} (f : A -> string) (xs : list A) ids0 s :
  for_each xs (fun ids x => ret (ids ++ [f x])) ids0 s
  = (Ok (ids0 ++ (f <$> xs)), s).
Proof.
  revert ids0. induction xs as [|x xs IH]; intros ids0; simpl.
  - by rewrite app_nil_r.
  - unfold bind, ret at 1. rewrite IH. by rewrite <- app_assoc.
Qed.

Lemma for_each_instances {B} pages (body : B -> Instance.t -> M B) acc s :
  for_each pages (fun acc page =>
    for_each (Reservations page) (fun acc reservation =>
      for_each (Instances reservation) body acc) acc) acc s
  = for_each (Spec.all_instances pages) body acc s.
Proof.
  unfold Spec.all_instances. rewrite <- for_each_flat.
  apply for_each_ext. intros acc' page s'. by rewrite <- for_each_flat.
Qed.

Lemma get_instances_by_tag_run ec2 tag_key tag_value s :
  exists s',
    Scheduler.get_instances_by_tag ec2 tag_key tag_value s
    = (Ok (Spec.scheduled ec2 tag_key tag_value), s')
    /\ trace s' = trace s
       ++ [Api (describe_instances
             [{| Name := "tag:" +:+ tag_key; Values := [tag_value] |};
              {| Name := "instance-state-name";
                 Values := if decide (tag_value = "stop") then ["running"]
                           else ["stopped"] |}])]
    /\ ticks s' = ticks s.
Proof.
  unfold Scheduler.get_instances_by_tag, paginate_instances.
  unfold bind at 1, bind at 1, emit, ret at 1. simpl.
  set (s1 := {| trace := _; ticks := _ |}). exists s1. split_and!; [|done..].
  by rewrite for_each_instances, collect_ids.
Qed.

(** What [stop_instances] and [start_instances] put on the wire. *)
Lemma stop_instances_run ec2 tag_key s :
  let ids := Spec.scheduled ec2 tag_key "stop" in
  exists r s',
    Scheduler.stop_instances ec2 tag_key s = (r, s')
    /\ Spec.issued s s' (match ids with
                         | [] => []
                         | _ :: _ => [Py.stop_instances ids]
                         end)
    /\ (r = Ok ids \/ exists e, r = Raise e /\ ids <> []).
Proof.
  intros ids. unfold Scheduler.stop_instances. unfold bind at 1.
  destruct (get_instances_by_tag_run ec2 tag_key "stop" s)
    as (s1 & -> & Htr & _).
  fold ids. destruct ids as [|id ids'] eqn:Hids.
  - exists (Ok []), s1. split_and!; [done| |by left].
    unfold Spec.issued. by rewrite Htr, mutations_snoc_read, app_nil_r.
  - unfold print, issue, emit, bind, ret. simpl.
    assert (mutations (trace s1) = mutations (trace s)) as Hm
      by (by rewrite Htr, mutations_snoc_read).
    destruct (refuses ec2 _ _) as [e|]; eexists _, _; (split; [done|]);
      (split; [|eauto]); unfold Spec.issued; simpl;
      by rewrite mutations_snoc_api, mutations_snoc_stdout, Hm.
Qed.

Lemma start_instances_run ec2 tag_key s :
  let ids := Spec.scheduled ec2 tag_key "start" in
  exists r s',
    Scheduler.start_instances ec2 tag_key s = (r, s')
    /\ Spec.issued s s' (match ids with
                         | [] => []
                         | _ :: _ => [Py.start_instances ids]
                         end)
    /\ (r = Ok ids \/ exists e, r = Raise e /\ ids <> []).
Proof.
  intros ids. unfold Scheduler.start_instances. unfold bind at 1.
  destruct (get_instances_by_tag_run ec2 tag_key "start" s)
    as (s1 & -> & Htr & _).
  fold ids. destruct ids as [|id ids'] eqn:Hids.
  - exists (Ok []), s1. split_and!; [done| |by left].
    unfold Spec.issued. by rewrite Htr, mutations_snoc_read, app_nil_r.
  - unfold print, issue, emit, bind, ret. simpl.
    assert (mutations (trace s1) = mutations (trace s)) as Hm
      by (by rewrite Htr, mutations_snoc_read).
    destruct (refuses ec2 _ _) as [e|]; eexists _, _; (split; [done|]);
      (split; [|eauto]); unfold Spec.issued; simpl;
      by rewrite mutations_snoc_api, mutations_snoc_stdout, Hm.
Qed.

Lemma targets_nonempty D rs : Forall (fun t => t.2 ≠ []) (Spec.targets D rs).
Proof.
  apply Forall_forall. intros t Ht. unfold Spec.targets in Ht.
  apply list_elem_of_omap in Ht as (r & _ & Hr).
  destruct (decide _) as [Hne|]; [|done]. by injection Hr as <-.
Qed.

Lemma one_call_per_target D rs :
  Forall2 (fun c id => exists tags, tags ≠ [] /\ c = create_tags [id] tags)
          (Spec.delta_calls D rs) (Spec.targets D rs).*1.
Proof.
  unfold Spec.delta_calls. pose proof (targets_nonempty D rs) as Hne.
  induction Hne as [|t ts Ht _ IH]; simpl; constructor; [by eexists|done].
Qed.




(** C4: on a stop event the handler stops the matched instance and then
    raises [NameError], because the module uses [json] without importing
    it; no response is returned. *)
Theorem scheduler_stop_event_raises_NameError dumps :
  Scheduler.lambda_handler ∅ (fun _ => Examples.night_shift) dumps
    {| Scheduler.action := Some "stop" |} st0
  = (Raise {| exn_type := "NameError";
              exn_msg := "name 'json' is not defined" |},
     {| trace :=
          [Api (describe_instances
                  [{| Name := "tag:AutoScheduler"; Values := ["stop"] |};
                   {| Name := "instance-state-name";
                      Values := ["running"] |}]);
           Stdout "Stopping instances: i-1";
           Api (Py.stop_instances ["i-1"])];
        ticks := 0 |}).
Proof. reflexivity. Qed.

(** The handler never answers a stop or start event: whenever it returns
    a response at all, the status is 400. *)
Lemma scheduler_handler_only_returns_400 environ clients dumps event s r s' :
  Scheduler.lambda_handler environ clients dumps event s = (Ok r, s') ->
  r = {| Scheduler.statusCode := 400;
         Scheduler.body := "Invalid action specified" |}
  /\ s' = s.
Proof.
  unfold Scheduler.lambda_handler.
  destruct (decide (default "stop" (Scheduler.action event) = "stop")).
  { unfold bind at 1.
    destruct (Scheduler.stop_instances _ _ s) as [[ids| |] s1]; [|done..].
    by unfold bind, Scheduler.load_global, raise. }
  destruct (decide (default "stop" (Scheduler.action event) = "start")).
  { unfold bind at 1.
    destruct (Scheduler.start_instances _ _ s) as [[ids| |] s1]; [|done..].
    by unfold bind, Scheduler.load_global, raise. }
  unfold ret. by intros [= <- <-].
Qed.

(** ** The override tag *)

(** Cleanup never selects a snapshot that carries the override tag, however
    old it is, and decides so without reading the clock. *)
Lemma cleanup_never_selects_retained ec2 days t snaps id :
  id ∈ Spec.matched ec2 days t snaps ->
  exists sn, sn ∈ snaps /\ id = Snapshot.SnapshotId sn
    /\ SnapshotCleanup.has_retain (default [] (Snapshot.Tags sn)) = false.
Proof.
  revert t. induction snaps as [|sn snaps IH]; intros t Hin; simpl in Hin.
  - by apply elem_of_nil in Hin.
  - destruct (SnapshotCleanup.has_retain _) eqn:Hret.
    + destruct (IH _ Hin) as (sn' & ? & ? & ?). exists sn'.
      split_and!; [by right|done..].
    + apply elem_of_app in Hin as [Hin|Hin].
      * destruct (Spec.expired _ _ _); [|by apply elem_of_nil in Hin].
        apply list_elem_of_singleton in Hin. exists sn.
        split_and!; [by left|done..].
      * destruct (IH _ Hin) as (sn' & ? & ? & ?). exists sn'.
        split_and!; [by right|done..].
Qed.

Lemma expired_retained days current sn :
  SnapshotCleanup.has_retain (default [] (Snapshot.Tags sn)) = true ->
  Spec.expired days current sn = false.
Proof. unfold Spec.expired. by intros ->. Qed.

(** C6: the old-snapshot scan of the reporting script never looks at the
    tags: of two 45-day-old snapshots it reports both, the one carrying
    the override tag included, while cleanup on the same account selects
    only the other. *)
Theorem old_snapshot_scan_reports_a_retained_snapshot :
  exists found s1 s2,
    UnusedResources.find_old_ebs_snapshots
      {| UnusedResources.client := Examples.snapshot_shelf;
         UnusedResources.region := "us-east-1" |} 30 st0
    = (Ok found, s1)
    /\ UnusedResources.os_SnapshotId <$> found = ["snap-old"; "snap-kept"]
    /\ SnapshotCleanup.cleanup_snapshots Examples.snapshot_shelf 30 true st0
       = (Ok ["snap-old"], s2).
Proof.
  eexists _, _, _. split; [vm_compute; reflexivity|].
  split; [reflexivity|]. vm_compute. reflexivity.
Qed.

(** ** The utilization scanners *)

Lemma scan_cons {A} (verdict : nat -> Instance.t -> list A) t i insts :
  Spec.scan verdict t (i :: insts)
  = verdict t i ++ Spec.scan verdict (S (S t)) insts.
Proof.
  unfold Spec.scan. rewrite imap_cons. simpl. rewrite Nat.add_0_r.
  do 2 f_equal. apply imap_ext. intros k x _. simpl. f_equal. lia.
Qed.

Lemma idle_loop self T days insts acc s :
  Spec.scan_window_ok (UnusedResources.client self) days (ticks s)
    (length insts) ->
  exists s',
    for_each insts (Spec.idle_step self T days) acc s
    = (Ok (acc ++ Spec.scan (Spec.idle_verdict self T days) (ticks s) insts),
       s')
    /\ Spec.issued s s' [].
Proof.
  revert acc s. induction insts as [|i insts IH]; intros acc s Hwin.
  - exists s. rewrite app_nil_r. split; [done|apply issued_refl].
  - destruct Hwin as [Hrep Hwin]. rewrite scan_cons. simpl.
    unfold bind at 1, Spec.idle_step, datetime_now, bind at 1.
    cbv beta iota. rewrite window_start by done. cbn [trace ticks].
    unfold bind at 1. simpl.
    unfold metric_datapoints, bind at 1, bind at 1, emit, ret at 1. simpl.
    set (s1 := {| trace := _; ticks := _ |}).
    assert (Spec.issued s s1 []) as Hs1.
    { unfold Spec.issued. simpl.
      by rewrite mutations_snoc_read, app_nil_r. }
    unfold Spec.idle_verdict at 1, Spec.idle_metric.
    destruct (datapoints _ _ _ _ _ _) as [|dp dps].
    + destruct (IH acc s1 Hwin) as (s' & Hrun & Hiss).
      exists s'. split; [exact Hrun|].
      apply (issued_trans _ _ _ [] [] Hs1 Hiss).
    + destruct (PrimFloat.ltb _ T).
      * destruct (IH (acc ++ [Spec.idle_finding (UnusedResources.region self)
                                days i
                                (PyFloat.max (Average dp) (Average <$> dps))])
                    s1 Hwin) as (s' & Hrun & Hiss).
        rewrite <- app_assoc in Hrun.
        exists s'. split; [exact Hrun|].
        apply (issued_trans _ _ _ [] [] Hs1 Hiss).
      * destruct (IH acc s1 Hwin) as (s' & Hrun & Hiss).
        exists s'. split; [exact Hrun|].
        apply (issued_trans _ _ _ [] [] Hs1 Hiss).
Qed.

Lemma find_idle_ec2_instances_flat self T days s :
  UnusedResources.find_idle_ec2_instances self T days s
  = bind (paginate_instances (UnusedResources.client self)
            [{| Name := "instance-state-name"; Values := ["running"] |}])
         (fun pages => for_each (Spec.all_instances pages)
                         (Spec.idle_step self T days) []) s.
Proof.
  unfold UnusedResources.find_idle_ec2_instances.
  apply bind_ext. intros pages s1.
  exact (for_each_instances pages (Spec.idle_step self T days) [] s1).
Qed.

Lemma find_idle_ec2_instances_run self T days s :
  Spec.scan_window_ok (UnusedResources.client self) days (ticks s)
    (length (Spec.running_instances (UnusedResources.client self))) ->
  exists s',
    UnusedResources.find_idle_ec2_instances self T days s
    = (Ok (Spec.scan (Spec.idle_verdict self T days) (ticks s)
             (Spec.running_instances (UnusedResources.client self))), s')
    /\ Spec.issued s s' [].
Proof.
  intros Hwin. rewrite find_idle_ec2_instances_flat.
  unfold paginate_instances, bind at 1, bind at 1, emit, ret at 1. simpl.
  set (s1 := {| trace := _; ticks := _ |}).
  destruct (idle_loop self T days
              (Spec.running_instances (UnusedResources.client self)) [] s1
              Hwin)
    as (s' & Hrun & Hiss).
  exists s'. split; [exact Hrun|].
  eapply (issued_trans _ _ _ [] []); [|exact Hiss].
  unfold Spec.issued. simpl. by rewrite mutations_snoc_read, app_nil_r.
Qed.

Lemma rightsizing_loop self days T Tm insts acc s :
  Spec.scan_window_ok (Rightsizing.client self) days (ticks s)
    (length insts) ->
  exists s',
    for_each insts (Spec.rightsizing_step self days T Tm) acc s
    = (Ok (acc ++ Spec.scan (Spec.rightsizing_verdict self days T Tm)
                    (ticks s) insts), s')
    /\ Spec.issued s s' [].
Proof.
  revert acc s. induction insts as [|i insts IH]; intros acc s Hwin.
  - exists s. rewrite app_nil_r. split; [done|apply issued_refl].
  - destruct Hwin as [Hrep Hwin]. rewrite scan_cons. simpl.
    unfold bind at 1, Spec.rightsizing_step, datetime_now, bind at 1.
    cbv beta iota. rewrite window_start by done. cbn [trace ticks].
    unfold bind at 1. simpl.
    unfold metric_datapoints, bind at 1, bind at 1, emit, ret at 1. simpl.
    set (s1 := {| trace := _; ticks := _ |}).
    assert (Spec.issued s s1 []) as Hs1.
    { unfold Spec.issued. simpl.
      by rewrite mutations_snoc_read, app_nil_r. }
    unfold Spec.rightsizing_verdict at 1, Spec.cpu_metric.
    destruct (datapoints _ _ _ _ _ _) as [|dp dps].
    + destruct (IH acc s1 Hwin) as (s' & Hrun & Hiss).
      exists s'. split; [exact Hrun|].
      apply (issued_trans _ _ _ [] [] Hs1 Hiss).
    + destruct (PrimFloat.ltb _ T && PrimFloat.ltb _ Tm).
      * destruct (IH (acc ++ [Spec.recommendation (Rightsizing.region self) i
                                (PyFloat.max (Maximum dp) (Maximum <$> dps))])
                    s1 Hwin) as (s' & Hrun & Hiss).
        rewrite <- app_assoc in Hrun.
        exists s'. split; [exact Hrun|].
        apply (issued_trans _ _ _ [] [] Hs1 Hiss).
      * destruct (IH acc s1 Hwin) as (s' & Hrun & Hiss).
        exists s'. split; [exact Hrun|].
        apply (issued_trans _ _ _ [] [] Hs1 Hiss).
Qed.

Lemma get_right_sizing_recommendations_flat self days T Tm s :
  Rightsizing.get_right_sizing_recommendations self days T Tm s
  = bind (paginate_instances (Rightsizing.client self)
            [{| Name := "instance-state-name"; Values := ["running"] |}])
         (fun pages => for_each (Spec.all_instances pages)
                         (Spec.rightsizing_step self days T Tm) []) s.
Proof.
  unfold Rightsizing.get_right_sizing_recommendations.
  apply bind_ext. intros pages s1.
  exact (for_each_instances pages (Spec.rightsizing_step self days T Tm)
           [] s1).
Qed.

Lemma get_right_sizing_recommendations_run self days T Tm s :
  Spec.scan_window_ok (Rightsizing.client self) days (ticks s)
    (length (Spec.running_instances (Rightsizing.client self))) ->
  exists s',
    Rightsizing.get_right_sizing_recommendations self days T Tm s
    = (Ok (Spec.scan (Spec.rightsizing_verdict self days T Tm) (ticks s)
             (Spec.running_instances (Rightsizing.client self))), s')
    /\ Spec.issued s s' [].
Proof.
  intros Hwin. rewrite get_right_sizing_recommendations_flat.
  unfold paginate_instances, bind at 1, bind at 1, emit, ret at 1. simpl.
  set (s1 := {| trace := _; ticks := _ |}).
  destruct (rightsizing_loop self days T Tm
              (Spec.running_instances (Rightsizing.client self)) [] s1 Hwin)
    as (s' & Hrun & Hiss).
  exists s'. split; [exact Hrun|].
  eapply (issued_trans _ _ _ [] []); [|exact Hiss].
  unfold Spec.issued. simpl. by rewrite mutations_snoc_read, app_nil_r.
Qed.

(** *** Strictness of the threshold comparison *)

Lemma SFcompare_antisym a b :
  SFcompare b a = CompOpp <$> SFcompare a b.
Proof.
  destruct a as [sa|sa| |sa ma ea], b as [sb|sb| |sb mb eb]; simpl;
    try reflexivity;
    try (destruct sa; reflexivity); try (destruct sb; reflexivity);
    try (destruct sa, sb; reflexivity).
  destruct sa, sb; simpl; try reflexivity;
    rewrite (Z.compare_antisym ea eb);
    destruct (ea ?= eb)%Z eqn:He; simpl; try reflexivity;
    change (PosDef.Pos.compare_cont Eq mb ma) with (Pos.compare mb ma);
    change (PosDef.Pos.compare_cont Eq ma mb) with (Pos.compare ma mb);
    rewrite (Pos.compare_antisym ma mb);
    by destruct (Pos.compare ma mb).
Qed.

(** A value at or above the threshold is not below it. *)
Lemma leb_not_ltb (v T : float) :
  PrimFloat.leb T v = true -> PrimFloat.ltb v T = false.
Proof.
  rewrite FloatAxioms.leb_spec, FloatAxioms.ltb_spec. unfold SFleb, SFltb.
  rewrite (SFcompare_antisym (Prim2SF T) (Prim2SF v)).
  by destruct (SFcompare (Prim2SF T) (Prim2SF v)) as [[]|].
Qed.

(** A value equal to the threshold is not below it. *)
Lemma eqb_not_ltb (v T : float) :
  PrimFloat.eqb v T = true -> PrimFloat.ltb v T = false.
Proof.
  rewrite FloatAxioms.eqb_spec, FloatAxioms.ltb_spec. unfold SFeqb, SFltb.
  by destruct (SFcompare (Prim2SF v) (Prim2SF T)) as [[]|].
Qed.

(** A value below the threshold is not at or above it. *)
Lemma ltb_not_leb (v T : float) :
  PrimFloat.ltb v T = true -> PrimFloat.leb T v = false.
Proof.
  intros Hlt. destruct (PrimFloat.leb T v) eqn:Hle; [|done].
  apply leb_not_ltb in Hle. congruence.
Qed.

Lemma elem_of_scan {A} (verdict : nat -> Instance.t -> list A) t insts k i x :
  insts !! k = Some i -> x ∈ verdict (t + 2 * k)%nat i ->
  x ∈ Spec.scan verdict t insts.
Proof.
  intros Hk Hx. unfold Spec.scan. apply list_elem_of_In, in_concat.
  exists (verdict (t + 2 * k)%nat i). split; apply list_elem_of_In; [|done].
  by apply (elem_of_lookup_imap_2 (fun k i => verdict (t + 2 * k)%nat i)).
Qed.

(** C7, as stated, fails for the right-sizing scanner: with the memory
    threshold at 30 an instance whose largest hourly maximum is 3% is not
    reported against CPU threshold 5.0, though 3 < 5, because the scan
    also compares a fixed memory figure of 30 with the memory threshold. *)
Lemma low_cpu_is_not_flagged_at_memory_threshold_30 :
  let self := {| Rightsizing.client := Examples.one_instance [3]%float;
                 Rightsizing.region := "us-east-1" |} in
  Spec.cpu_metric (Rightsizing.client self) 14 0
    (Examples.instance "i-1" None) = Some 3%float
  /\ PrimFloat.ltb 3 5 = true
  /\ exists s',
       Rightsizing.get_right_sizing_recommendations self 14 5 30 st0
       = (Ok [], s').
Proof.
  split; [reflexivity|]. split; [reflexivity|]. eexists. vm_compute.
  reflexivity.
Qed.

(** C7, amended: where the window of days can be computed at each
    instance's first clock reading, the idle scanner reports an instance
    exactly when the metric value it computed for it is strictly below
    the threshold, and the right-sizing scanner exactly when that holds
    and moreover 30 is strictly below the memory threshold, as it is for
    the value 40 the script runs with; a value at or above the threshold,
    the threshold itself included, is never reported. *)
Theorem scanners_flag_exactly_below_threshold :
  (forall self T days s,
     Spec.scan_window_ok (UnusedResources.client self) days (ticks s)
       (length (Spec.running_instances (UnusedResources.client self))) ->
     exists s',
       UnusedResources.find_idle_ec2_instances self T days s
       = (Ok (Spec.scan (Spec.idle_verdict self T days) (ticks s)
                (Spec.running_instances (UnusedResources.client self))), s'))
  /\ (forall self T days t i v,
        Spec.idle_metric (UnusedResources.client self) days t i = Some v ->
        Spec.idle_verdict self T days t i
        = if PrimFloat.ltb v T
          then [Spec.idle_finding (UnusedResources.region self) days i v]
          else [])
  /\ (forall self T Tm days s,
        Spec.scan_window_ok (Rightsizing.client self) days (ticks s)
          (length (Spec.running_instances (Rightsizing.client self))) ->
        exists s',
          Rightsizing.get_right_sizing_recommendations self days T Tm s
          = (Ok (Spec.scan (Spec.rightsizing_verdict self days T Tm)
                   (ticks s)
                   (Spec.running_instances (Rightsizing.client self))), s'))
  /\ (forall self T Tm days t i v,
        Spec.cpu_metric (Rightsizing.client self) days t i = Some v ->
        Spec.rightsizing_verdict self days T Tm t i
        = if PrimFloat.ltb v T && PrimFloat.ltb 30 Tm
          then [Spec.recommendation (Rightsizing.region self) i v]
          else [])
  /\ PrimFloat.ltb 30 Rightsizing.default_mem_threshold = true
  /\ (forall v T : float, PrimFloat.leb T v = true -> PrimFloat.ltb v T = false)
  /\ (forall v T : float, PrimFloat.eqb v T = true -> PrimFloat.ltb v T = false).
Proof.
  split_and!.
  - intros self T days s Hwin.
    destruct (find_idle_ec2_instances_run self T days s Hwin)
      as (s' & Hrun & _).
    by exists s'.
  - intros self T days t i v Hv. unfold Spec.idle_verdict. by rewrite Hv.
  - intros self T Tm days s Hwin.
    destruct (get_right_sizing_recommendations_run self days T Tm s Hwin)
      as (s' & Hrun & _).
    by exists s'.
  - intros self T Tm days t i v Hv. unfold Spec.rightsizing_verdict.
    by rewrite Hv.
  - reflexivity.
  - apply leb_not_ltb.
  - apply eqb_not_ltb.
Qed.

Lemma scanners_flag_exactly_below_threshold_witness :
  (exists s',
     UnusedResources.find_idle_ec2_instances
       {| UnusedResources.client := Examples.one_instance [3; 3; 3]%float;
          UnusedResources.region := "us-east-1" |} 5 14 st0
     = (Ok [Spec.idle_finding "us-east-1" 14 (Examples.instance "i-1" None)
              3], s'))
  /\ (exists s',
        Rightsizing.get_right_sizing_recommendations
          {| Rightsizing.client := Examples.one_instance [3; 3; 3]%float;
             Rightsizing.region := "us-east-1" |} 14 5 40 st0
        = (Ok [Spec.recommendation "us-east-1"
                 (Examples.instance "i-1" None) 3], s')).
Proof.
  destruct scanners_flag_exactly_below_threshold as (Hidle & _ & Hright & _).
  split.
  - destruct (Hidle {| UnusedResources.client
                         := Examples.one_instance [3; 3; 3]%float;
                       UnusedResources.region := "us-east-1" |}
                5%float 14 st0) as (s' & Hs').
    { repeat split; by vm_compute. }
    exists s'. rewrite Hs'. reflexivity.
  - destruct (Hright {| Rightsizing.client
                          := Examples.one_instance [3; 3; 3]%float;
                        Rightsizing.region := "us-east-1" |}
                5%float 40%float 14 st0) as (s' & Hs').
    { repeat split; by vm_compute. }
    exists s'. rewrite Hs'. reflexivity.
Defined.

(** C9, as stated, fails: daily averages of 1% and 5% average 3% over the
    window, yet the instance is not reported against threshold 5.0,
    because the scan compares the largest daily average. *)
Lemma averaging_three_percent_is_not_enough :
  Spec.mean [1; 5]%float = 3%float
  /\ exists s',
       UnusedResources.find_idle_ec2_instances
         {| UnusedResources.client := Examples.one_instance [1; 5]%float;
            UnusedResources.region := "us-east-1" |} 5 14 st0
       = (Ok [], s').
Proof. split; [reflexivity|]. eexists. vm_compute. reflexivity. Qed.

(** C9, amended: a running instance whose largest daily CPU average over
    the 14-day window is 3%, as when every daily average is 3%, is
    reported against threshold 5.0 with the value "3.00%", where the
    start of the 14-day window is an instant a [datetime] can hold at
    each instance's first clock reading. *)
Theorem idle_scan_reports_three_percent self s k i :
  Spec.scan_window_ok (UnusedResources.client self) 14 (ticks s)
    (length (Spec.running_instances (UnusedResources.client self))) ->
  Spec.running_instances (UnusedResources.client self) !! k = Some i ->
  Spec.idle_metric (UnusedResources.client self) 14 (ticks s + 2 * k) i
  = Some 3%float ->
  exists found s',
    UnusedResources.find_idle_ec2_instances self 5 14 s = (Ok found, s')
    /\ Spec.idle_finding (UnusedResources.region self) 14 i 3 ∈ found
    /\ UnusedResources.InstanceId
         (Spec.idle_finding (UnusedResources.region self) 14 i 3)
       = Instance.InstanceId i
    /\ UnusedResources.Value
         (Spec.idle_finding (UnusedResources.region self) 14 i 3)
       = "3.00%".
Proof.
  intros Hwin Hk Hv.
  destruct (find_idle_ec2_instances_run self 5 14 s Hwin) as (s' & Hrun & _).
  eexists _, s'. split; [exact Hrun|]. split; [|by split].
  eapply elem_of_scan; [exact Hk|].
  unfold Spec.idle_verdict. rewrite Hv.
  replace (PrimFloat.ltb 3 5) with true by (by vm_compute). by left.
Qed.

Lemma idle_scan_reports_three_percent_witness :
  exists found s',
    UnusedResources.find_idle_ec2_instances
      {| UnusedResources.client := Examples.one_instance [3; 3; 3]%float;
         UnusedResources.region := "us-east-1" |} 5 14 st0 = (Ok found, s')
    /\ UnusedResources.Value <$> found = ["3.00%"].
Proof.
  destruct (idle_scan_reports_three_percent
              {| UnusedResources.client := Examples.one_instance [3; 3; 3]%float;
                 UnusedResources.region := "us-east-1" |} st0 0
              (Examples.instance "i-1" None)
              ltac:(repeat split; by vm_compute) eq_refl eq_refl)
    as (found & s' & Hrun & _).
  exists found, s'. split; [exact Hrun|].
  vm_compute in Hrun. by injection Hrun as <- _.
Defined.

(** ** The cost report *)

#[local] Set Warnings "-inexact-float".

Lemma parse_100 : PyFloat.parse "100.00" = Some 100%float.
Proof. by vm_compute. Qed.

Lemma parse_50 : PyFloat.parse "50.00" = Some 50%float.
Proof. by vm_compute. Qed.

Lemma round2_100 : PyFloat.round2 100 = 100%float.
Proof. by vm_compute. Qed.

Lemma round2_50 : PyFloat.round2 50 = 50%float.
Proof. by vm_compute. Qed.

(** The total of 100.00 and 50.00 and the two shares, with either way of
    summing floats. *)
Lemma shares_of_150 py312 :
  PyFloat.sum_from py312 100 [50%float] = 150%float
  /\ PyFloat.round2 (100 / 150 * 100) = 66.67%float
  /\ PyFloat.round2 (50 / 150 * 100) = 33.33%float
  /\ PyFloat.format_2f false 66.67 = "66.67"
  /\ PyFloat.format_2f false 33.33 = "33.33".
Proof. destruct py312; by vm_compute. Qed.


#[local] Opaque PyFloat.parse PyFloat.round2 PyFloat.sum_from.

(** C10: when the cost query answers with two groups costing 100.00 and
    50.00, in either order, and the first day of the period is a day a
    [date] can hold, the report lists the 100.00 group first and the
    shares of the total it adds are 66.67 and 33.33. *)
Theorem two_group_report_is_sorted_with_shares
    (py312 : bool) self days dimension s start stop
    k100 more100 unit100 k50 more50 unit50 (cheap_first : bool) :
  let g100 := Spec.cost_group k100 more100 "100.00" unit100 in
  let g50 := Spec.cost_group k50 more50 "50.00" unit50 in
  Spec.date_representable (now (CostAnalysis.client self) (ticks s)) days ->
  (forall a b g m gb,
     cost_and_usage (CostAnalysis.client self) a b g m gb
     = inr (Spec.one_period start stop
              (if cheap_first then [g50; g100] else [g100; g50]))) ->
  exists s',
    CostAnalysis.analyze_costs self days dimension s
    = (Ok [Spec.cost_record start stop dimension k100 100 unit100 None;
           Spec.cost_record start stop dimension k50 50 unit50 None], s')
    /\ CostAnalysis.calculate_percentage py312
         [Spec.cost_record start stop dimension k100 100 unit100 None;
          Spec.cost_record start stop dimension k50 50 unit50 None]
       = [Spec.cost_record start stop dimension k100 100 unit100
            (Some 66.67%float);
          Spec.cost_record start stop dimension k50 50 unit50
            (Some 33.33%float)]
    /\ PyFloat.format_2f false 66.67 = "66.67"
    /\ PyFloat.format_2f false 33.33 = "33.33".
Proof.
  intros g100 g50 Hwin Hanswer.
  destruct (shares_of_150 py312) as (Hsum & H66 & H33 & Hf66 & Hf33).
  assert (PrimFloat.ltb 50 100 = true) as Hlt by (by vm_compute).
  assert (PrimFloat.ltb 100 50 = false) as Hge by (by vm_compute).
  assert (PrimFloat.eqb 150 0 = false) as Hne by (by vm_compute).
  cut (exists s',
         CostAnalysis.analyze_costs self days dimension s
         = (Ok [Spec.cost_record start stop dimension k100 100 unit100 None;
                Spec.cost_record start stop dimension k50 50 unit50 None],
            s')).
  { intros [s' Hrun]. exists s'. split_and!; [exact Hrun| |done..].
    unfold CostAnalysis.calculate_percentage,
      CostAnalysis.calculate_total_cost. simpl.
    rewrite Hsum, Hne. cbv iota. by rewrite H66, H33. }
  unfold CostAnalysis.analyze_costs, CostAnalysis.get_cost_and_usage.
  unfold datetime_now, bind at 1. cbv beta iota zeta.
  rewrite date_start by done. cbn [trace ticks].
  unfold bind at 1, try_except, bind at 1, emit. simpl.
  rewrite Hanswer. unfold ret at 1. simpl.
  unfold bind at 1.
  destruct cheap_first; simpl; unfold bind; simpl;
    rewrite parse_100, parse_50; unfold ret; simpl;
    rewrite round2_100, round2_50;
    unfold CostAnalysis.sort_desc; simpl;
    rewrite ?Hlt, ?Hge; eexists; reflexivity.
Qed.

Lemma two_group_report_is_sorted_with_shares_witness :
  exists s',
    CostAnalysis.analyze_costs {| CostAnalysis.client := Examples.two_costs |}
      30 "SERVICE" st0
    = (Ok [Spec.cost_record "2024-05-01" "2024-06-01" "SERVICE"
             "Amazon Elastic Compute Cloud" 100 "USD" None;
           Spec.cost_record "2024-05-01" "2024-06-01" "SERVICE"
             "Amazon Simple Storage Service" 50 "USD" None], s').
Proof.
  destruct (two_group_report_is_sorted_with_shares true
              {| CostAnalysis.client := Examples.two_costs |} 30 "SERVICE" st0
              "2024-05-01" "2024-06-01"
              "Amazon Elastic Compute Cloud" [] "USD"
              "Amazon Simple Storage Service" [] "USD" true
              ltac:(split; by vm_compute)
              (fun _ _ _ _ _ => eq_refl)) as (s' & Hrun & _).
  by exists s'.
Defined.

(** ** Validation failures *)

Lemma stderr_app tr1 tr2 : stderr (tr1 ++ tr2) = stderr tr1 ++ stderr tr2.
Proof. apply omap_app. Qed.

Lemma print_rows {A B} (xs : list A) (line : B -> A -> string)
    (next : B -> A -> B) acc s :
  exists acc' s',
    for_each xs (fun acc x => print (line acc x) ;; ret (next acc x)) acc s
    = (Ok acc', s')
    /\ api_calls (trace s') = api_calls (trace s)
    /\ stderr (trace s') = stderr (trace s).
Proof.
  revert acc s. induction xs as [|x xs IH]; intros acc s; simpl.
  - by exists acc, s.
  - unfold bind at 1, bind at 1, print, emit, ret at 1. simpl.
    set (s1 := {| trace := _; ticks := _ |}).
    destruct (IH (next acc x) s1) as (acc' & s' & Hrun & Hapi & Herr).
    exists acc', s'. split_and!; [exact Hrun|..]; subst s1; simpl in *.
    + by rewrite Hapi, api_calls_snoc_stdout.
    + rewrite Herr, stderr_app. apply app_nil_r.
Qed.

(** Printing the summary talks to nobody and cannot fail. *)
Lemma print_summary_run py312 records top_n s :
  exists s',
    CostAnalysis.print_summary py312 records top_n s = (Ok tt, s')
    /\ api_calls (trace s') = api_calls (trace s)
    /\ stderr (trace s') = stderr (trace s).
Proof.
  unfold CostAnalysis.print_summary. destruct records as [|first rest].
  { eexists. split; [reflexivity|]. simpl.
    by rewrite api_calls_snoc_stdout, stderr_app, app_nil_r. }
  repeat (unfold bind at 1, print at 1, emit at 1; simpl).
  match goal with
  | |- context [for_each ?xs ?body ?acc ?s0] =>
      set (s1 := s0);
      destruct (print_rows xs
                  (fun idx record =>
                     PyFloat.ljust 6 (pretty idx) +:+ " "
                     +:+ PyFloat.ljust 40 (CostAnalysis.Value record) +:+ " $"
                     +:+ PyFloat.rjust 12
                           (PyFloat.format_2f true (CostAnalysis.Cost record))
                     +:+ " "
                     +:+ PyFloat.rjust 8
                           (PyFloat.format_2f false
                              (default 0%float (CostAnalysis.Percentage record)))
                     +:+ "%")
                  (fun idx _ => idx + 1) acc s1)
        as (acc' & s2 & Hrun & Hapi & Herr)
  end.
  match goal with
  | |- context [for_each ?xs ?body ?acc ?s0] =>
      change (for_each xs body acc s0) with
        (for_each xs
           (fun idx record =>
              print (PyFloat.ljust 6 (pretty idx) +:+ " "
                     +:+ PyFloat.ljust 40 (CostAnalysis.Value record) +:+ " $"
                     +:+ PyFloat.rjust 12
                           (PyFloat.format_2f true (CostAnalysis.Cost record))
                     +:+ " "
                     +:+ PyFloat.rjust 8
                           (PyFloat.format_2f false
                              (default 0%float (CostAnalysis.Percentage record)))
                     +:+ "%") ;; ret (idx + 1)) acc s1)
  end.
  rewrite Hrun. unfold print, emit. eexists. split; [reflexivity|].
  subst s1. simpl in *. autorewrite with trace in *.
  rewrite !stderr_app in *. simpl in *. rewrite !app_nil_r in *.
  by rewrite Hapi, Herr.
Qed.

Lemma for_each_stateless {A B} (xs : list A) (body : B -> A -> M B) :
  (forall acc x s, (body acc x s).2 = s
                   /\ forall c, (body acc x s).1 <> Exit c) ->
  forall acc s, (for_each xs body acc s).2 = s
                /\ forall c, (for_each xs body acc s).1 <> Exit c.
Proof.
  intros Hbody. induction xs as [|x xs IH]; intros acc s; simpl; [done|].
  unfold bind. destruct (Hbody acc x s) as [Hs Hr].
  destruct (body acc x s) as [[a|e|c] s1]; simpl in *; subst s1.
  - apply IH.
  - done.
  - by destruct (Hr c).
Qed.

(** Where the first day of the period is a day a [date] can hold, the
    cost analysis issues its one query whatever the answer, and ends with
    a list of records, with an exception, or with exit status 1. *)
Lemma analyze_costs_run self days dimension s :
  Spec.date_representable (now (CostAnalysis.client self) (ticks s)) days ->
  let current := now (CostAnalysis.client self) (ticks s) `div` 86400000000 in
  let query :=
    get_cost_and_usage
      (strftime_ymd (CostAnalysis.client self) (current - days))
      (strftime_ymd (CostAnalysis.client self) current)
      "MONTHLY" ["UnblendedCost"] [("DIMENSION", dimension)] in
  forall r s',
    CostAnalysis.analyze_costs self days dimension s = (r, s') ->
    api_calls (trace s') = api_calls (trace s) ++ [query]
    /\ (forall c, r = Exit c -> c = 1)
    /\ (forall records, r = Ok records -> stderr (trace s') = stderr (trace s)).
Proof.
  intros Hwin current query r s'.
  unfold CostAnalysis.analyze_costs, CostAnalysis.get_cost_and_usage.
  unfold datetime_now, bind at 1. cbv beta iota zeta.
  rewrite date_start by done. cbn [trace ticks].
  unfold bind at 1, try_except, bind at 1, emit. simpl.
  fold current.
  destruct (cost_and_usage _ _ _ _ _ _) as [e|response].
  - unfold raise, eprint, sys_exit, emit, bind. simpl.
    intros [= <- <-]. simpl. autorewrite with trace.
    split_and!; [done|by intros c [= <-]|done].
  - unfold ret at 1. unfold bind at 1.
    match goal with
    | |- context [for_each ?xs ?body ?acc0 ?s0] =>
        assert (forall acc x s, (body acc x s).2 = s
                                /\ forall c, (body acc x s).1 <> Exit c)
          as Hbody;
        [|destruct (for_each_stateless xs body Hbody acc0 s0) as [Hs Hr]]
    end.
    { intros acc result s0. apply for_each_stateless.
      intros acc' group s1. destruct (Keys group); [by split|].
      destruct (PyFloat.parse _); by split. }
    destruct (for_each _ _ _ _) as [[records|e|c] s1]; simpl in *; subst s1.
    + unfold ret. intros [= <- <-]. simpl. autorewrite with trace.
      split_and!; [done..|]. intros _ _. rewrite stderr_app. apply app_nil_r.
    + intros [= <- <-]. simpl. by autorewrite with trace.
    + by destruct (Hr c).
Qed.

(** Where it is not, the analysis raises [OverflowError] once it has read
    the clock, before any query. *)
Lemma analyze_costs_overflow self days dimension s :
  ~ Spec.date_representable (now (CostAnalysis.client self) (ticks s)) days ->
  exists e,
    exn_type e = "OverflowError"
    /\ CostAnalysis.analyze_costs self days dimension s
       = (Raise e, {| trace := trace s; ticks := S (ticks s) |}).
Proof.
  intros Hwin. unfold CostAnalysis.analyze_costs.
  unfold datetime_now, bind at 1. cbv beta iota zeta.
  exact (date_overflow _ _ _ _ Hwin).
Qed.

(** C5, as stated, fails for the cost report: with [--output report.txt]
    the run does end with exit status 1, but the cost query has been
    issued by then. *)
Lemma bad_extension_is_noticed_after_the_query :
  ~ Spec.fails_before_any_call
      (CostAnalysis.main true (fun _ => Examples.two_costs)
         Examples.empty_world (fun _ => EmptyString) (fun _ => EmptyString)
         Examples.report_txt).
Proof.
  intros H. destruct (H st0) as (code & s' & Hrun & _ & Hapi).
  vm_compute in Hrun. injection Hrun as _ <-. by vm_compute in Hapi.
Qed.

Lemma cost_main_bad_extension py312 clients host csv_text json_text args
    output s :
  CostAnalysis.arg_output args = Some output ->
  output <> EmptyString ->
  CostAnalysis.endswith output ".csv" = false ->
  CostAnalysis.endswith output ".json" = false ->
  let analyzer :=
    {| CostAnalysis.client := clients (CostAnalysis.arg_region args) |} in
  let window :=
    Spec.date_representable
      (now (clients (CostAnalysis.arg_region args)) (ticks s))
      (CostAnalysis.arg_days args) in
  let s0 := {| trace := trace s
                        ++ [Stdout ("Analyzing AWS costs for the last "
                                    +:+ pretty (CostAnalysis.arg_days args)
                                    +:+ " days...")];
               ticks := ticks s |} in
  let run := CostAnalysis.main py312 clients host csv_text json_text args s in
  (run.1 = Exit 1 \/ exists e, run.1 = Raise e)
  /\ (window ->
      exists query, api_calls (trace run.2) = api_calls (trace s) ++ [query])
  /\ (~ window ->
      (exists e, run.1 = Raise e /\ exn_type e = "OverflowError")
      /\ api_calls (trace run.2) = api_calls (trace s))
  /\ (forall records s1,
        CostAnalysis.analyze_costs analyzer (CostAnalysis.arg_days args)
          (CostAnalysis.arg_group_by args) s0 = (Ok records, s1) ->
        exists s2,
          CostAnalysis.print_summary py312
            (CostAnalysis.calculate_percentage py312 records)
            (CostAnalysis.arg_top args) s1 = (Ok tt, s2)
          /\ run
             = (Exit 1,
                {| trace := trace s2
                            ++ [Stderr "Error: Output file must have .csv or .json extension"];
                   ticks := ticks s2 |})).
Proof.
  intros Hout Hne Hcsv Hjson analyzer window s0 run.
  assert (run
          = match CostAnalysis.analyze_costs analyzer
                    (CostAnalysis.arg_days args)
                    (CostAnalysis.arg_group_by args) s0 with
            | (Ok records, s1) =>
                match CostAnalysis.print_summary py312
                        (CostAnalysis.calculate_percentage py312 records)
                        (CostAnalysis.arg_top args) s1 with
                | (Ok _, s2) =>
                    (Exit 1,
                     {| trace := trace s2
                                 ++ [Stderr "Error: Output file must have .csv or .json extension"];
                        ticks := ticks s2 |})
                | (Raise e, s2) => (Raise e, s2)
                | (Exit c, s2) => (Exit c, s2)
                end
            | (Raise e, s1) => (Raise e, s1)
            | (Exit c, s1) => (Exit c, s1)
            end) as Hrun.
  { subst run. unfold CostAnalysis.main.
    rewrite Hout, bool_decide_eq_false_2, Hcsv, Hjson by done.
    unfold bind at 1, print at 1, emit at 1. simpl. fold analyzer s0.
    unfold bind at 1.
    destruct (CostAnalysis.analyze_costs _ _ _ s0) as [[records|e|c] s1];
      [|done..].
    unfold bind at 1.
    destruct (CostAnalysis.print_summary _ _ _ s1) as [[[]|e|c] s2];
      [|done..].
    by unfold bind, eprint, emit, sys_exit. }
  assert (window ->
          (run.1 = Exit 1 \/ exists e, run.1 = Raise e)
          /\ exists query,
               api_calls (trace run.2) = api_calls (trace s) ++ [query])
    as Hin.
  { intros Hwin. rewrite Hrun.
    pose proof (analyze_costs_run analyzer (CostAnalysis.arg_days args)
                  (CostAnalysis.arg_group_by args) s0 Hwin) as Hana.
    simpl in Hana.
    destruct (CostAnalysis.analyze_costs _ _ _ s0) as [[records|e|c] s1];
      destruct (Hana _ _ eq_refl) as (Hapi & Hexit & _); clear Hana;
      subst s0; simpl in Hapi; autorewrite with trace in Hapi.
    - destruct (print_summary_run py312
                  (CostAnalysis.calculate_percentage py312 records)
                  (CostAnalysis.arg_top args) s1) as (s2 & -> & Hapi2 & _).
      simpl. autorewrite with trace. split; [by left|].
      eexists. by rewrite Hapi2, Hapi.
    - simpl. split; [right; by eexists|by eexists].
    - simpl. rewrite (Hexit c eq_refl). split; [by left|by eexists]. }
  assert (~ window ->
          (exists e, run.1 = Raise e /\ exn_type e = "OverflowError")
          /\ api_calls (trace run.2) = api_calls (trace s)) as Hout_of.
  { intros Hwin. rewrite Hrun.
    destruct (analyze_costs_overflow analyzer (CostAnalysis.arg_days args)
                (CostAnalysis.arg_group_by args) s0 Hwin) as (e & He & ->).
    simpl. autorewrite with trace. split; [by exists e|done]. }
  split_and!.
  - destruct (decide window) as [Hwin|Hwin]; [by apply Hin|].
    destruct (Hout_of Hwin) as [(e & -> & _) _]. right. by eexists.
  - intros Hwin. by apply Hin.
  - exact Hout_of.
  - intros records s1 Hana. rewrite Hrun, Hana.
    destruct (print_summary_run py312
                (CostAnalysis.calculate_percentage py312 records)
                (CostAnalysis.arg_top args) s1) as (s2 & Hsum & _).
    exists s2. by rewrite Hsum.
Qed.

Lemma unused_main_without_region clients host json_dump args s :
  UnusedResources.truthy (UnusedResources.arg_region args) = false ->
  UnusedResources.arg_all_regions args = false ->
  UnusedResources.main clients host json_dump args s
  = (Exit 1,
     {| trace := trace s
                 ++ [Stderr "Error: You must specify either --region or --all-regions"];
        ticks := ticks s |}).
Proof.
  intros Hregion Hall. unfold UnusedResources.main.
  by rewrite Hregion, Hall.
Qed.

(** C5, amended: a missing region selector makes the unused-resources
    script report the error and exit with status 1 before any remote call.
    An output path that ends in neither .csv nor .json never lets the cost
    script end successfully, but the extension is looked at last: where
    the first day of the period is a day a [date] can hold the cost query
    has been issued by the time the run ends, and when the analysis
    succeeds the summary is printed, then the bad extension is reported
    and the run exits with status 1; where that day cannot be held the
    run ends with [OverflowError] before any remote call. *)
Theorem validation_failures_end_the_run_unsuccessfully :
  (forall clients host json_dump args s,
     UnusedResources.truthy (UnusedResources.arg_region args) = false ->
     UnusedResources.arg_all_regions args = false ->
     exists s',
       UnusedResources.main clients host json_dump args s = (Exit 1, s')
       /\ api_calls (trace s') = api_calls (trace s)
       /\ stderr (trace s')
          = stderr (trace s)
            ++ ["Error: You must specify either --region or --all-regions"])
  /\ (forall py312 clients host csv_text json_text args output s,
        CostAnalysis.arg_output args = Some output ->
        output <> EmptyString ->
        CostAnalysis.endswith output ".csv" = false ->
        CostAnalysis.endswith output ".json" = false ->
        let analyzer :=
          {| CostAnalysis.client :=
               clients (CostAnalysis.arg_region args) |} in
        let window :=
          Spec.date_representable
            (now (clients (CostAnalysis.arg_region args)) (ticks s))
            (CostAnalysis.arg_days args) in
        let s0 := {| trace := trace s
                              ++ [Stdout ("Analyzing AWS costs for the last "
                                          +:+ pretty (CostAnalysis.arg_days args)
                                          +:+ " days...")];
                     ticks := ticks s |} in
        let run :=
          CostAnalysis.main py312 clients host csv_text json_text args s in
        (run.1 = Exit 1 \/ exists e, run.1 = Raise e)
        /\ (window ->
            exists query,
              api_calls (trace run.2) = api_calls (trace s) ++ [query])
        /\ (~ window ->
            (exists e, run.1 = Raise e /\ exn_type e = "OverflowError")
            /\ api_calls (trace run.2) = api_calls (trace s))
        /\ (forall records s1,
              CostAnalysis.analyze_costs analyzer (CostAnalysis.arg_days args)
                (CostAnalysis.arg_group_by args) s0 = (Ok records, s1) ->
              exists s2,
                CostAnalysis.print_summary py312
                  (CostAnalysis.calculate_percentage py312 records)
                  (CostAnalysis.arg_top args) s1 = (Ok tt, s2)
                /\ run
                   = (Exit 1,
                      {| trace := trace s2
                                  ++ [Stderr "Error: Output file must have .csv or .json extension"];
                         ticks := ticks s2 |}))).
Proof.
  split.
  - intros clients host json_dump args s Hregion Hall.
    rewrite unused_main_without_region by done.
    eexists. split; [reflexivity|]. simpl.
    by rewrite api_calls_snoc_stderr, stderr_app.
  - apply cost_main_bad_extension.
Qed.

Lemma validation_failures_end_the_run_unsuccessfully_witness :
  (exists s',
     UnusedResources.main (fun _ => Examples.empty_world) Examples.empty_world
       (fun _ => EmptyString) Examples.no_region st0 = (Exit 1, s')
     /\ api_calls (trace s') = [])
  /\ (exists s',
        CostAnalysis.main true (fun _ => Examples.two_costs)
          Examples.empty_world (fun _ => EmptyString) (fun _ => EmptyString)
          Examples.report_txt st0 = (Exit 1, s')
        /\ length (api_calls (trace s')) = 1%nat
        /\ "AWS Cost Analysis Summary" ∈ stdout (trace s')
        /\ stderr (trace s')
           = ["Error: Output file must have .csv or .json extension"]).
Proof.
  destruct validation_failures_end_the_run_unsuccessfully as [Hregion Hext].
  split.
  - destruct (Hregion (fun _ => Examples.empty_world) Examples.empty_world
                (fun _ => EmptyString) Examples.no_region st0 eq_refl eq_refl)
      as (s' & Hrun & Hapi & _).
    by exists s'.
  - destruct (Hext true (fun _ => Examples.two_costs) Examples.empty_world
                (fun _ => EmptyString) (fun _ => EmptyString)
                Examples.report_txt "report.txt"
                st0 eq_refl ltac:(done) eq_refl eq_refl)
      as (_ & Hquery & _ & Hok).
    destruct Hquery as [query Hapi]; [split; by vm_compute|].
    destruct (CostAnalysis.analyze_costs
                {| CostAnalysis.client := Examples.two_costs |} 30 "SERVICE"
                {| trace := trace st0
                            ++ [Stdout ("Analyzing AWS costs for the last "
                                        +:+ pretty 30 +:+ " days...")];
                   ticks := ticks st0 |}) as [[records| |] s1] eqn:Hana;
      try (by vm_compute in Hana).
    destruct (Hok records s1 Hana) as (s2 & Hsum & Hrun).
    eexists. split; [exact Hrun|]. clear Hapi Hrun. vm_compute in Hana.
    injection Hana as <- <-. vm_compute in Hsum. injection Hsum as <-.
    split; [reflexivity|]. split; [|reflexivity].
    vm_compute. do 2 right. left.
Defined.

(** ** Further properties of the handlers *)

#[local] Transparent PyFloat.parse PyFloat.round2 PyFloat.sum_from.

(** *** The tagger when a call is refused *)

(** A pass of the tagger over the listed resources [rs]: the calls it
    issues are a prefix of the expected ones, all of them, each accepted,
    when it returns, and up to the first refused one when it raises. *)
Lemma tag_loop_run ec2 D what rs ids0 s :
  exists r s' cs,
    for_each rs (Spec.tag_step ec2 D what) ids0 s = (r, s')
    /\ api_calls (trace s') = api_calls (trace s) ++ cs
    /\ cs `prefix_of` Spec.delta_calls D rs
    /\ match r with
       | Ok ids => cs = Spec.delta_calls D rs
                   /\ ids = ids0 ++ (Spec.targets D rs).*1
                   /\ Props.all_accepted ec2 (api_calls (trace s)) cs
       | Raise e => exists cs0 c,
           cs = cs0 ++ [c]
           /\ Props.all_accepted ec2 (api_calls (trace s)) cs0
           /\ refuses ec2 (api_calls (trace s) ++ cs0) c = Some e
       | Exit _ => False
       end.
Proof.
  revert ids0 s. induction rs as [|r rs IH]; intros ids0 s.
  - exists (Ok ids0), s, []. simpl. rewrite !app_nil_r. by split_and!.
  - cbn [for_each]. unfold bind at 1. rewrite tag_step_run.
    unfold Spec.delta_calls. rewrite targets_cons.
    destruct (decide (Spec.missing D r.2 ≠ [])) as [Hne|He].
    + cbv zeta.
      set (c := create_tags [r.1] (Spec.missing D r.2)).
      set (s1 := {| trace := _; ticks := ticks s |}).
      assert (api_calls (trace s1) = api_calls (trace s) ++ [c]) as Hs1.
      { unfold s1. simpl. by rewrite api_calls_snoc_api, api_calls_snoc_stdout. }
      clearbody s1.
      destruct (refuses ec2 (api_calls (trace s)) c) as [e|] eqn:Hr.
      * exists (Raise e), s1, [c]. split_and!; [done|done| |].
        -- by apply prefix_cons, prefix_nil.
        -- exists [], c. by rewrite app_nil_r.
      * destruct (IH (ids0 ++ [r.1]) s1)
          as (r' & s' & cs & Hrun & Hapi & Hpre & Hr').
        exists r', s', (c :: cs). split_and!; [exact Hrun| |..].
        -- by rewrite Hapi, Hs1, <- app_assoc.
        -- by apply prefix_cons.
        -- destruct r' as [ids|e|code]; [| |done].
           ++ destruct Hr' as (-> & -> & Hacc). split_and!; [done| |].
              ** simpl. by rewrite <- app_assoc.
              ** simpl. split; [done|]. by rewrite <- Hs1.
           ++ destruct Hr' as (cs0 & c' & -> & Hacc & Hc').
              exists (c :: cs0), c'. split_and!; [done| |].
              ** simpl. split; [done|]. by rewrite <- Hs1.
              ** revert Hc'. by rewrite Hs1, <- app_assoc.
    + apply IH.
Qed.

(** X1: the tagger stops at the first tagging call the service refuses.
    Whatever the listing and the service, a pass over the instances issues
    the listing call and then, resource by resource in listing order, the
    call that adds to a resource the default tags whose keys it lacks,
    with the default values and in the order of the defaults.  When the
    pass returns, it has issued every such call, the service accepted each
    of them, and the identifiers returned are those of the resources
    named; when it ends with an exception, the service accepted every call
    before the last one issued and answered the last one with that
    exception, and no later call was issued.  The pass over the volumes
    behaves the same. *)
Theorem tagger_stops_at_the_first_refused_call ec2 D s :
  (forall rs : list (string * option (list Tag)),
     Spec.delta_calls D rs
     = (fun r => create_tags [r.1] (Spec.missing D r.2))
       <$> filter (fun r => Spec.missing D r.2 ≠ []) rs
     /\ (Spec.targets D rs).*1
        = fst <$> filter (fun r => Spec.missing D r.2 ≠ []) rs)
  /\ (forall tags k v,
        {| Key := k; Value := v |} ∈ Spec.missing D tags
        <-> (k, v) ∈ D /\ k ∉ Key <$> default [] tags)
  /\ (exists r s' cs,
        AutoTagger.tag_untagged_instances ec2 D s = (r, s')
        /\ api_calls (trace s')
           = api_calls (trace s)
             ++ describe_instances
                  [{| Name := "instance-state-name";
                      Values := ["running"; "stopped"] |}] :: cs
        /\ cs `prefix_of` Spec.delta_calls D (Spec.tagger_instances ec2)
        /\ match r with
           | Ok ids =>
               cs = Spec.delta_calls D (Spec.tagger_instances ec2)
               /\ ids = (Spec.targets D (Spec.tagger_instances ec2)).*1
               /\ Props.all_accepted ec2
                    (api_calls (trace s)
                     ++ [describe_instances
                           [{| Name := "instance-state-name";
                               Values := ["running"; "stopped"] |}]]) cs
           | Raise e => exists cs0 c,
               cs = cs0 ++ [c]
               /\ Props.all_accepted ec2
                    (api_calls (trace s)
                     ++ [describe_instances
                           [{| Name := "instance-state-name";
                               Values := ["running"; "stopped"] |}]]) cs0
               /\ refuses ec2
                    (api_calls (trace s)
                     ++ describe_instances
                          [{| Name := "instance-state-name";
                              Values := ["running"; "stopped"] |}] :: cs0) c
                  = Some e
           | Exit _ => False
           end)
  /\ (exists r s' cs,
        AutoTagger.tag_untagged_volumes ec2 D s = (r, s')
        /\ api_calls (trace s')
           = api_calls (trace s) ++ describe_volumes [] :: cs
        /\ cs `prefix_of` Spec.delta_calls D (Spec.tagger_volumes ec2)
        /\ match r with
           | Ok ids =>
               cs = Spec.delta_calls D (Spec.tagger_volumes ec2)
               /\ ids = (Spec.targets D (Spec.tagger_volumes ec2)).*1
               /\ Props.all_accepted ec2
                    (api_calls (trace s) ++ [describe_volumes []]) cs
           | Raise e => exists cs0 c,
               cs = cs0 ++ [c]
               /\ Props.all_accepted ec2
                    (api_calls (trace s) ++ [describe_volumes []]) cs0
               /\ refuses ec2
                    (api_calls (trace s) ++ describe_volumes [] :: cs0) c
                  = Some e
           | Exit _ => False
           end).
Proof.
  split_and!.
  - apply delta_calls_filter.
  - apply elem_of_missing.
  - rewrite tag_untagged_instances_flat.
    unfold paginate_instances, bind, emit, ret. simpl.
    destruct (tag_loop_run ec2 D "instance" (Spec.tagger_instances ec2) []
                {| trace := trace s ++ [Api (describe_instances
                     [{| Name := "instance-state-name";
                         Values := ["running"; "stopped"] |}])];
                   ticks := ticks s |})
      as (r & s' & cs & Hrun & Hapi & Hpre & Hr).
    exists r, s', cs. split_and!; [exact Hrun| |done|].
    + rewrite Hapi. simpl. by rewrite api_calls_snoc_api, <- app_assoc.
    + simpl in Hr. rewrite api_calls_snoc_api in Hr.
      destruct r as [ids|e|code]; [done| |done].
      destruct Hr as (cs0 & c & -> & Hacc & Hc). exists cs0, c.
      split_and!; [done..|]. revert Hc. by rewrite <- app_assoc.
  - rewrite tag_untagged_volumes_flat.
    unfold paginate_volumes, bind, emit, ret. simpl.
    destruct (tag_loop_run ec2 D "volume" (Spec.tagger_volumes ec2) []
                {| trace := trace s ++ [Api (describe_volumes [])];
                   ticks := ticks s |})
      as (r & s' & cs & Hrun & Hapi & Hpre & Hr).
    exists r, s', cs. split_and!; [exact Hrun| |done|].
    + rewrite Hapi. simpl. by rewrite api_calls_snoc_api, <- app_assoc.
    + simpl in Hr. rewrite api_calls_snoc_api in Hr.
      destruct r as [ids|e|code]; [done| |done].
      destruct Hr as (cs0 & c & -> & Hacc & Hc). exists cs0, c.
      split_and!; [done..|]. revert Hc. by rewrite <- app_assoc.
Qed.

(** *** The scheduler's handler *)

(** The listing call of [get_instances_by_tag]. *)
Local Notation listing_call tag_key tag_value :=
  (describe_instances
     [{| Name := "tag:" +:+ tag_key; Values := [tag_value] |};
      {| Name := "instance-state-name";
         Values := if decide (tag_value = "stop") then ["running"]
                   else ["stopped"] |}]).

Lemma stop_instances_exact ec2 tag_key s :
  let ids := Spec.scheduled ec2 tag_key "stop" in
  let history := api_calls (trace s) ++ [listing_call tag_key "stop"] in
  exists s',
    Scheduler.stop_instances ec2 tag_key s
    = (match ids with
       | [] => Ok ids
       | _ :: _ =>
           match refuses ec2 history (Py.stop_instances ids) with
           | Some e => Raise e
           | None => Ok ids
           end
       end, s')
    /\ api_calls (trace s')
       = history ++ match ids with
                    | [] => []
                    | _ :: _ => [Py.stop_instances ids]
                    end.
Proof.
  intros ids history. unfold Scheduler.stop_instances. unfold bind at 1.
  destruct (get_instances_by_tag_run ec2 tag_key "stop" s)
    as (s1 & -> & Htr & _).
  assert (api_calls (trace s1) = history) as Hs1
    by (by rewrite Htr, api_calls_snoc_api).
  fold ids. destruct ids as [|id ids'] eqn:Hids.
  - exists s1. by rewrite app_nil_r.
  - unfold print, issue, emit, bind, ret. simpl.
    rewrite api_calls_snoc_stdout, Hs1.
    destruct (refuses ec2 _ _) as [e|]; eexists; (split; [done|]); simpl;
      by rewrite api_calls_snoc_api, api_calls_snoc_stdout, Hs1.
Qed.

Lemma start_instances_exact ec2 tag_key s :
  let ids := Spec.scheduled ec2 tag_key "start" in
  let history := api_calls (trace s) ++ [listing_call tag_key "start"] in
  exists s',
    Scheduler.start_instances ec2 tag_key s
    = (match ids with
       | [] => Ok ids
       | _ :: _ =>
           match refuses ec2 history (Py.start_instances ids) with
           | Some e => Raise e
           | None => Ok ids
           end
       end, s')
    /\ api_calls (trace s')
       = history ++ match ids with
                    | [] => []
                    | _ :: _ => [Py.start_instances ids]
                    end.
Proof.
  intros ids history. unfold Scheduler.start_instances. unfold bind at 1.
  destruct (get_instances_by_tag_run ec2 tag_key "start" s)
    as (s1 & -> & Htr & _).
  assert (api_calls (trace s1) = history) as Hs1
    by (by rewrite Htr, api_calls_snoc_api).
  fold ids. destruct ids as [|id ids'] eqn:Hids.
  - exists s1. by rewrite app_nil_r.
  - unfold print, issue, emit, bind, ret. simpl.
    rewrite api_calls_snoc_stdout, Hs1.
    destruct (refuses ec2 _ _) as [e|]; eexists; (split; [done|]); simpl;
      by rewrite api_calls_snoc_api, api_calls_snoc_stdout, Hs1.
Qed.

(** X2: the scheduler's handler answers only an action it does not know.
    For an event whose action is "stop" (also when the event has no
    action) or "start", it lists the matching instances, issues the bulk
    call for them if there are any, and then ends with an exception: the
    service's own if the bulk call was refused, and otherwise, also when
    no call was due, the [NameError] of the module's missing [json]
    import.  For any other action it returns status 400 and touches
    nothing. *)
Theorem scheduler_answers_only_an_unknown_action
    environ clients dumps event s :
  let ec2 := clients (default "us-east-1" (environ !! "AWS_REGION")) in
  let tag_key := default "AutoScheduler" (environ !! "TAG_KEY") in
  let action := default "stop" (Scheduler.action event) in
  let name_error := {| exn_type := "NameError";
                       exn_msg := "name 'json' is not defined" |} in
  let outcome history ids call :=
    match ids with
    | [] => name_error
    | _ :: _ => default name_error (refuses ec2 history call)
    end in
  exists r s',
    Scheduler.lambda_handler environ clients dumps event s = (r, s')
    /\ if decide (action = "stop") then
         let ids := Spec.scheduled ec2 tag_key "stop" in
         let history :=
           api_calls (trace s)
           ++ [describe_instances
                 [{| Name := "tag:" +:+ tag_key; Values := ["stop"] |};
                  {| Name := "instance-state-name";
                     Values := ["running"] |}]] in
         api_calls (trace s')
         = history ++ match ids with
                      | [] => []
                      | _ :: _ => [Py.stop_instances ids]
                      end
         /\ r = Raise (outcome history ids (Py.stop_instances ids))
       else if decide (action = "start") then
         let ids := Spec.scheduled ec2 tag_key "start" in
         let history :=
           api_calls (trace s)
           ++ [describe_instances
                 [{| Name := "tag:" +:+ tag_key; Values := ["start"] |};
                  {| Name := "instance-state-name";
                     Values := ["stopped"] |}]] in
         api_calls (trace s')
         = history ++ match ids with
                      | [] => []
                      | _ :: _ => [Py.start_instances ids]
                      end
         /\ r = Raise (outcome history ids (Py.start_instances ids))
       else r = Ok {| Scheduler.statusCode := 400;
                      Scheduler.body := "Invalid action specified" |}
            /\ s' = s.
Proof.
  intros ec2 tag_key action name_error outcome.
  unfold Scheduler.lambda_handler. fold ec2 tag_key action.
  destruct (decide (action = "stop")) as [_|_];
    [|destruct (decide (action = "start")) as [_|_]].
  - destruct (stop_instances_exact ec2 tag_key s) as (s' & Hrun & Hapi).
    unfold bind at 1. rewrite Hrun. clear Hrun. simpl in Hapi.
    subst outcome. cbv beta.
    destruct (Spec.scheduled ec2 tag_key "stop") as [|id ids].
    + eexists _, s'. split; [reflexivity|]. by split.
    + destruct (refuses ec2 _ _) as [e|]; eexists _, s';
        (split; [reflexivity|]); by split.
  - destruct (start_instances_exact ec2 tag_key s) as (s' & Hrun & Hapi).
    unfold bind at 1. rewrite Hrun. clear Hrun. simpl in Hapi.
    subst outcome. cbv beta.
    destruct (Spec.scheduled ec2 tag_key "start") as [|id ids].
    + eexists _, s'. split; [reflexivity|]. by split.
    + destruct (refuses ec2 _ _) as [e|]; eexists _, s';
        (split; [reflexivity|]); by split.
  - by eexists _, s.
Qed.

(** *** What snapshot cleanup selects *)

Lemma has_retain_false tags :
  SnapshotCleanup.has_retain tags = false <-> "Retain" ∉ (Key <$> tags).
Proof.
  unfold SnapshotCleanup.has_retain. induction tags as [|t tags IH]; simpl.
  - split; [intros _; apply not_elem_of_nil|done].
  - rewrite orb_false_iff, IH, not_elem_of_cons, bool_decide_eq_false.
    split; intros [H1 H2]; split; auto.
Qed.

(** Every selected identifier is that of a listed snapshot without the
    override tag which was older than the window at the clock reading it
    was compared with. *)
Lemma matched_sound ec2 days t snaps id :
  id ∈ Spec.matched ec2 days t snaps ->
  exists sn t',
    sn ∈ snaps /\ Snapshot.SnapshotId sn = id
    /\ ("Retain" ∉ Key <$> default [] (Snapshot.Tags sn))
    /\ (t <= t')%nat
    /\ Snapshot.StartTime sn < now ec2 t' - timedelta_days days.
Proof.
  revert t. induction snaps as [|sn snaps IH]; intros t; simpl.
  - by intros ?%elem_of_nil.
  - unfold Spec.expired.
    destruct (SnapshotCleanup.has_retain _) eqn:Hret.
    + intros (sn' & t' & ? & ? & ? & ? & ?)%IH.
      exists sn', t'. split_and!; [by right|done..].
    + rewrite elem_of_app. intros [Hid|Hid].
      * case_bool_decide as Hold; [|by apply elem_of_nil in Hid].
        apply list_elem_of_singleton in Hid as ->.
        exists sn, t. split_and!; [by left|done| |lia|done].
        by apply has_retain_false.
      * apply IH in Hid as (sn' & t' & ? & ? & ? & ? & ?).
        exists sn', t'. split_and!; [by right|done|done|lia|done].
Qed.



(** A longer window selects a sublist of what a shorter one selects. *)
Lemma matched_mono ec2 days days' t snaps :
  days <= days' ->
  Spec.matched ec2 days' t snaps `sublist_of` Spec.matched ec2 days t snaps.
Proof.
  intros Hle. revert t. induction snaps as [|sn snaps IH]; intros t; simpl.
  - done.
  - unfold Spec.expired. destruct (SnapshotCleanup.has_retain _); [apply IH|].
    apply sublist_app; [|apply IH].
    unfold timedelta_days. repeat case_bool_decide; try done.
    + lia.
    + apply sublist_nil_l.
Qed.

(** X4: a longer retention window never selects more.  From the same
    start, and where both windows can be computed at every clock reading
    of the scan, a run with [days'] at least [days] selects a sublist of
    what the run with [days] selects: in dry-run mode the two lists are
    the results, otherwise they are the deletions the runs issue. *)
Theorem longer_retention_selects_fewer ec2 days days' dry_run s :
  days <= days' ->
  Spec.window_ok ec2 days (ticks s)
    (Spec.clock_reads (Spec.cleanup_listing ec2)) ->
  Spec.window_ok ec2 days' (ticks s)
    (Spec.clock_reads (Spec.cleanup_listing ec2)) ->
  exists ids s1 ids' s2 selected selected',
    SnapshotCleanup.cleanup_snapshots ec2 days dry_run s = (Ok ids, s1)
    /\ SnapshotCleanup.cleanup_snapshots ec2 days' dry_run s = (Ok ids', s2)
    /\ selected' `sublist_of` selected
    /\ Spec.issued s s1 (if dry_run then [] else delete_snapshot <$> selected)
    /\ Spec.issued s s2
         (if dry_run then [] else delete_snapshot <$> selected')
    /\ (dry_run = true -> ids = selected /\ ids' = selected').
Proof.
  intros Hle Hwin Hwin'.
  destruct (cleanup_run ec2 days dry_run s Hwin) as (s1 & Hrun1 & Hiss1 & _).
  destruct (cleanup_run ec2 days' dry_run s Hwin')
    as (s2 & Hrun2 & Hiss2 & _).
  eexists _, s1, _, s2, _, _.
  split_and!; [exact Hrun1|exact Hrun2| |exact Hiss1|exact Hiss2|].
  - by apply matched_mono.
  - by intros ->.
Qed.

Lemma longer_retention_selects_fewer_witness :
  exists ids s1 ids' s2,
    SnapshotCleanup.cleanup_snapshots Examples.snapshot_shelf 7 true st0
    = (Ok ids, s1)
    /\ SnapshotCleanup.cleanup_snapshots Examples.snapshot_shelf 30 true st0
       = (Ok ids', s2)
    /\ ids = ["snap-old"; "snap-new"] /\ ids' = ["snap-old"]
    /\ ids' `sublist_of` ids.
Proof.
  destruct (longer_retention_selects_fewer Examples.snapshot_shelf 7 30 true
              st0 ltac:(lia) ltac:(repeat split; by vm_compute)
              ltac:(repeat split; by vm_compute))
    as (ids & s1 & ids' & s2 & m & m' & H1 & H2 & Hsub & _ & _ & Hdry).
  destruct (Hdry eq_refl) as [-> ->].
  exists m, s1, m', s2. split_and!; [exact H1|exact H2| | |exact Hsub].
  - vm_compute in H1. by injection H1 as <- _.
  - vm_compute in H2. by injection H2 as <- _.
Defined.

(** *** The snapshot cleanup handler *)

(** The capitals whose lower case is one of the letters of [true]. *)
Lemma lower_char_true (c : ascii) :
  (PyStr.lower_char c = "t"%char -> c = "t"%char \/ c = "T"%char)
  /\ (PyStr.lower_char c = "r"%char -> c = "r"%char \/ c = "R"%char)
  /\ (PyStr.lower_char c = "u"%char -> c = "u"%char \/ c = "U"%char)
  /\ (PyStr.lower_char c = "e"%char -> c = "e"%char \/ c = "E"%char).
Proof.
  destruct c as [[] [] [] [] [] [] [] []]; vm_compute;
    split_and!; intros H; first [discriminate H | by left | by right].
Qed.

Lemma lower_true (v : string) :
  PyStr.lower v = "true" <-> v ∈ Props.true_spellings.
Proof.
  split.
  - destruct v as [|c1 [|c2 [|c3 [|c4 [|c5 v]]]]]; try discriminate.
    simpl. intros [= H1 H2 H3 H4].
    apply lower_char_true in H1, H2, H3, H4.
    unfold Props.true_spellings.
    destruct H1 as [-> | ->], H2 as [-> | ->], H3 as [-> | ->],
      H4 as [-> | ->]; set_solver.
  - unfold Props.true_spellings. intros H.
    repeat (apply elem_of_cons in H as [->|H]; [by vm_compute|]).
    by apply elem_of_nil in H.
Qed.

Lemma runs_dry_spec environ :
  bool_decide (PyStr.lower (default "true" (environ !! "DRY_RUN")) = "true")
  = Props.runs_dry environ.
Proof.
  unfold Props.runs_dry. destruct (environ !! "DRY_RUN") as [v|]; simpl.
  - apply bool_decide_ext, lower_true.
  - done.
Qed.

(** X5: the cleanup handler runs dry unless it is told otherwise, and any
    value of [DRY_RUN] that is not a spelling of [true] tells it
    otherwise.  With [RETENTION_DAYS] unset (30 days) or set to a text
    [int] accepts, and where the window of that many days can be computed
    at every clock reading of the scan, the handler answers status 200
    with the identifiers and the mode it ran in; it issues no mutating
    call when [DRY_RUN] is unset or spells [true] in either letter case,
    and otherwise the deletion of every selected snapshot, a refused
    deletion changing neither the status nor the deletions that
    follow. *)
Theorem cleanup_handler_runs_dry_only_for_true rt environ clients s n :
  (environ !! "RETENTION_DAYS" = None /\ n = 30)
  \/ (exists text,
        environ !! "RETENTION_DAYS" = Some text
        /\ PyStr.int (SnapshotCleanupHandler.int_max_str_digits rt) text
           = Some n) ->
  let ec2 := clients (default "us-east-1" (environ !! "AWS_REGION")) in
  let dry := Props.runs_dry environ in
  let selected := Spec.matched ec2 n (ticks s) (Spec.cleanup_listing ec2) in
  Spec.window_ok ec2 n (ticks s)
    (Spec.clock_reads (Spec.cleanup_listing ec2)) ->
  exists ids s',
    SnapshotCleanupHandler.lambda_handler rt environ clients s
    = (Ok {| SnapshotCleanupHandler.statusCode := 200;
             SnapshotCleanupHandler.body :=
               SnapshotCleanupHandler.dumps rt ids dry |}, s')
    /\ Spec.issued s s' (if dry then [] else delete_snapshot <$> selected)
    /\ ids `sublist_of` selected
    /\ (dry = true -> ids = selected).
Proof.
  intros Hn ec2 dry selected Hwin.
  unfold SnapshotCleanupHandler.lambda_handler.
  rewrite runs_dry_spec. fold ec2 dry.
  assert (match environ !! "RETENTION_DAYS" with
          | None => ret 30
          | Some text =>
              match PyStr.int (SnapshotCleanupHandler.int_max_str_digits rt)
                      text with
              | Some n => ret n
              | None => raise {| exn_type := "ValueError";
                                 exn_msg :=
                                   SnapshotCleanupHandler.int_error rt text |}
              end
          end = ret n) as ->.
  { destruct Hn as [[-> ->]|(text & -> & ->)]; done. }
  destruct (cleanup_run ec2 n dry s Hwin) as (s' & Hrun & Hiss & _).
  unfold bind at 1, ret at 1. unfold bind. rewrite Hrun. unfold ret.
  eexists _, s'. split_and!; [reflexivity|exact Hiss| |].
  - destruct dry; [done|].
    etrans; [apply accepted_sublist|]. by rewrite outcomes_ids.
  - by intros ->.
Qed.

Lemma cleanup_handler_runs_dry_only_for_true_witness :
  exists ids s',
    SnapshotCleanupHandler.lambda_handler Cases.runtime
      {[ "DRY_RUN" := "yes"; "RETENTION_DAYS" := "7" ]}
      (fun _ => Examples.snapshot_shelf) st0
    = (Ok {| SnapshotCleanupHandler.statusCode := 200;
             SnapshotCleanupHandler.body :=
               SnapshotCleanupHandler.dumps Cases.runtime ids false |}, s')
    /\ Spec.issued st0 s'
         [delete_snapshot "snap-old"; delete_snapshot "snap-new"].
Proof.
  destruct (cleanup_handler_runs_dry_only_for_true Cases.runtime
              {[ "DRY_RUN" := "yes"; "RETENTION_DAYS" := "7" ]}
              (fun _ => Examples.snapshot_shelf) st0 7
              ltac:(right; exists "7"; split; by vm_compute)
              ltac:(repeat split; by vm_compute))
    as (ids & s' & Hrun & Hiss & _).
  exists ids, s'. split; [exact Hrun|exact Hiss].
Defined.

Lemma elem_of_lstrip c cs :
  c ∈ cs -> PyFloat.is_space c = false -> c ∈ PyFloat.lstrip cs.
Proof.
  intros Hc Hsp. induction cs as [|c0 cs IH]; [done|]. simpl.
  destruct (PyFloat.is_space c0) eqn:H0; [|done].
  apply elem_of_cons in Hc as [->|Hc]; [congruence|by apply IH].
Qed.

Lemma elem_of_strip c cs :
  c ∈ cs -> PyFloat.is_space c = false -> c ∈ PyFloat.strip cs.
Proof.
  intros Hc Hsp. unfold PyFloat.strip.
  rewrite elem_of_reverse. apply elem_of_lstrip; [|done].
  rewrite elem_of_reverse. by apply elem_of_lstrip.
Qed.

Lemma literal_digits_stray c prev cs :
  c ∈ cs -> PyFloat.is_digit c = false -> PyFloat.code c ≠ 95 ->
  PyStr.literal_digits prev cs = None.
Proof.
  intros Hc Hd Hu. revert prev. induction cs as [|c0 cs IH]; intros prev.
  - by apply elem_of_nil in Hc.
  - simpl. apply elem_of_cons in Hc as [<-|Hc].
    + rewrite Hd. by rewrite bool_decide_eq_false_2.
    + destruct (PyFloat.is_digit c0); [by rewrite IH|].
      case_bool_decide; [|done].
      destruct prev as [p|]; [|done].
      destruct (PyFloat.is_digit p); [by apply IH|done].
Qed.

(** [int] rejects the empty text and every text with a character that
    cannot stand in or around an integer literal. *)
Lemma int_rejects limit text :
  text = EmptyString
  \/ (exists c, c ∈ String.list_ascii_of_string text
                /\ Props.literal_char c = false) ->
  PyStr.int limit text = None.
Proof.
  intros [->|(c & Hc & Hlit)]; [done|].
  unfold Props.literal_char in Hlit.
  apply orb_false_iff in Hlit as [[Hd Hsp]%orb_false_iff Hsu].
  apply bool_decide_eq_false in Hsu.
  unfold PyStr.int.
  apply elem_of_strip in Hc; [|done].
  destruct (PyFloat.take_sign _) as [sg body] eqn:Hts.
  assert (c ∈ body) as Hbody.
  { unfold PyFloat.take_sign in Hts.
    destruct (PyFloat.strip _) as [|c0 rest]; [by apply elem_of_nil in Hc|].
    repeat case_bool_decide; injection Hts as <- <-; try done.
    - apply elem_of_cons in Hc as [->|Hc]; [|done]. set_solver.
    - apply elem_of_cons in Hc as [->|Hc]; [|done]. set_solver. }
  rewrite (literal_digits_stray c); [done..|]. set_solver.
Qed.

(** X6: a [RETENTION_DAYS] that is not an integer literal stops the
    cleanup handler before it does anything.  When the setting is empty,
    or has a character other than a digit, a sign, an underscore or white
    space (a decimal point, say), the handler ends with a [ValueError]
    and has issued no call and printed nothing. *)
Theorem cleanup_handler_rejects_a_malformed_retention
    rt environ clients s text :
  environ !! "RETENTION_DAYS" = Some text ->
  text = EmptyString
  \/ (exists c, c ∈ String.list_ascii_of_string text
                /\ Props.literal_char c = false) ->
  SnapshotCleanupHandler.lambda_handler rt environ clients s
  = (Raise {| exn_type := "ValueError";
              exn_msg := SnapshotCleanupHandler.int_error rt text |}, s).
Proof.
  intros Henv Hbad. unfold SnapshotCleanupHandler.lambda_handler.
  rewrite Henv, (int_rejects _ _ Hbad). done.
Qed.

Lemma cleanup_handler_rejects_a_malformed_retention_witness :
  SnapshotCleanupHandler.lambda_handler Cases.runtime
    {[ "RETENTION_DAYS" := "30.5" ]} (fun _ => Examples.snapshot_shelf) st0
  = (Raise {| exn_type := "ValueError";
              exn_msg := "invalid literal for int() with base 10: '30.5'" |},
     st0).
Proof.
  apply (cleanup_handler_rejects_a_malformed_retention Cases.runtime
           {[ "RETENTION_DAYS" := "30.5" ]} (fun _ => Examples.snapshot_shelf)
           st0 "30.5").
  - by vm_compute.
  - right. exists "."%char. split; [|by vm_compute].
    simpl. set_solver.
Defined.

(** ** Further properties of the scanners *)

(** *** The order of floats *)

Local Ltac rank_case :=
  simpl; split;
  [ let H := fresh in
    intros H; try discriminate H; split_and!; first [done | lia]
  | let Ha := fresh in let Hb := fresh in let Hlt := fresh in
    intros (Ha & Hb & Hlt); first [done | lia] ].

Lemma SFltb_rank a b :
  SFltb a b = true
  <-> a <> S754_nan /\ b <> S754_nan
      /\ Props.before (Props.rank a) (Props.rank b).
Proof.
  unfold SFltb, Props.before.
  destruct a as [[]|[]| |[] ma ea], b as [[]|[]| |[] mb eb];
    try rank_case; simpl;
    change (PosDef.Pos.compare_cont Eq ma mb) with (Pos.compare ma mb);
    destruct (Z.compare_spec ea eb), (Pos.compare_spec ma mb); rank_case.
Qed.

Local Ltac rank_eq_case :=
  simpl; split;
  [ let H := fresh in
    intros H; try discriminate H; split_and!;
    first [done | lia | by right | right; congruence | left; lia]
  | let Ha := fresh in let Hb := fresh in let Hlt := fresh in
    intros (Ha & Hb & [Hlt|Hlt]);
    first [done | lia | injection Hlt; intros; lia] ].

Lemma SFleb_rank a b :
  SFleb a b = true
  <-> a <> S754_nan /\ b <> S754_nan
      /\ (Props.before (Props.rank a) (Props.rank b)
          \/ Props.rank a = Props.rank b).
Proof.
  unfold SFleb, Props.before.
  destruct a as [[]|[]| |[] ma ea], b as [[]|[]| |[] mb eb];
    try rank_eq_case; simpl;
    change (PosDef.Pos.compare_cont Eq ma mb) with (Pos.compare ma mb);
    destruct (Z.compare_spec ea eb), (Pos.compare_spec ma mb); rank_eq_case.
Qed.

Lemma not_nan_spec (x : float) : Props.not_nan x <-> Prim2SF x <> S754_nan.
Proof.
  unfold Props.not_nan. rewrite FloatAxioms.eqb_spec. unfold SFeqb.
  destruct (Prim2SF x) as [[]|[]| |[] m e]; simpl; try done;
    rewrite Z.compare_refl;
    change (PosDef.Pos.compare_cont Eq m m) with (Pos.compare m m);
    by rewrite Pos.compare_refl.
Qed.

Lemma ltb_trans (a b c : float) :
  PrimFloat.ltb a b = true -> PrimFloat.ltb b c = true ->
  PrimFloat.ltb a c = true.
Proof.
  rewrite !FloatAxioms.ltb_spec, !SFltb_rank. unfold Props.before.
  intros (? & ? & ?) (? & ? & ?). split_and!; [done..|lia].
Qed.

Lemma leb_ltb_trans (a b c : float) :
  PrimFloat.leb a b = true -> PrimFloat.ltb b c = true ->
  PrimFloat.ltb a c = true.
Proof.
  rewrite FloatAxioms.leb_spec, !FloatAxioms.ltb_spec, SFleb_rank, !SFltb_rank.
  unfold Props.before. intros (? & ? & [?|Heq]) (? & ? & ?).
  - split_and!; [done..|lia].
  - rewrite Heq. by split_and!.
Qed.

(** Of two floats that are not nan, one is at most the other. *)
Lemma leb_total (a b : float) :
  Props.not_nan a -> Props.not_nan b ->
  PrimFloat.ltb a b = false -> PrimFloat.leb b a = true.
Proof.
  rewrite !not_nan_spec, FloatAxioms.leb_spec, FloatAxioms.ltb_spec.
  intros Ha Hb Hlt. apply SFleb_rank. split_and!; [done..|].
  destruct (decide (Props.before (Props.rank (Prim2SF a))
                      (Props.rank (Prim2SF b)))) as [Hab|Hab].
  { assert (SFltb (Prim2SF a) (Prim2SF b) = true) by by apply SFltb_rank.
    congruence. }
  unfold Props.before in *.
  destruct (Props.rank (Prim2SF a)) as [[a1 a2] a3],
    (Props.rank (Prim2SF b)) as [[b1 b2] b3]. simpl in *.
  destruct (decide (a1 = b1 /\ a2 = b2 /\ a3 = b3)) as [(-> & -> & ->)|];
    [by right|left; lia].
Qed.

(** *** The largest datapoint *)

Lemma max_elem_of x xs : PyFloat.max x xs ∈ x :: xs.
Proof.
  unfold PyFloat.max. revert x. induction xs as [|y ys IH]; intros x; simpl.
  - by left.
  - destruct (PrimFloat.ltb x y).
    + right. apply IH.
    + specialize (IH x). apply elem_of_cons in IH as [->|?]; [by left|].
      by right; right.
Qed.

(** The largest of values that are not nan is below a threshold exactly
    when each of them is. *)
Lemma max_below x xs (T : float) :
  Props.not_nan x -> Forall Props.not_nan xs ->
  PrimFloat.ltb (PyFloat.max x xs) T = true
  <-> PrimFloat.ltb x T = true
      /\ Forall (fun v => PrimFloat.ltb v T = true) xs.
Proof.
  unfold PyFloat.max. intros Hx Hxs. revert x Hx.
  induction Hxs as [|y ys Hy _ IH]; intros x Hx; simpl.
  - split; [by intros ?|by intros [? _]].
  - rewrite Forall_cons. destruct (PrimFloat.ltb x y) eqn:Hxy.
    + rewrite (IH y Hy). split; [intros [? ?]|intros [? [? ?]]]; [|done].
      split_and!; [|done..]. by apply (ltb_trans x y T).
    + rewrite (IH x Hx). split; [intros [? ?]|intros [? [? ?]]]; [|done].
      split_and!; [done| |done].
      apply (leb_ltb_trans y x T); [|done]. by apply leb_total.
Qed.

(** X7: the idle scan reports an instance exactly when the window has a
    datapoint and every daily average in it is strictly below the
    threshold.  Where the window of days can be computed at each
    instance's first clock reading, the scan returns the verdicts of the
    running instances in listing order; for an instance examined at clock
    reading [t] whose datapoints are not nan, the verdict is a finding
    exactly under that condition, so a single day at or above the
    threshold keeps an instance off the report. *)
Theorem idle_means_every_daily_average_is_low self T days t i :
  let dps :=
    datapoints (UnusedResources.client self) (Instance.InstanceId i)
      (now (UnusedResources.client self) t - timedelta_days days)
      (now (UnusedResources.client self) (S t)) 86400 ["Average"] in
  Forall (fun dp => Props.not_nan (Average dp)) dps ->
  (forall s,
     Spec.scan_window_ok (UnusedResources.client self) days (ticks s)
       (length (Spec.running_instances (UnusedResources.client self))) ->
     exists s',
       UnusedResources.find_idle_ec2_instances self T days s
       = (Ok (Spec.scan (Spec.idle_verdict self T days) (ticks s)
                (Spec.running_instances (UnusedResources.client self))), s'))
  /\ (Spec.idle_verdict self T days t i <> []
      <-> dps <> []
          /\ Forall (fun dp => PrimFloat.ltb (Average dp) T = true) dps).
Proof.
  intros dps Hdps. split.
  { intros s Hwin. destruct (find_idle_ec2_instances_run self T days s Hwin)
      as (s' & Hrun & _). by exists s'. }
  unfold Spec.idle_verdict, Spec.idle_metric. fold dps.
  destruct dps as [|dp dps']; [by split; [|intros [? _]]|].
  apply Forall_cons in Hdps as [Hdp Hdps].
  assert (Forall Props.not_nan (Average <$> dps')) as Hdps'.
  { by apply Forall_fmap. }
  pose proof (max_below (Average dp) (Average <$> dps') T Hdp Hdps') as Hmax.
  rewrite Forall_fmap in Hmax. rewrite Forall_cons.
  destruct (PrimFloat.ltb (PyFloat.max _ _) T).
  - split; [intros _; split; [done|by apply Hmax]|done].
  - split; [done|]. intros [_ H]. by apply Hmax in H.
Qed.

Lemma idle_means_every_daily_average_is_low_witness :
  Spec.idle_verdict
    {| UnusedResources.client := Examples.one_instance [3; 4; 2]%float;
       UnusedResources.region := "us-east-1" |} 5 14 0
    (Examples.instance "i-1" None) <> []
  /\ ~ Spec.idle_verdict
         {| UnusedResources.client := Examples.one_instance [3; 5; 2]%float;
            UnusedResources.region := "us-east-1" |} 5 14 0
         (Examples.instance "i-1" None) <> [].
Proof.
  split.
  - apply (idle_means_every_daily_average_is_low
             {| UnusedResources.client := Examples.one_instance [3; 4; 2]%float;
                UnusedResources.region := "us-east-1" |} 5 14 0
             (Examples.instance "i-1" None)).
    + repeat constructor.
    + split; [done|]. repeat constructor.
  - intros H.
    apply (idle_means_every_daily_average_is_low
             {| UnusedResources.client := Examples.one_instance [3; 5; 2]%float;
                UnusedResources.region := "us-east-1" |} 5 14 0
             (Examples.instance "i-1" None)) in H.
    + destruct H as [_ H]. apply Forall_cons in H as [_ H].
      apply Forall_cons in H as [H _]. vm_compute in H. discriminate H.
    + repeat constructor.
Defined.

(** X8: the right-sizing scan recommends an instance exactly when the
    window has a datapoint, every hourly maximum in it is strictly below
    the CPU threshold, and the memory threshold is above the 30 percent
    the code assumes for every instance.  With a memory threshold of 30
    or less it recommends nothing, whatever the CPU figures.  Where the
    window of days can be computed at each instance's first clock
    reading, the scan returns these verdicts for the running instances in
    listing order. *)
Theorem rightsizing_needs_every_hourly_maximum_low self days T Tm t i :
  let dps :=
    datapoints (Rightsizing.client self) (Instance.InstanceId i)
      (now (Rightsizing.client self) t - timedelta_days days)
      (now (Rightsizing.client self) (S t)) 3600 ["Maximum"] in
  Forall (fun dp => Props.not_nan (Maximum dp)) dps ->
  (forall s,
     Spec.scan_window_ok (Rightsizing.client self) days (ticks s)
       (length (Spec.running_instances (Rightsizing.client self))) ->
     exists s',
       Rightsizing.get_right_sizing_recommendations self days T Tm s
       = (Ok (Spec.scan (Spec.rightsizing_verdict self days T Tm) (ticks s)
                (Spec.running_instances (Rightsizing.client self))), s'))
  /\ (Spec.rightsizing_verdict self days T Tm t i <> []
      <-> dps <> []
          /\ Forall (fun dp => PrimFloat.ltb (Maximum dp) T = true) dps
          /\ PrimFloat.ltb 30 Tm = true).
Proof.
  intros dps Hdps. split.
  { intros s Hwin.
    destruct (get_right_sizing_recommendations_run self days T Tm s Hwin)
      as (s' & Hrun & _). by exists s'. }
  unfold Spec.rightsizing_verdict, Spec.cpu_metric. fold dps.
  destruct dps as [|dp dps']; [by split; [|intros [? _]]|].
  apply Forall_cons in Hdps as [Hdp Hdps].
  assert (Forall Props.not_nan (Maximum <$> dps')) as Hdps'.
  { by apply Forall_fmap. }
  pose proof (max_below (Maximum dp) (Maximum <$> dps') T Hdp Hdps') as Hmax.
  rewrite Forall_fmap in Hmax. rewrite Forall_cons.
  destruct (PrimFloat.ltb (PyFloat.max _ _) T);
    destruct (PrimFloat.ltb 30 Tm); simpl.
  - split; [intros _; split_and!; [done|by apply Hmax..|done]|done].
  - split; [done|]. by intros (_ & _ & ?).
  - split; [done|]. intros (_ & H & _). by apply Hmax in H.
  - split; [done|]. by intros (_ & _ & ?).
Qed.

Lemma rightsizing_needs_every_hourly_maximum_low_witness :
  Spec.rightsizing_verdict
    {| Rightsizing.client := Examples.one_instance [10; 20]%float;
       Rightsizing.region := "us-east-1" |} 14 40 40 0
    (Examples.instance "i-1" None) <> []
  /\ ~ Spec.rightsizing_verdict
         {| Rightsizing.client := Examples.one_instance [10; 20]%float;
            Rightsizing.region := "us-east-1" |} 14 40 30 0
         (Examples.instance "i-1" None) <> [].
Proof.
  split.
  - apply (rightsizing_needs_every_hourly_maximum_low
             {| Rightsizing.client := Examples.one_instance [10; 20]%float;
                Rightsizing.region := "us-east-1" |} 14 40 40 0
             (Examples.instance "i-1" None)).
    + repeat constructor.
    + split_and!; [done|repeat constructor|done].
  - intros H.
    apply (rightsizing_needs_every_hourly_maximum_low
             {| Rightsizing.client := Examples.one_instance [10; 20]%float;
                Rightsizing.region := "us-east-1" |} 14 40 30 0
             (Examples.instance "i-1" None)) in H.
    + destruct H as (_ & _ & H). vm_compute in H. discriminate H.
    + repeat constructor.
Defined.

(** ** Further properties of the scripts *)

(** *** Computations that only look *)

Lemma only_looks_ret {A} (a : A) : Props.only_looks (ret a).
Proof. intros s. exists (Ok a), s, []. by rewrite app_nil_r. Qed.

Lemma only_looks_raise {A} e : Props.only_looks (@raise A e).
Proof. intros s. exists (Raise e), s, []. by rewrite app_nil_r. Qed.

Lemma only_looks_bind {A B} (m : M A) (k : A -> M B) :
  Props.only_looks m -> (forall a, Props.only_looks (k a)) ->
  Props.only_looks (bind m k).
Proof.
  intros Hm Hk s.
  destruct (Hm s) as (r1 & s1 & ev1 & Hrun1 & Htr1 & Hev1 & Hex1).
  unfold bind. rewrite Hrun1. destruct r1 as [a|e|c].
  - destruct (Hk a s1) as (r2 & s2 & ev2 & Hrun2 & Htr2 & Hev2 & Hex2).
    exists r2, s2, (ev1 ++ ev2).
    split_and!; [done| |by apply Forall_app|done].
    by rewrite Htr2, Htr1, app_assoc.
  - by exists (Raise e), s1, ev1.
  - by destruct (Hex1 c).
Qed.

Lemma only_looks_for_each {A B} (xs : list A) (body : B -> A -> M B) :
  (forall acc x, Props.only_looks (body acc x)) ->
  forall acc, Props.only_looks (for_each xs body acc).
Proof.
  intros Hbody. induction xs as [|x xs IH]; intros acc; simpl.
  - apply only_looks_ret.
  - apply only_looks_bind; [apply Hbody|apply IH].
Qed.

Lemma only_looks_print line : Props.only_looks (print line).
Proof.
  intros s. eexists (Ok tt), _, [Stdout line]. split_and!; [done..| |done].
  by repeat constructor.
Qed.

Lemma only_looks_read c :
  mutating c = false -> Props.only_looks (emit (Api c)).
Proof.
  intros Hc s. eexists (Ok tt), _, [Api c]. split_and!; [done..| |done].
  by repeat constructor.
Qed.

Lemma only_looks_now w : Props.only_looks (datetime_now w).
Proof.
  intros s. eexists (Ok _), _, []. split_and!; [done| |done..]. simpl.
  by rewrite app_nil_r.
Qed.

Lemma only_looks_timedelta d : Props.only_looks (timedelta d).
Proof.
  unfold timedelta.
  repeat case_match; first [apply only_looks_ret | apply only_looks_raise].
Qed.

Lemma only_looks_datetime_sub t d : Props.only_looks (datetime_sub t d).
Proof.
  unfold datetime_sub.
  case_match; first [apply only_looks_ret | apply only_looks_raise].
Qed.

Local Ltac looks :=
  repeat first
    [ apply only_looks_ret | apply only_looks_print | apply only_looks_now
    | apply only_looks_timedelta | apply only_looks_datetime_sub
    | apply only_looks_read; reflexivity
    | apply only_looks_for_each; intros ? ?
    | apply only_looks_bind; [|intros ?] ].

Lemma find_idle_ec2_instances_looks self T days :
  Props.only_looks (UnusedResources.find_idle_ec2_instances self T days).
Proof.
  unfold UnusedResources.find_idle_ec2_instances, paginate_instances,
    metric_datapoints.
  looks. repeat (case_match; looks).
Qed.

Lemma find_unattached_ebs_volumes_looks self :
  Props.only_looks (UnusedResources.find_unattached_ebs_volumes self).
Proof.
  unfold UnusedResources.find_unattached_ebs_volumes, paginate_volumes. looks.
Qed.

Lemma find_unused_elastic_ips_looks self :
  Props.only_looks (UnusedResources.find_unused_elastic_ips self).
Proof.
  unfold UnusedResources.find_unused_elastic_ips. looks.
  repeat (case_match; looks).
Qed.

Lemma find_old_ebs_snapshots_looks self days :
  Props.only_looks (UnusedResources.find_old_ebs_snapshots self days).
Proof.
  unfold UnusedResources.find_old_ebs_snapshots, caller_account,
    paginate_snapshots.
  looks. repeat (case_match; looks).
Qed.

Lemma scan_all_looks self T ec2_days snapshot_days :
  Props.only_looks (UnusedResources.scan_all self T ec2_days snapshot_days).
Proof.
  unfold UnusedResources.scan_all.
  apply only_looks_bind; [looks|intros _].
  apply only_looks_bind; [apply find_idle_ec2_instances_looks|intros ?].
  apply only_looks_bind; [apply find_unattached_ebs_volumes_looks|intros ?].
  apply only_looks_bind; [apply find_unused_elastic_ips_looks|intros ?].
  apply only_looks_bind; [apply find_old_ebs_snapshots_looks|intros ?].
  looks.
Qed.

Lemma get_right_sizing_recommendations_looks self days T Tm :
  Props.only_looks
    (Rightsizing.get_right_sizing_recommendations self days T Tm).
Proof.
  unfold Rightsizing.get_right_sizing_recommendations, paginate_instances,
    metric_datapoints.
  looks. repeat (case_match; looks).
Qed.

Lemma bind_assoc {A B C} (m : M A) (k : A -> M B) (k' : B -> M C) s :
  bind m (fun a => bind (k a) k') s = bind (bind m k) k' s.
Proof. unfold bind. by destruct (m s) as [[a|e|c] s1]. Qed.

Lemma looks_scans e : Props.looks e -> Props.scans e.
Proof. by destruct e. Qed.

(** *** The unused-resources script *)

(** One turn of the script's loop over the regions: the scan's findings
    are added to the results, or, when the scan raises, the failure is
    reported on standard error and the results stay as they were. *)
Lemma scan_region_run (clients : string -> World) T ec2_days snapshot_days
    (all_results : UnusedResources.Results) region s :
  let finder := {| UnusedResources.client := clients region;
                   UnusedResources.region := region |} in
  let turn :=
    try_except
      (results <- UnusedResources.scan_all finder T ec2_days snapshot_days ;;
       ret {| UnusedResources.IdleEC2Instances :=
                UnusedResources.IdleEC2Instances all_results
                ++ UnusedResources.IdleEC2Instances results;
              UnusedResources.UnattachedEBSVolumes :=
                UnusedResources.UnattachedEBSVolumes all_results
                ++ UnusedResources.UnattachedEBSVolumes results;
              UnusedResources.UnusedElasticIPs :=
                UnusedResources.UnusedElasticIPs all_results
                ++ UnusedResources.UnusedElasticIPs results;
              UnusedResources.OldEBSSnapshots :=
                UnusedResources.OldEBSSnapshots all_results
                ++ UnusedResources.OldEBSSnapshots results |})
      (fun e =>
       eprint ("Error scanning region " +:+ region +:+ ": "
               +:+ exn_msg e) ;;
       ret all_results) in
  exists outcome s2 ev,
    UnusedResources.scan_all finder T ec2_days snapshot_days s = (outcome, s2)
    /\ trace s2 = trace s ++ ev /\ Forall Props.looks ev
    /\ match outcome with
       | Ok results =>
           turn s
           = (Ok {| UnusedResources.IdleEC2Instances :=
                      UnusedResources.IdleEC2Instances all_results
                      ++ UnusedResources.IdleEC2Instances results;
                    UnusedResources.UnattachedEBSVolumes :=
                      UnusedResources.UnattachedEBSVolumes all_results
                      ++ UnusedResources.UnattachedEBSVolumes results;
                    UnusedResources.UnusedElasticIPs :=
                      UnusedResources.UnusedElasticIPs all_results
                      ++ UnusedResources.UnusedElasticIPs results;
                    UnusedResources.OldEBSSnapshots :=
                      UnusedResources.OldEBSSnapshots all_results
                      ++ UnusedResources.OldEBSSnapshots results |}, s2)
       | Raise e =>
           turn s
           = (Ok all_results,
              {| trace := trace s2
                          ++ [Stderr ("Error scanning region " +:+ region
                                      +:+ ": " +:+ exn_msg e)];
                 ticks := ticks s2 |})
       | Exit _ => False
       end.
Proof.
  intros finder turn.
  destruct (scan_all_looks finder T ec2_days snapshot_days s)
    as (outcome & s2 & ev & Hrun & Htr & Hev & Hex).
  exists outcome, s2, ev. split_and!; [done..|].
  subst turn.
  destruct outcome as [results|e|c]; [| |by destruct (Hex c)];
    unfold try_except, bind at 1; by rewrite Hrun.
Qed.

Lemma scan_regions_run (clients : string -> World) T ec2_days snapshot_days
    regions (all_results : UnusedResources.Results) s :
  exists results s1 ev,
    for_each regions (fun all_results region =>
      try_except
        (let finder := {| UnusedResources.client := clients region;
                          UnusedResources.region := region |} in
         results <- UnusedResources.scan_all finder T ec2_days
                      snapshot_days ;;
         ret {| UnusedResources.IdleEC2Instances :=
                  UnusedResources.IdleEC2Instances all_results
                  ++ UnusedResources.IdleEC2Instances results;
                UnusedResources.UnattachedEBSVolumes :=
                  UnusedResources.UnattachedEBSVolumes all_results
                  ++ UnusedResources.UnattachedEBSVolumes results;
                UnusedResources.UnusedElasticIPs :=
                  UnusedResources.UnusedElasticIPs all_results
                  ++ UnusedResources.UnusedElasticIPs results;
                UnusedResources.OldEBSSnapshots :=
                  UnusedResources.OldEBSSnapshots all_results
                  ++ UnusedResources.OldEBSSnapshots results |})
        (fun e =>
         eprint ("Error scanning region " +:+ region +:+ ": "
                 +:+ exn_msg e) ;;
         ret all_results)) all_results s
    = (Ok results, s1)
    /\ trace s1 = trace s ++ ev /\ Forall Props.scans ev.
Proof.
  revert all_results s.
  induction regions as [|region regions IH]; intros all_results s.
  - exists all_results, s, []. by rewrite app_nil_r.
  - cbn [for_each]. unfold bind at 1.
    destruct (scan_region_run clients T ec2_days snapshot_days all_results
                region s) as (outcome & s2 & ev & _ & Htr & Hev & Hturn).
    cbv zeta in Hturn.
    destruct outcome as [found|e|c]; [| |done]; rewrite Hturn;
      cbv beta iota.
    + match goal with
      | |- context [for_each regions _ ?acc s2] =>
          destruct (IH acc s2) as (results & s1 & ev' & Hrun & Htr' & Hev')
      end.
      exists results, s1, (ev ++ ev'). split_and!; [exact Hrun| |].
      * by rewrite Htr', Htr, app_assoc.
      * apply Forall_app. split; [|done].
        eapply Forall_impl; [exact Hev|apply looks_scans].
    + destruct (IH all_results
                  {| trace := trace s2
                              ++ [Stderr ("Error scanning region " +:+ region
                                          +:+ ": " +:+ exn_msg e)];
                     ticks := ticks s2 |})
        as (results & s1 & ev' & Hrun & Htr' & Hev').
      exists results, s1, (ev ++ Stderr ("Error scanning region " +:+ region
                                        +:+ ": " +:+ exn_msg e) :: ev').
      split_and!; [exact Hrun| |].
      * rewrite Htr'. simpl. rewrite Htr, <- !app_assoc. done.
      * apply Forall_app. split.
        -- eapply Forall_impl; [exact Hev|apply looks_scans].
        -- constructor; [|done]. simpl. by eexists _, _.
Qed.

(** X9: the unused-resources script only looks, and reports a file it
    cannot write by exit status 1.  With [--region] or [--all-regions]
    given, every event of the run before the export is a remote call that
    changes nothing, a line on standard output, or the report on standard
    error of a region whose scan raised; the run then writes the results
    to the output file and returns, or, when the file cannot be opened,
    prints the error on standard error and exits with status 1, the scans
    having been made.  With [--region] the one region scanned is that
    one, whether or not [--all-regions] is given as well: the results are
    what its scan returned, and they are empty, the failure reported on
    standard error, when its scan raised. *)
Theorem unused_resources_script_only_looks clients host json_dump args s :
  UnusedResources.truthy (UnusedResources.arg_region args) = true
  \/ UnusedResources.arg_all_regions args = true ->
  exists results s1 ev,
    trace s1 = trace s ++ ev /\ Forall Props.scans ev
    /\ UnusedResources.main clients host json_dump args s
       = match open_fails host (UnusedResources.arg_output args) with
         | None =>
             (Ok tt,
              {| trace := trace s1
                   ++ [Write (UnusedResources.arg_output args)
                         (json_dump results);
                       Stdout ("Results saved to "
                               +:+ UnusedResources.arg_output args)];
                 ticks := ticks s1 |})
         | Some e =>
             (Exit 1,
              {| trace := trace s1
                   ++ [Stderr ("Error writing to output file: "
                               +:+ exn_msg e)];
                 ticks := ticks s1 |})
         end
    /\ forall r,
         UnusedResources.arg_region args = Some r -> r <> EmptyString ->
         exists outcome s2 ev2,
           UnusedResources.scan_all
             {| UnusedResources.client := clients r;
                UnusedResources.region := r |}
             (UnusedResources.arg_cpu_threshold args)
             (UnusedResources.arg_ec2_days args)
             (UnusedResources.arg_snapshot_days args) s
           = (outcome, s2)
           /\ trace s2 = trace s ++ ev2 /\ Forall Props.looks ev2
           /\ match outcome with
              | Ok found => results = found /\ s1 = s2
              | Raise e =>
                  results = Props.no_results
                  /\ s1 = {| trace := trace s2
                                      ++ [Stderr ("Error scanning region "
                                                  +:+ r +:+ ": "
                                                  +:+ exn_msg e)];
                             ticks := ticks s2 |}
              | Exit _ => False
              end.
Proof.
  intros Hsel. unfold UnusedResources.main.
  assert (negb (UnusedResources.truthy (UnusedResources.arg_region args))
          && negb (UnusedResources.arg_all_regions args) = false) as ->.
  { destruct Hsel as [-> | ->]; [done|]. by rewrite andb_false_r. }
  set (scan := fun (all_results : UnusedResources.Results) region => _).
  fold Props.no_results.
  set (pick := if UnusedResources.truthy (UnusedResources.arg_region args)
               then _ else _).
  assert (exists results s1 ev,
            bind pick (fun regions => for_each regions scan Props.no_results) s
            = (Ok results, s1)
            /\ trace s1 = trace s ++ ev /\ Forall Props.scans ev) as Hloop.
  { unfold pick. destruct (UnusedResources.truthy _).
    - unfold bind at 1, ret at 1.
      apply (scan_regions_run clients (UnusedResources.arg_cpu_threshold args)
               (UnusedResources.arg_ec2_days args)
               (UnusedResources.arg_snapshot_days args)).
    - destruct (UnusedResources.arg_all_regions args).
      + unfold bind at 1, bind at 1, emit, ret at 1. cbv beta iota.
        match goal with
        | |- context [for_each ?regions scan _ ?s0] =>
            destruct (scan_regions_run clients
                        (UnusedResources.arg_cpu_threshold args)
                        (UnusedResources.arg_ec2_days args)
                        (UnusedResources.arg_snapshot_days args)
                        regions Props.no_results s0)
              as (results & s1 & ev & Hrun & Htr & Hev)
        end.
        exists results, s1, (Api describe_regions :: ev).
        split_and!; [exact Hrun| |by constructor].
        rewrite Htr. simpl. by rewrite <- app_assoc.
      + unfold bind at 1, ret at 1. simpl. exists Props.no_results, s, [].
        by rewrite app_nil_r. }
  destruct Hloop as (results & s1 & ev & Hrun & Htr & Hev).
  exists results, s1, ev. split_and!; [done|done| |].
  - unfold bind at 1, ret at 1. rewrite bind_assoc.
    unfold bind at 1. rewrite Hrun.
    unfold try_except, write_file, bind, raise, print, eprint, emit, sys_exit.
    destruct (open_fails host _) as [e|]; simpl; [done|].
    by rewrite <- app_assoc.
  - intros r Hr Hne. revert Hrun. unfold pick, UnusedResources.truthy.
    rewrite Hr. rewrite bool_decide_eq_false_2 by done. simpl.
    unfold bind at 1, ret at 1. cbn [for_each]. unfold bind at 1.
    destruct (scan_region_run clients (UnusedResources.arg_cpu_threshold args)
                (UnusedResources.arg_ec2_days args)
                (UnusedResources.arg_snapshot_days args) Props.no_results
                r s) as (outcome & s2 & ev2 & Hscan & Htr2 & Hev2 & Hturn).
    cbv zeta in Hturn. intros Hrun.
    exists outcome, s2, ev2. split_and!; [done..|].
    destruct outcome as [found|e|c]; [| |done]; unfold scan in Hrun;
      rewrite Hturn in Hrun; unfold ret in Hrun; injection Hrun as <- <-;
      [|done].
    by destruct found.
Qed.

Lemma unused_resources_script_only_looks_witness :
  (exists s',
     UnusedResources.main (fun _ => Examples.snapshot_shelf)
       Cases.read_only_host (fun _ => "{}") Cases.one_region st0
     = (Exit 1, s')
     /\ stderr (trace s')
        = ["Error writing to output file: [Errno 13] Permission denied"])
  /\ (exists s',
        UnusedResources.main (fun _ => Examples.snapshot_shelf)
          Examples.empty_world (fun _ => "{}") Cases.far_back st0
        = (Ok tt, s')
        /\ stderr (trace s')
           = ["Error scanning region eu-west-1: date value out of range"]
        /\ Props.writes (trace s') = [("unused.json", "{}")]).
Proof.
  split.
  - destruct (unused_resources_script_only_looks
                (fun _ => Examples.snapshot_shelf) Cases.read_only_host
                (fun _ => "{}") Cases.one_region st0 (or_intror eq_refl))
      as (results & s1 & ev & Htr & Hev & Hrun & Hscan).
    eexists. split; [exact Hrun|].
    destruct (Hscan "eu-west-1" eq_refl ltac:(done))
      as (outcome & s2 & ev2 & Hs2 & _ & _ & Hout).
    vm_compute in Hs2. injection Hs2 as <- <-.
    destruct Hout as [_ ->]. by vm_compute.
  - destruct (unused_resources_script_only_looks
                (fun _ => Examples.snapshot_shelf) Examples.empty_world
                (fun _ => "{}") Cases.far_back st0 (or_introl eq_refl))
      as (results & s1 & ev & Htr & Hev & Hrun & Hscan).
    eexists. split; [exact Hrun|].
    destruct (Hscan "eu-west-1" eq_refl ltac:(done))
      as (outcome & s2 & ev2 & Hs2 & _ & _ & Hout).
    vm_compute in Hs2. injection Hs2 as <- <-.
    destruct Hout as [_ ->]. by vm_compute.
Defined.

(** *** The right-sizing script *)

(** X10: the right-sizing script only looks, and reports a file it cannot
    write by exit status 1.  Every event of the scan is a remote call
    that changes nothing.  When the scan returns, the run writes its
    recommendations to the output file and returns, or, when the file
    cannot be opened, prints the error on standard error and exits with
    status 1; when the scan raises, the run ends with that exception and
    writes nothing.  The scan is made with the memory threshold of 40,
    and where the window of days can be computed at each instance's first
    clock reading it returns the verdicts of the running instances. *)
Theorem rightsizing_script_only_looks clients host json_dump args s :
  let recommender :=
    {| Rightsizing.client := clients (RightsizingMain.arg_region args);
       Rightsizing.region := RightsizingMain.arg_region args |} in
  exists outcome s1 ev,
    Rightsizing.get_right_sizing_recommendations recommender
      (RightsizingMain.arg_days args) (RightsizingMain.arg_cpu_threshold args)
      40 s = (outcome, s1)
    /\ trace s1 = trace s ++ ev /\ Forall Props.looks ev
    /\ RightsizingMain.main clients host json_dump args s
       = match outcome with
         | Ok recommendations =>
             match open_fails host (RightsizingMain.arg_output args) with
             | None =>
                 (Ok tt,
                  {| trace := trace s1
                       ++ [Write (RightsizingMain.arg_output args)
                             (json_dump recommendations);
                           Stdout ("Recommendations saved to "
                                   +:+ RightsizingMain.arg_output args)];
                     ticks := ticks s1 |})
             | Some e =>
                 (Exit 1,
                  {| trace := trace s1
                       ++ [Stderr ("Error writing to output file: "
                                   +:+ exn_msg e)];
                     ticks := ticks s1 |})
             end
         | Raise e => (Raise e, s1)
         | Exit c => (Exit c, s1)
         end
    /\ (forall c, outcome <> Exit c)
    /\ (Spec.scan_window_ok (Rightsizing.client recommender)
          (RightsizingMain.arg_days args) (ticks s)
          (length (Spec.running_instances (Rightsizing.client recommender))) ->
        outcome
        = Ok (Spec.scan
                (Spec.rightsizing_verdict recommender
                   (RightsizingMain.arg_days args)
                   (RightsizingMain.arg_cpu_threshold args) 40)
                (ticks s)
                (Spec.running_instances (Rightsizing.client recommender)))).
Proof.
  intros recommender. unfold RightsizingMain.main. fold recommender.
  change Rightsizing.default_mem_threshold with 40%float.
  destruct (get_right_sizing_recommendations_looks recommender
              (RightsizingMain.arg_days args)
              (RightsizingMain.arg_cpu_threshold args) 40 s)
    as (outcome & s1 & ev & Hrun & Htr & Hev & Hex).
  exists outcome, s1, ev. split_and!; [done..| |done|].
  - unfold bind at 1. rewrite Hrun. destruct outcome as [recs|e|c]; [|done..].
    unfold try_except, write_file, bind, raise, print, eprint, emit, sys_exit.
    destruct (open_fails host _) as [e|]; simpl; [done|].
    by rewrite <- app_assoc.
  - intros Hwin.
    destruct (get_right_sizing_recommendations_run recommender
                (RightsizingMain.arg_days args)
                (RightsizingMain.arg_cpu_threshold args) 40 s Hwin)
      as (s1' & Hrun' & _).
    rewrite Hrun in Hrun'. by injection Hrun' as -> _.
Qed.

Lemma rightsizing_script_only_looks_witness :
  exists s',
    RightsizingMain.main (fun _ => Examples.one_instance [3; 3; 3]%float)
      Examples.empty_world (fun _ => "[]")
      {| RightsizingMain.arg_region := "us-east-1";
         RightsizingMain.arg_output := "recs.json";
         RightsizingMain.arg_days := 14;
         RightsizingMain.arg_cpu_threshold := 40 |} st0
    = (Ok tt, s')
    /\ Props.writes (trace s') = [("recs.json", "[]")]
    /\ mutations (trace s') = [].
Proof.
  destruct (rightsizing_script_only_looks
              (fun _ => Examples.one_instance [3; 3; 3]%float)
              Examples.empty_world (fun _ => "[]")
              {| RightsizingMain.arg_region := "us-east-1";
                 RightsizingMain.arg_output := "recs.json";
                 RightsizingMain.arg_days := 14;
                 RightsizingMain.arg_cpu_threshold := 40 |} st0)
    as (outcome & s1 & ev & Hscan & _ & _ & Hrun & _ & Hok).
  rewrite Hok in Hrun, Hscan by (repeat split; by vm_compute).
  eexists. split; [exact Hrun|].
  vm_compute in Hscan. injection Hscan as <-. by vm_compute.
Defined.

(** *** The cost report *)

Lemma cost_loop dimension rgs acc s :
  for_each rgs
    (fun records rg =>
       match Props.cost_row dimension rg with
       | inl e => raise e
       | inr row => ret (records ++ [row])
       end) acc s
  = match Props.cost_rows dimension rgs with
    | inl e => (Raise e, s)
    | inr rows => (Ok (acc ++ rows), s)
    end.
Proof.
  revert acc. induction rgs as [|rg rgs IH]; intros acc; simpl.
  - by rewrite app_nil_r.
  - unfold bind. destruct (Props.cost_row dimension rg) as [e|row]; [done|].
    unfold ret. rewrite IH.
    destruct (Props.cost_rows dimension rgs) as [e|rows]; [done|].
    by rewrite <- app_assoc.
Qed.

(** The analysis, as a function of the answer to its query, where the
    first day of the period is a day a [date] can hold. *)
Lemma analyze_costs_spec self days dimension s :
  Spec.date_representable (now (CostAnalysis.client self) (ticks s)) days ->
  CostAnalysis.analyze_costs self days dimension s
  = let s1 :=
      {| trace := trace s
           ++ [Api (Props.cost_query (CostAnalysis.client self) days
                      dimension s)];
         ticks := S (ticks s) |} in
    match Props.cost_answer (CostAnalysis.client self) days dimension s with
    | inl e =>
        (Exit 1,
         {| trace := trace s1
              ++ [Stderr ("Error querying Cost Explorer: " +:+ exn_msg e)];
            ticks := S (ticks s) |})
    | inr response =>
        match Props.cost_rows dimension (Props.answer_groups response) with
        | inl e => (Raise e, s1)
        | inr rows => (Ok (CostAnalysis.sort_desc rows), s1)
        end
    end.
Proof.
  intros Hwin.
  unfold CostAnalysis.analyze_costs, CostAnalysis.get_cost_and_usage,
    Props.cost_answer, Props.cost_query.
  unfold datetime_now, bind at 1. cbv beta iota zeta.
  rewrite date_start by done. cbn [trace ticks].
  unfold bind at 1, try_except, bind at 1, emit. simpl.
  destruct (cost_and_usage _ _ _ _ _ _) as [e|response]; [done|].
  unfold ret at 1. unfold bind at 1.
  set (s1 := {| trace := _; ticks := _ |}).
  match goal with
  | |- context [for_each ?xs ?body ?acc0 s1] =>
      assert (for_each xs body acc0 s1
              = for_each (Props.answer_groups response)
                  (fun records rg =>
                     match Props.cost_row dimension rg with
                     | inl e => raise e
                     | inr row => ret (records ++ [row])
                     end) acc0 s1) as ->
  end.
  { unfold Props.answer_groups. rewrite <- for_each_flat.
    apply for_each_ext. intros acc result s0. rewrite for_each_fmap.
    apply for_each_ext. intros acc' group s'. unfold Props.cost_row. simpl.
    destruct (Keys group); [done|]. by destruct (PyFloat.parse _). }
  rewrite cost_loop.
  by destruct (Props.cost_rows _ _).
Qed.

(** *** Computations that only print *)

Lemma only_prints_ret {A} (a : A) : Props.only_prints (ret a).
Proof. intros s. exists a, []. simpl. rewrite app_nil_r. by destruct s. Qed.

Lemma only_prints_print line : Props.only_prints (print line).
Proof. intros s. by exists tt, [line]. Qed.

Lemma only_prints_bind {A B} (m : M A) (k : A -> M B) :
  Props.only_prints m -> (forall a, Props.only_prints (k a)) ->
  Props.only_prints (bind m k).
Proof.
  intros Hm Hk s. destruct (Hm s) as (a & out1 & Hrun1).
  destruct (Hk a {| trace := trace s ++ (Stdout <$> out1); ticks := ticks s |})
    as (b & out2 & Hrun2).
  exists b, (out1 ++ out2). unfold bind. rewrite Hrun1, Hrun2. simpl.
  by rewrite fmap_app, app_assoc.
Qed.

Lemma only_prints_for_each {A B} (xs : list A) (body : B -> A -> M B) :
  (forall acc x, Props.only_prints (body acc x)) ->
  forall acc, Props.only_prints (for_each xs body acc).
Proof.
  intros Hbody. induction xs as [|x xs IH]; intros acc; simpl.
  - apply only_prints_ret.
  - apply only_prints_bind; [apply Hbody|apply IH].
Qed.

Lemma print_summary_prints py312 records top_n :
  Props.only_prints (CostAnalysis.print_summary py312 records top_n).
Proof.
  unfold CostAnalysis.print_summary. destruct records as [|first rest].
  { apply only_prints_print. }
  repeat first
    [ apply only_prints_ret | apply only_prints_print
    | apply only_prints_for_each; intros ? ?
    | apply only_prints_bind; [|intros ?] ].
Qed.

(** The script up to the end of the analysis. *)
Lemma cost_main_start py312 clients host csv_text json_text args s :
  CostAnalysis.main py312 clients host csv_text json_text args s
  = bind (CostAnalysis.analyze_costs
            {| CostAnalysis.client := clients (CostAnalysis.arg_region args) |}
            (CostAnalysis.arg_days args) (CostAnalysis.arg_group_by args))
      (fun cost_records =>
         let cost_records :=
           CostAnalysis.calculate_percentage py312 cost_records in
         CostAnalysis.print_summary py312 cost_records
           (CostAnalysis.arg_top args) ;;
         match CostAnalysis.arg_output args with
         | None => ret tt
         | Some output =>
             if bool_decide (output = EmptyString) then ret tt
             else if CostAnalysis.endswith output ".csv" then
               CostAnalysis.export_to_csv host csv_text cost_records output
             else if CostAnalysis.endswith output ".json" then
               CostAnalysis.export_to_json host json_text cost_records output
             else
               eprint "Error: Output file must have .csv or .json extension" ;;
               sys_exit 1
         end)
      {| trace := trace s
           ++ [Stdout ("Analyzing AWS costs for the last "
                       +:+ pretty (CostAnalysis.arg_days args)
                       +:+ " days...")];
         ticks := ticks s |}.
Proof. reflexivity. Qed.

(** X11: a cost query that fails ends the cost script with exit status 1
    and one line on standard error.  Where the first day of the period is
    a day a [date] can hold, the run prints its opening line, issues the
    query, prints the service's message after "Error querying Cost
    Explorer: " on standard error and exits; no exception leaves the
    script, no summary is printed and no file is written. *)
Theorem failed_cost_query_exits_with_1
    py312 clients host csv_text json_text args s e :
  let w := clients (CostAnalysis.arg_region args) in
  let days := CostAnalysis.arg_days args in
  let dimension := CostAnalysis.arg_group_by args in
  Spec.date_representable (now w (ticks s)) days ->
  Props.cost_answer w days dimension s = inl e ->
  CostAnalysis.main py312 clients host csv_text json_text args s
  = (Exit 1,
     {| trace := trace s
          ++ [Stdout ("Analyzing AWS costs for the last " +:+ pretty days
                      +:+ " days...");
              Api (Props.cost_query w days dimension s);
              Stderr ("Error querying Cost Explorer: " +:+ exn_msg e)];
        ticks := S (ticks s) |}).
Proof.
  intros w days dimension Hwin He. rewrite cost_main_start.
  unfold bind at 1. rewrite analyze_costs_spec by done. cbv zeta.
  set (s0 := {| trace := _ ++ [Stdout _]; ticks := ticks s |}).
  change (Props.cost_answer _ _ _ s0) with (Props.cost_answer w days dimension s).
  rewrite He. unfold s0. simpl. by rewrite <- !app_assoc.
Qed.

Lemma failed_cost_query_exits_with_1_witness :
  exists s',
    CostAnalysis.main true (fun _ => Cases.no_cost_explorer)
      Examples.empty_world (fun _ => EmptyString) (fun _ => EmptyString)
      (Cases.report None) st0
    = (Exit 1, s')
    /\ stderr (trace s')
       = ["Error querying Cost Explorer: AccessDeniedException"].
Proof.
  eexists. split.
  - apply (failed_cost_query_exits_with_1 true
             (fun _ => Cases.no_cost_explorer) Examples.empty_world
             (fun _ => EmptyString) (fun _ => EmptyString)
             (Cases.report None) st0
             {| exn_type := "ClientError";
                exn_msg := "AccessDeniedException" |}).
    + split; by vm_compute.
    + reflexivity.
  - reflexivity.
Defined.

Lemma endswith_nonempty output suffix :
  suffix <> EmptyString -> CostAnalysis.endswith output suffix = true ->
  bool_decide (output = EmptyString) = false.
Proof.
  intros Hs He. apply bool_decide_eq_false. intros ->.
  unfold CostAnalysis.endswith in He.
  destruct suffix; [done|]. cbn [String.length] in He.
  case_bool_decide; [lia|done].
Qed.

(** The script when the answer has no group: what is left is the export
    of the empty list. *)
Lemma cost_main_no_groups py312 clients host csv_text json_text args s
    response :
  let w := clients (CostAnalysis.arg_region args) in
  let days := CostAnalysis.arg_days args in
  let dimension := CostAnalysis.arg_group_by args in
  Spec.date_representable (now w (ticks s)) days ->
  Props.cost_answer w days dimension s = inr response ->
  Props.answer_groups response = [] ->
  CostAnalysis.main py312 clients host csv_text json_text args s
  = match CostAnalysis.arg_output args with
    | None => ret tt
    | Some output =>
        if bool_decide (output = EmptyString) then ret tt
        else if CostAnalysis.endswith output ".csv" then
          CostAnalysis.export_to_csv host csv_text [] output
        else if CostAnalysis.endswith output ".json" then
          CostAnalysis.export_to_json host json_text [] output
        else
          eprint "Error: Output file must have .csv or .json extension" ;;
          sys_exit 1
    end
      {| trace := trace s
           ++ [Stdout ("Analyzing AWS costs for the last " +:+ pretty days
                       +:+ " days...");
               Api (Props.cost_query w days dimension s);
               Stdout "No cost data available"];
         ticks := S (ticks s) |}.
Proof.
  intros w days dimension Hwin Hans Hgroups.
  assert (CostAnalysis.calculate_percentage py312 [] = []) as Hpct.
  { by destruct py312. }
  rewrite cost_main_start. unfold bind at 1.
  rewrite analyze_costs_spec by done. cbv zeta.
  set (s0 := {| trace := _ ++ [Stdout _]; ticks := ticks s |}).
  change (Props.cost_answer _ _ _ s0) with (Props.cost_answer w days dimension s).
  change (Props.cost_query _ _ _ s0) with (Props.cost_query w days dimension s).
  rewrite Hans, Hgroups. cbn [Props.cost_rows CostAnalysis.sort_desc foldr].
  rewrite Hpct. unfold s0. clear s0.
  unfold CostAnalysis.print_summary, bind at 1, print, emit. simpl.
  by rewrite <- !app_assoc.
Qed.

(** X12: when the cost query answers without any group, the script
    reports that and leaves a CSV file unwritten, yet ends successfully.
    Where the first day of the period is a day a [date] can hold, after
    its opening line and the query it prints "No cost data
    available"; with an [--output] ending in [.csv] it then prints "No
    cost data to export" on standard error, writes nothing and returns,
    whereas with one ending in [.json] it writes the file, holding the
    rendering of the empty list. *)
Theorem empty_cost_answer_leaves_the_csv_unwritten
    py312 clients host csv_text json_text args s response path :
  let w := clients (CostAnalysis.arg_region args) in
  let days := CostAnalysis.arg_days args in
  let dimension := CostAnalysis.arg_group_by args in
  let base :=
    trace s
    ++ [Stdout ("Analyzing AWS costs for the last " +:+ pretty days
                +:+ " days...");
        Api (Props.cost_query w days dimension s);
        Stdout "No cost data available"] in
  Spec.date_representable (now w (ticks s)) days ->
  Props.cost_answer w days dimension s = inr response ->
  Props.answer_groups response = [] ->
  CostAnalysis.arg_output args = Some path ->
  (CostAnalysis.endswith path ".csv" = true ->
   CostAnalysis.main py312 clients host csv_text json_text args s
   = (Ok tt, {| trace := base ++ [Stderr "No cost data to export"];
                ticks := S (ticks s) |}))
  /\ (CostAnalysis.endswith path ".csv" = false ->
      CostAnalysis.endswith path ".json" = true ->
      open_fails host path = None ->
      CostAnalysis.main py312 clients host csv_text json_text args s
      = (Ok tt, {| trace := base
                     ++ [Write path (json_text []);
                         Stdout ("Cost report exported to " +:+ path)];
                   ticks := S (ticks s) |})).
Proof.
  intros w days dimension base Hwin Hans Hgroups Hout.
  rewrite (cost_main_no_groups _ _ _ _ _ _ _ response) by done.
  rewrite Hout. fold w days dimension. unfold base. clear base. split.
  - intros Hcsv. rewrite (endswith_nonempty path ".csv") by done.
    rewrite Hcsv. unfold CostAnalysis.export_to_csv, eprint, emit. simpl.
    by rewrite <- !app_assoc.
  - intros Hcsv Hjson Hopen. rewrite (endswith_nonempty path ".json") by done.
    rewrite Hcsv, Hjson. unfold CostAnalysis.export_to_json, try_except,
      write_file, bind, print, emit.
    rewrite Hopen. simpl. by rewrite <- !app_assoc.
Qed.

Lemma empty_cost_answer_leaves_the_csv_unwritten_witness :
  exists s',
    CostAnalysis.main true (fun _ => Examples.empty_world)
      Examples.empty_world (fun _ => "Value,Cost") (fun _ => "[]")
      (Cases.report (Some "costs.csv")) st0
    = (Ok tt, s')
    /\ Props.writes (trace s') = []
    /\ stderr (trace s') = ["No cost data to export"].
Proof.
  destruct (empty_cost_answer_leaves_the_csv_unwritten true
              (fun _ => Examples.empty_world) Examples.empty_world
              (fun _ => "Value,Cost") (fun _ => "[]")
              (Cases.report (Some "costs.csv")) st0
              {| ResultsByTime := None |} "costs.csv"
              ltac:(split; by vm_compute) eq_refl eq_refl eq_refl)
    as [Hcsv _].
  eexists. split; [exact (Hcsv eq_refl)|]. by split.
Defined.

Lemma cost_rows_bad dimension rgs :
  Exists (fun rg => Keys rg.2 = [] \/ PyFloat.parse (Amount rg.2) = None) rgs ->
  exists e, Props.cost_rows dimension rgs = inl e
            /\ (exn_type e = "IndexError" \/ exn_type e = "ValueError").
Proof.
  induction rgs as [|rg rgs IH]; intros Hbad; [by apply Exists_nil in Hbad|].
  simpl. unfold Props.cost_row.
  destruct (Keys rg.2) as [|value more] eqn:Hkeys.
  { eexists. split; [done|by left]. }
  destruct (PyFloat.parse (Amount rg.2)) as [cost|] eqn:Hamount.
  2:{ eexists. split; [done|by right]. }
  apply Exists_cons in Hbad as [[?|?]|Hbad]; [congruence..|].
  destruct (IH Hbad) as (e & -> & He). by exists e.
Qed.

Lemma cost_rows_length dimension rgs rows :
  Props.cost_rows dimension rgs = inr rows -> length rows = length rgs.
Proof.
  revert rows. induction rgs as [|rg rgs IH]; intros rows; simpl.
  - by intros [= <-].
  - destruct (Props.cost_row dimension rg); [done|].
    destruct (Props.cost_rows dimension rgs); [done|].
    intros [= <-]. simpl. f_equal. by apply IH.
Qed.

(** X13: a group of the cost answer that has no key, or whose amount
    [float] does not accept, ends the cost script with an exception and
    without any report.  Where the first day of the period is a day a
    [date] can hold, the run prints its opening line, issues the query
    and raises [IndexError] or [ValueError]; nothing of the groups read
    before the faulty one is printed or written. *)
Theorem malformed_cost_group_ends_the_report
    py312 clients host csv_text json_text args s response :
  let w := clients (CostAnalysis.arg_region args) in
  let days := CostAnalysis.arg_days args in
  let dimension := CostAnalysis.arg_group_by args in
  Spec.date_representable (now w (ticks s)) days ->
  Props.cost_answer w days dimension s = inr response ->
  Exists (fun rg => Keys rg.2 = [] \/ PyFloat.parse (Amount rg.2) = None)
    (Props.answer_groups response) ->
  exists e,
    (exn_type e = "IndexError" \/ exn_type e = "ValueError")
    /\ CostAnalysis.main py312 clients host csv_text json_text args s
       = (Raise e,
          {| trace := trace s
               ++ [Stdout ("Analyzing AWS costs for the last "
                           +:+ pretty days +:+ " days...");
                   Api (Props.cost_query w days dimension s)];
             ticks := S (ticks s) |}).
Proof.
  intros w days dimension Hwin Hans Hbad.
  destruct (cost_rows_bad dimension _ Hbad) as (e & Hrows & He).
  exists e. split; [done|].
  rewrite cost_main_start. unfold bind at 1.
  rewrite analyze_costs_spec by done. cbv zeta.
  set (s0 := {| trace := _ ++ [Stdout _]; ticks := ticks s |}).
  change (Props.cost_answer _ _ _ s0) with (Props.cost_answer w days dimension s).
  change (Props.cost_query _ _ _ s0) with (Props.cost_query w days dimension s).
  rewrite Hans. fold dimension. rewrite Hrows. unfold s0. simpl.
  by rewrite <- !app_assoc.
Qed.

Lemma malformed_cost_group_ends_the_report_witness :
  exists e s',
    CostAnalysis.main true (fun _ => Cases.garbled_costs)
      Examples.empty_world (fun _ => EmptyString) (fun _ => EmptyString)
      (Cases.report None) st0
    = (Raise e, s')
    /\ stdout (trace s') = ["Analyzing AWS costs for the last 30 days..."].
Proof.
  destruct (malformed_cost_group_ends_the_report true
              (fun _ => Cases.garbled_costs) Examples.empty_world
              (fun _ => EmptyString) (fun _ => EmptyString)
              (Cases.report None) st0
              {| ResultsByTime :=
                   Some [{| TimePeriodStart := "2024-05-01";
                            TimePeriodEnd := "2024-06-01";
                            Groups := Some
                              [{| Keys := ["Amazon Elastic Compute Cloud"];
                                  Amount := "100.00"; Unit := "USD" |};
                               {| Keys := ["Tax"]; Amount := "n/a";
                                  Unit := "USD" |}] |}] |}
              ltac:(split; by vm_compute) eq_refl)
    as (e & _ & Hrun).
  { apply Exists_cons_tl, Exists_cons_hd. right. by vm_compute. }
  exists e. eexists. split; [exact Hrun|]. by vm_compute.
Defined.

(** *** The order of the report *)

Lemma ltb_leb (a b : float) :
  PrimFloat.ltb a b = true -> PrimFloat.leb a b = true.
Proof.
  rewrite FloatAxioms.ltb_spec, FloatAxioms.leb_spec, SFltb_rank, SFleb_rank.
  intros (? & ? & ?). split_and!; [done..|by left].
Qed.

Lemma leb_trans (a b c : float) :
  PrimFloat.leb a b = true -> PrimFloat.leb b c = true ->
  PrimFloat.leb a c = true.
Proof.
  rewrite !FloatAxioms.leb_spec, !SFleb_rank. unfold Props.before.
  intros (? & ? & [?|Hab]) (? & ? & [?|Hbc]); split_and!; try done.
  - left. lia.
  - left. by rewrite <- Hbc.
  - left. by rewrite Hab.
  - right. by rewrite Hab.
Qed.

Lemma insert_desc_perm r sorted :
  CostAnalysis.insert_desc r sorted ≡ₚ r :: sorted.
Proof.
  induction sorted as [|r' rest IH]; simpl; [done|].
  destruct (PrimFloat.ltb _ _); [|done].
  rewrite IH. apply Permutation_swap.
Qed.

Lemma sort_desc_perm records : CostAnalysis.sort_desc records ≡ₚ records.
Proof.
  induction records as [|r records IH]; simpl; [done|].
  fold (CostAnalysis.sort_desc records). by rewrite insert_desc_perm, IH.
Qed.

Lemma insert_desc_sorted r sorted :
  Props.not_nan (CostAnalysis.Cost r) ->
  Forall (fun x => Props.not_nan (CostAnalysis.Cost x)) sorted ->
  Props.descending sorted ->
  Props.descending (CostAnalysis.insert_desc r sorted).
Proof.
  intros Hr. induction sorted as [|r' rest IH]; intros Hnan Hsorted; simpl.
  - done.
  - apply Forall_cons in Hnan as [Hr' Hnan]. destruct Hsorted as [Hhead Hrest].
    destruct (PrimFloat.ltb (CostAnalysis.Cost r) (CostAnalysis.Cost r'))
      eqn:Hlt; simpl.
    + split; [|by apply IH].
      rewrite insert_desc_perm. constructor; [|done].
      unfold Props.not_cheaper. by apply ltb_leb.
    + assert (Props.not_cheaper r r') as Hrr'.
      { unfold Props.not_cheaper. by apply leb_total. }
      split; [|done]. constructor; [done|].
      eapply Forall_impl; [exact Hhead|]. intros x Hx.
      unfold Props.not_cheaper in *. by eapply leb_trans.
Qed.

Lemma sort_desc_sorted records :
  Forall (fun x => Props.not_nan (CostAnalysis.Cost x)) records ->
  Props.descending (CostAnalysis.sort_desc records).
Proof.
  induction 1 as [|r records Hr Hnan IH]; simpl; [done|].
  fold (CostAnalysis.sort_desc records).
  apply insert_desc_sorted; [done| |done].
  by rewrite sort_desc_perm.
Qed.

(** X14: the analysis returns one record for each group of the answer,
    the most expensive first.  When it returns, the query was answered,
    every group gave a record, the result is a rearrangement of those
    records, and, no cost in it being nan, each record costs at least as
    much as every record after it. *)
Theorem cost_records_are_sorted_by_cost self days dimension s records s' :
  CostAnalysis.analyze_costs self days dimension s = (Ok records, s') ->
  exists response rows,
    Props.cost_answer (CostAnalysis.client self) days dimension s
    = inr response
    /\ Props.cost_rows dimension (Props.answer_groups response) = inr rows
    /\ length rows = length (Props.answer_groups response)
    /\ records ≡ₚ rows
    /\ (Forall (fun r => Props.not_nan (CostAnalysis.Cost r)) records ->
        Props.descending records).
Proof.
  destruct (decide (Spec.date_representable
                      (now (CostAnalysis.client self) (ticks s)) days))
    as [Hwin|Hwin].
  2:{ destruct (analyze_costs_overflow self days dimension s Hwin)
        as (e & _ & ->). done. }
  rewrite analyze_costs_spec by done. cbv zeta.
  destruct (Props.cost_answer _ _ _ _) as [e|response]; [done|].
  destruct (Props.cost_rows _ _) as [e|rows] eqn:Hrows; [done|].
  intros [= <- <-]. exists response, rows.
  split_and!; [done|done|by eapply cost_rows_length|apply sort_desc_perm|].
  intros Hnan. apply sort_desc_sorted. by rewrite <- sort_desc_perm.
Qed.

Lemma cost_records_are_sorted_by_cost_witness :
  exists records s',
    CostAnalysis.analyze_costs {| CostAnalysis.client := Examples.two_costs |}
      30 "SERVICE" st0 = (Ok records, s')
    /\ CostAnalysis.Value <$> records
       = ["Amazon Elastic Compute Cloud"; "Amazon Simple Storage Service"]
    /\ Props.descending records.
Proof.
  destruct (CostAnalysis.analyze_costs
              {| CostAnalysis.client := Examples.two_costs |} 30 "SERVICE" st0)
    as [[records| |] s'] eqn:Hrun; try (by vm_compute in Hrun).
  destruct (cost_records_are_sorted_by_cost _ _ _ _ _ _ Hrun)
    as (response & rows & _ & _ & _ & _ & Hsorted).
  exists records, s'. vm_compute in Hrun. injection Hrun as <- <-.
  split_and!; [done|done|]. apply Hsorted. by repeat constructor.
Defined.

(** *** The calls and files of a run of the cost script *)

Lemma writes_app tr1 tr2 :
  Props.writes (tr1 ++ tr2) = Props.writes tr1 ++ Props.writes tr2.
Proof. apply omap_app. Qed.

Lemma api_calls_stdout out : api_calls (Stdout <$> out) = [].
Proof. by induction out. Qed.

Lemma writes_stdout out : Props.writes (Stdout <$> out) = [].
Proof. by induction out. Qed.

Lemma cost_rows_error dimension rgs e :
  Props.cost_rows dimension rgs = inl e ->
  exn_type e = "IndexError" \/ exn_type e = "ValueError".
Proof.
  induction rgs as [|rg rgs IH]; simpl; [done|]. unfold Props.cost_row.
  destruct (Keys rg.2); [intros [= <-]; by left|].
  destruct (PyFloat.parse _); [|intros [= <-]; by right].
  destruct (Props.cost_rows dimension rgs); [|done].
  intros [= <-]. by apply IH.
Qed.

(** The export that ends the script: no remote call, and a file only at
    the path of [--output]. *)
Lemma cost_export_run host csv_text json_text records output s :
  exists r s' tail,
    match output with
    | None => ret tt
    | Some output =>
        if bool_decide (output = EmptyString) then ret tt
        else if CostAnalysis.endswith output ".csv" then
          CostAnalysis.export_to_csv host csv_text records output
        else if CostAnalysis.endswith output ".json" then
          CostAnalysis.export_to_json host json_text records output
        else
          eprint "Error: Output file must have .csv or .json extension" ;;
          sys_exit 1
    end s = (r, s')
    /\ trace s' = trace s ++ tail
    /\ api_calls tail = []
    /\ (Props.writes tail = []
        \/ exists path text,
             output = Some path /\ open_fails host path = None
             /\ r = Ok tt /\ Props.writes tail = [(path, text)])
    /\ match r with
       | Ok _ => True
       | Raise _ => False
       | Exit c => c = 1
       end.
Proof.
  destruct output as [path|].
  2:{ exists (Ok tt), s, []. rewrite app_nil_r. split_and!; try done. by left. }
  case_bool_decide.
  { exists (Ok tt), s, []. rewrite app_nil_r. split_and!; try done. by left. }
  destruct (CostAnalysis.endswith path ".csv").
  { unfold CostAnalysis.export_to_csv. destruct records as [|r0 rest].
    { eexists _, _, [_]. split_and!; [reflexivity|done|done|by left|done]. }
    unfold try_except, write_file, bind, raise, print, eprint, emit, sys_exit.
    destruct (open_fails host path) as [e|] eqn:Hopen; simpl.
    - eexists _, _, [_]. split_and!; [reflexivity|done|done|by left|done].
    - eexists _, _, [_; _].
      split_and!; [reflexivity|by rewrite <- app_assoc|done| |done].
      right. by eexists _, _. }
  destruct (CostAnalysis.endswith path ".json").
  { unfold CostAnalysis.export_to_json.
    unfold try_except, write_file, bind, raise, print, eprint, emit, sys_exit.
    destruct (open_fails host path) as [e|] eqn:Hopen; simpl.
    - eexists _, _, [_]. split_and!; [reflexivity|done|done|by left|done].
    - eexists _, _, [_; _].
      split_and!; [reflexivity|by rewrite <- app_assoc|done| |done].
      right. by eexists _, _. }
  eexists _, _, [_]. split_and!; [reflexivity|done|done|by left|done].
Qed.

(** X15: a run of the cost script makes at most one remote call, the
    cost query, and writes at most one file, at the path of [--output].
    Where the first day of the period is a day a [date] can hold, the run
    issues the query, whatever the answer and the machine, and ends by
    returning, by exit status 1, or with the [IndexError] or [ValueError]
    of a malformed group; where it is not, the run ends with
    [OverflowError] and has issued no call.  A file is written only by a
    run that returns. *)
Theorem cost_script_asks_once_and_writes_at_most_one_file
    py312 clients host csv_text json_text args s :
  let w := clients (CostAnalysis.arg_region args) in
  let days := CostAnalysis.arg_days args in
  let dimension := CostAnalysis.arg_group_by args in
  let window := Spec.date_representable (now w (ticks s)) days in
  exists r s',
    CostAnalysis.main py312 clients host csv_text json_text args s = (r, s')
    /\ api_calls (trace s')
       = api_calls (trace s)
         ++ (if decide window then [Props.cost_query w days dimension s]
             else [])
    /\ (Props.writes (trace s') = Props.writes (trace s)
        \/ exists path text,
             CostAnalysis.arg_output args = Some path
             /\ open_fails host path = None /\ r = Ok tt
             /\ Props.writes (trace s')
                = Props.writes (trace s) ++ [(path, text)])
    /\ match r with
       | Ok _ => window
       | Raise e =>
           if decide window
           then exn_type e = "IndexError" \/ exn_type e = "ValueError"
           else exn_type e = "OverflowError"
       | Exit c => c = 1 /\ window
       end
    /\ (~ window -> exists e, r = Raise e).
Proof.
  intros w days dimension window.
  rewrite cost_main_start. unfold bind at 1.
  set (s0 := {| trace := _ ++ [Stdout _]; ticks := ticks s |}).
  destruct (decide window) as [Hwin|Hwin].
  2:{ destruct (analyze_costs_overflow
                  {| CostAnalysis.client := w |} days dimension s0 Hwin)
        as (e & He & Hrun).
      change (CostAnalysis.analyze_costs _ _ _ s0)
        with (CostAnalysis.analyze_costs {| CostAnalysis.client := w |}
                days dimension s0).
      rewrite Hrun.
      eexists _, _. split; [reflexivity|]. unfold s0. simpl.
      rewrite !api_calls_app, !writes_app. simpl. rewrite !app_nil_r.
      split_and!; [done|by left|done|by eexists]. }
  rewrite analyze_costs_spec by done. cbv zeta.
  change (Props.cost_answer _ _ _ s0) with (Props.cost_answer w days dimension s).
  change (Props.cost_query _ _ _ s0) with (Props.cost_query w days dimension s).
  destruct (Props.cost_answer w days dimension s) as [e|response].
  { eexists _, _. split; [reflexivity|]. unfold s0. simpl.
    rewrite !api_calls_app, !writes_app. simpl. rewrite !app_nil_r.
    split_and!; first [done | by left]. }
  fold dimension.
  destruct (Props.cost_rows dimension _) as [e|rows] eqn:Hrows.
  { eexists _, _. split; [reflexivity|]. unfold s0. simpl.
    rewrite !api_calls_app, !writes_app. simpl. rewrite !app_nil_r.
    split_and!; first [done | by left | by eapply cost_rows_error]. }
  set (records := CostAnalysis.calculate_percentage py312 _).
  set (s1 := {| trace := trace s0 ++ [Api _]; ticks := _ |}).
  destruct (print_summary_prints py312 records (CostAnalysis.arg_top args) s1)
    as ([] & out & Hprint).
  unfold bind at 1. rewrite Hprint.
  set (s2 := {| trace := trace s1 ++ _; ticks := _ |}).
  destruct (cost_export_run host csv_text json_text records
              (CostAnalysis.arg_output args) s2)
    as (r & s' & tail & Hrun & Htr & Hapi & Hwr & Hr).
  exists r, s'. split; [exact Hrun|]. rewrite Htr. unfold s2, s1, s0. simpl.
  rewrite !api_calls_app, !writes_app, Hapi, api_calls_stdout, writes_stdout.
  simpl. rewrite !app_nil_r.
  split; [done|]. split; [|split; [by destruct r|done]].
  destruct Hwr as [->|(path & text & ? & ? & ? & ->)].
  - left. by rewrite app_nil_r.
  - right. by exists path, text.
Qed.

(** *** What the address and snapshot scans report *)

Lemma unused_ips_loop region addrs found s :
  for_each addrs (fun found address =>
    match Address.InstanceId address, Address.NetworkInterfaceId address with
    | None, None =>
        ret (found ++ [{|
          UnusedResources.ip_PublicIp := Address.PublicIp address;
          UnusedResources.ip_AllocationId := Address.AllocationId address;
          UnusedResources.ip_Region := region;
          UnusedResources.ip_Finding := "Unused Elastic IP";
          UnusedResources.ip_Recommendation := "Release Elastic IP" |}])
    | _, _ => ret found
    end) found s
  = (Ok (found ++ (Props.unused_ip region
                   <$> filter Props.unassociated addrs)), s).
Proof.
  revert found. induction addrs as [|a addrs IH]; intros found; simpl.
  - by rewrite app_nil_r.
  - unfold bind. unfold Props.unassociated at 1.
    destruct (Address.InstanceId a) eqn:Hi,
      (Address.NetworkInterfaceId a) eqn:Hn; unfold ret at 1; rewrite IH.
    + rewrite filter_cons_False; [done|]. unfold Props.unassociated.
      intros [? ?]. congruence.
    + rewrite filter_cons_False; [done|]. unfold Props.unassociated.
      intros [? ?]. congruence.
    + rewrite filter_cons_False; [done|]. unfold Props.unassociated.
      intros [? ?]. congruence.
    + rewrite filter_cons_True by done. simpl.
      by rewrite <- app_assoc.
Qed.

(** X16: the address scan reports an address exactly when it has neither
    an instance nor a network interface.  It makes one call, the listing
    of the addresses, and returns a finding for each listed address that
    has neither key, in listing order; an address that is attached to a
    network interface only is not reported. *)
Theorem unused_ips_are_the_unassociated_addresses self s :
  UnusedResources.find_unused_elastic_ips self s
  = (Ok (Props.unused_ip (UnusedResources.region self)
         <$> filter Props.unassociated
               (addresses (UnusedResources.client self))),
     {| trace := trace s ++ [Api describe_addresses]; ticks := ticks s |}).
Proof.
  unfold UnusedResources.find_unused_elastic_ips, bind, emit.
  by rewrite unused_ips_loop.
Qed.

Lemma old_snapshots_loop self days
    (body : list UnusedResources.OldSnapshot -> Snapshot.t
            -> M (list UnusedResources.OldSnapshot)) :
  (forall old sn s,
     Spec.representable (now (UnusedResources.client self) (ticks s)) days ->
     body old sn s
     = (Ok (old ++ if bool_decide
                        (Snapshot.StartTime sn
                         < now (UnusedResources.client self) (ticks s)
                           - timedelta_days days)
                   then [Props.old_snapshot self days sn] else []),
        {| trace := trace s; ticks := S (ticks s) |})) ->
  forall snaps old s,
    Spec.window_ok (UnusedResources.client self) days (ticks s)
      (length snaps) ->
    exists s',
      for_each snaps body old s
      = (Ok (old ++ Props.old_snapshots self days (ticks s) snaps), s')
      /\ trace s' = trace s.
Proof.
  intros Hbody snaps. induction snaps as [|sn snaps IH]; intros old s Hwin.
  - exists s. simpl. by rewrite app_nil_r.
  - destruct Hwin as [Hrep Hwin].
    cbn [for_each Props.old_snapshots]. unfold bind. rewrite Hbody by done.
    set (s1 := {| trace := trace s; ticks := S (ticks s) |}).
    destruct (IH (old ++ if bool_decide
                             (Snapshot.StartTime sn
                              < now (UnusedResources.client self) (ticks s)
                                - timedelta_days days)
                         then [Props.old_snapshot self days sn] else []) s1
                Hwin)
      as (s' & Hrun & Htr).
    exists s'. split; [|done]. rewrite Hrun. by rewrite <- app_assoc.
Qed.

Lemma elem_of_old_snapshots self days t snaps k sn :
  snaps !! k = Some sn ->
  Snapshot.StartTime sn
  < now (UnusedResources.client self) (t + k) - timedelta_days days ->
  Props.old_snapshot self days sn ∈ Props.old_snapshots self days t snaps.
Proof.
  revert t k. induction snaps as [|sn' snaps IH]; intros t k; [done|].
  destruct k as [|k]; simpl.
  - intros [= ->]. rewrite Nat.add_0_r. intros Hold.
    rewrite bool_decide_eq_true_2 by done. by left.
  - intros Hk Hold. apply elem_of_app. right. apply (IH (S t) k Hk).
    by replace (S t + k)%nat with (t + S k)%nat by lia.
Qed.

Lemma old_snapshots_tags self days t snaps snaps' :
  Forall2 (fun a b => Snapshot.SnapshotId a = Snapshot.SnapshotId b
                      /\ Snapshot.StartTime a = Snapshot.StartTime b
                      /\ Snapshot.VolumeId a = Snapshot.VolumeId b)
    snaps snaps' ->
  Props.old_snapshots self days t snaps
  = Props.old_snapshots self days t snaps'.
Proof.
  intros H. revert t. induction H as [|a b snaps snaps' (Hid & Hst & Hv) _ IH];
    intros t; simpl; [done|].
  rewrite IH, Hst. unfold Props.old_snapshot. by rewrite Hid, Hst, Hv.
Qed.

(** X17: the old-snapshot scan looks at start times only.  Where the
    window can be computed at the clock reading of every listed snapshot,
    the scan returns the findings for the listed snapshots that are older
    than the window, each compared with its own clock reading, in listing
    order; a listed snapshot that is older than the window is reported
    whatever its tags, the override tag of the cleanup included, and two
    listings that differ in tags only give the same findings. *)
Theorem old_snapshot_scan_looks_at_start_times_only self days s :
  let listing := Spec.cleanup_listing (UnusedResources.client self) in
  Spec.window_ok (UnusedResources.client self) days (ticks s)
    (length listing) ->
  exists s',
    UnusedResources.find_old_ebs_snapshots self days s
    = (Ok (Props.old_snapshots self days (ticks s) listing), s')
    /\ (forall k sn,
          listing !! k = Some sn ->
          Snapshot.StartTime sn
          < now (UnusedResources.client self) (ticks s + k)
            - timedelta_days days ->
          Props.old_snapshot self days sn
          ∈ Props.old_snapshots self days (ticks s) listing)
    /\ (forall t snaps snaps',
          Forall2 (fun a b =>
                     Snapshot.SnapshotId a = Snapshot.SnapshotId b
                     /\ Snapshot.StartTime a = Snapshot.StartTime b
                     /\ Snapshot.VolumeId a = Snapshot.VolumeId b)
            snaps snaps' ->
          Props.old_snapshots self days t snaps
          = Props.old_snapshots self days t snaps').
Proof.
  intros listing Hwin. unfold UnusedResources.find_old_ebs_snapshots,
    caller_account, paginate_snapshots.
  unfold bind at 1, bind at 1, emit, ret at 1. simpl.
  unfold bind at 1, bind at 1, ret at 1. simpl.
  set (s1 := {| trace := _; ticks := ticks s |}).
  rewrite for_each_flat.
  match goal with
  | |- context [for_each _ ?body [] s1] =>
      destruct (old_snapshots_loop self days body) with (snaps := listing)
        (old := @nil UnusedResources.OldSnapshot) (s := s1)
        as (s' & Hrun & _)
  end.
  { intros old sn s0 Hrep. unfold datetime_now, bind at 1. cbv beta iota.
    rewrite window_start by done. cbn [trace ticks].
    case_bool_decide; destruct (decide _); try done.
    by rewrite app_nil_r. }
  { exact Hwin. }
  exists s'. split_and!.
  - exact Hrun.
  - intros k sn. apply elem_of_old_snapshots.
  - intros t snaps snaps'. apply old_snapshots_tags.
Qed.

Lemma old_snapshot_scan_looks_at_start_times_only_witness :
  exists found s',
    UnusedResources.find_old_ebs_snapshots
      {| UnusedResources.client := Examples.snapshot_shelf;
         UnusedResources.region := "us-east-1" |} 30 st0
    = (Ok found, s')
    /\ UnusedResources.os_SnapshotId <$> found = ["snap-old"; "snap-kept"].
Proof.
  destruct (old_snapshot_scan_looks_at_start_times_only
              {| UnusedResources.client := Examples.snapshot_shelf;
                 UnusedResources.region := "us-east-1" |} 30 st0)
    as (s' & Hrun & _).
  { repeat split; by vm_compute. }
  eexists _, s'. split; [exact Hrun|]. by vm_compute.
Defined.

(** *** Windows of days that cannot be computed *)

(** The cleanup loop over snapshots that all carry the override tag reads
    no clock and issues no call. *)
Lemma cleanup_loop_protected ec2 days dry protected ids s :
  Forall (fun sn => SnapshotCleanup.has_retain
                      (default [] (Snapshot.Tags sn)) = true) protected ->
  exists s',
    for_each protected (Spec.cleanup_step ec2 days dry) ids s = (Ok ids, s')
    /\ api_calls (trace s') = api_calls (trace s)
    /\ ticks s' = ticks s.
Proof.
  intros Hall. revert s. induction Hall as [|sn protected Hsn _ IH]; intros s.
  - by exists s.
  - cbn [for_each]. unfold bind at 1, Spec.cleanup_step at 1. rewrite Hsn.
    unfold print, emit, bind at 1, ret at 1. cbv beta iota.
    set (s1 := {| trace := _; ticks := _ |}).
    destruct (IH s1) as (s' & Hrun & Hapi & Hticks).
    exists s'. split_and!; [exact Hrun| |done].
    rewrite Hapi. unfold s1. simpl. apply api_calls_snoc_stdout.
Qed.

(** X18: a retention window that cannot be computed ends the cleanup with
    [OverflowError] at the first listed snapshot without the override
    tag, in either mode.  The run has made its two listing calls and no
    other call by then, so it deletes nothing, the snapshots listed after
    that one are not looked at, and no list is returned. *)
Theorem uncomputable_retention_ends_the_cleanup
    ec2 retention_days dry_run s protected sn rest :
  Spec.cleanup_listing ec2 = protected ++ sn :: rest ->
  Forall (fun p => SnapshotCleanup.has_retain
                     (default [] (Snapshot.Tags p)) = true) protected ->
  SnapshotCleanup.has_retain (default [] (Snapshot.Tags sn)) = false ->
  ~ Spec.representable (now ec2 (ticks s)) retention_days ->
  exists e s',
    SnapshotCleanup.cleanup_snapshots ec2 retention_days dry_run s
    = (Raise e, s')
    /\ exn_type e = "OverflowError"
    /\ api_calls (trace s')
       = api_calls (trace s)
         ++ [get_caller_identity; describe_snapshots [account ec2]].
Proof.
  intros Hlist Hprot Hsn Hwin. rewrite cleanup_snapshots_flat.
  unfold bind at 1, caller_account, bind at 1, emit, ret. simpl.
  unfold bind at 1, paginate_snapshots, bind at 1, emit, ret. simpl.
  set (s1 := {| trace := _; ticks := _ |}).
  change (Spec.all_snapshots (snapshots_pages ec2 [account ec2]))
    with (Spec.cleanup_listing ec2).
  rewrite Hlist, for_each_app. unfold bind at 1.
  destruct (cleanup_loop_protected ec2 retention_days dry_run protected [] s1
              Hprot) as (s2 & -> & Hapi & Hticks).
  cbn [for_each]. unfold bind at 1, Spec.cleanup_step at 1. rewrite Hsn.
  unfold datetime_now, bind at 1. cbv beta iota.
  match goal with
  | |- context [bind (timedelta retention_days) ?k ?s3] =>
      destruct (window_overflow (now ec2 (ticks s2)) retention_days
                  (fun cutoff =>
                     if decide (Snapshot.StartTime sn < cutoff) then
                       print ("Found old snapshot: " +:+ Snapshot.SnapshotId sn
                              +:+ " (created "
                              +:+ str_datetime ec2 (Snapshot.StartTime sn)
                              +:+ ")") ;;
                       if negb dry_run then
                         try_except
                           (issue ec2 (delete_snapshot (Snapshot.SnapshotId sn)) ;;
                            print ("Deleted snapshot: "
                                   +:+ Snapshot.SnapshotId sn) ;;
                            ret ([] ++ [Snapshot.SnapshotId sn]))
                           (fun e =>
                            print ("Error deleting snapshot "
                                   +:+ Snapshot.SnapshotId sn +:+ ": "
                                   +:+ exn_msg e) ;;
                            ret [])
                       else
                         print ("(Dry Run) Would have deleted snapshot: "
                                +:+ Snapshot.SnapshotId sn) ;;
                         ret ([] ++ [Snapshot.SnapshotId sn])
                     else ret []) s3) as (e & He & Hrun)
  end.
  { rewrite Hticks. exact Hwin. }
  rewrite Hrun. exists e. eexists. split_and!; [reflexivity|exact He|].
  simpl. rewrite Hapi. unfold s1. simpl.
  by rewrite !api_calls_snoc_api, <- app_assoc.
Qed.

Lemma uncomputable_retention_ends_the_cleanup_witness :
  exists e s',
    SnapshotCleanup.cleanup_snapshots Examples.snapshot_shelf 740000 false st0
    = (Raise e, s')
    /\ exn_msg e = "date value out of range"
    /\ mutations (trace s') = [].
Proof.
  destruct (uncomputable_retention_ends_the_cleanup Examples.snapshot_shelf
              740000 false st0 []
              (Examples.snapshot "snap-old" 45 None)
              [Examples.snapshot "snap-new" 10 None;
               Examples.snapshot "snap-kept" 45
                 (Some [Examples.tag "Retain" "true"])])
    as (e & s' & Hrun & _ & _).
  - reflexivity.
  - constructor.
  - reflexivity.
  - intros [_ [H _]]. by vm_compute in H.
  - exists e, s'. split; [exact Hrun|].
    vm_compute in Hrun. by injection Hrun as <- <-.
Defined.

Lemma window_overflow_any (t d : Z) s :
  ~ Spec.representable t d ->
  exists e,
    exn_type e = "OverflowError"
    /\ forall A (k : Z -> M A),
         bind (timedelta d) (fun delta => bind (datetime_sub t delta) k) s
         = (Raise e, s).
Proof.
  intros Hn. unfold timedelta, Spec.representable in *.
  destruct (bool_decide (-999999999 <= d <= 999999999)) eqn:Hd.
  - apply bool_decide_eq_true in Hd.
    exists (OverflowError "date value out of range"). split; [done|].
    intros A k. unfold bind at 1, ret at 1.
    unfold datetime_sub. by rewrite bool_decide_eq_false_2 by tauto.
  - destruct (bool_decide (-2147483648 <= d <= 2147483647)).
    + by exists (OverflowError ("days=" +:+ pretty d
                               +:+ "; must have magnitude <= 999999999")).
    + by exists (OverflowError "Python int too large to convert to C int").
Qed.

(** X19: a window of days that cannot be computed ends either
    utilization scan with [OverflowError] at the first running instance.
    The scan has listed the running instances and made no other call by
    then: no metric is asked for and no finding is returned. *)
Theorem uncomputable_window_ends_the_utilization_scans :
  (forall self T days s i rest,
     Spec.running_instances (UnusedResources.client self) = i :: rest ->
     ~ Spec.representable (now (UnusedResources.client self) (ticks s)) days ->
     exists e s',
       UnusedResources.find_idle_ec2_instances self T days s = (Raise e, s')
       /\ exn_type e = "OverflowError"
       /\ api_calls (trace s')
          = api_calls (trace s)
            ++ [describe_instances
                  [{| Name := "instance-state-name";
                      Values := ["running"] |}]])
  /\ (forall self days T Tm s i rest,
        Spec.running_instances (Rightsizing.client self) = i :: rest ->
        ~ Spec.representable (now (Rightsizing.client self) (ticks s)) days ->
        exists e s',
          Rightsizing.get_right_sizing_recommendations self days T Tm s
          = (Raise e, s')
          /\ exn_type e = "OverflowError"
          /\ api_calls (trace s')
             = api_calls (trace s)
               ++ [describe_instances
                     [{| Name := "instance-state-name";
                         Values := ["running"] |}]]).
Proof.
  split.
  - intros self T days s i rest Hlist Hwin.
    rewrite find_idle_ec2_instances_flat.
    unfold paginate_instances, bind at 1, bind at 1, emit, ret at 1. simpl.
    change (Spec.all_instances _)
      with (Spec.running_instances (UnusedResources.client self)).
    rewrite Hlist. cbn [for_each].
    unfold bind at 1, Spec.idle_step, datetime_now, bind at 1.
    cbv beta iota.
    match goal with
    | |- context [bind (timedelta days) _ ?s1] =>
        destruct (window_overflow_any
                    (now (UnusedResources.client self) (ticks s)) days s1 Hwin)
          as (e & He & Hrun)
    end.
    rewrite Hrun. exists e. eexists. split_and!; [reflexivity|exact He|].
    simpl. by rewrite api_calls_snoc_api.
  - intros self days T Tm s i rest Hlist Hwin.
    rewrite get_right_sizing_recommendations_flat.
    unfold paginate_instances, bind at 1, bind at 1, emit, ret at 1. simpl.
    change (Spec.all_instances _)
      with (Spec.running_instances (Rightsizing.client self)).
    rewrite Hlist. cbn [for_each].
    unfold bind at 1, Spec.rightsizing_step, datetime_now, bind at 1.
    cbv beta iota.
    match goal with
    | |- context [bind (timedelta days) _ ?s1] =>
        destruct (window_overflow_any
                    (now (Rightsizing.client self) (ticks s)) days s1 Hwin)
          as (e & He & Hrun)
    end.
    rewrite Hrun. exists e. eexists. split_and!; [reflexivity|exact He|].
    simpl. by rewrite api_calls_snoc_api.
Qed.

Lemma uncomputable_window_ends_the_utilization_scans_witness :
  exists e s',
    UnusedResources.find_idle_ec2_instances
      {| UnusedResources.client := Examples.one_instance [3; 3; 3]%float;
         UnusedResources.region := "us-east-1" |} 5 1000000000 st0
    = (Raise e, s')
    /\ exn_msg e = "days=1000000000; must have magnitude <= 999999999".
Proof.
  destruct uncomputable_window_ends_the_utilization_scans as [Hidle _].
  destruct (Hidle {| UnusedResources.client
                       := Examples.one_instance [3; 3; 3]%float;
                     UnusedResources.region := "us-east-1" |}
              5%float 1000000000 st0 (Examples.instance "i-1" None) [])
    as (e & s' & Hrun & _ & _).
  - reflexivity.
  - intros [[_ H] _]. by vm_compute in H.
  - exists e, s'. split; [exact Hrun|].
    vm_compute in Hrun. by injection Hrun as <- <-.
Defined.
